(** * Prayer-times engine: a shallow embedding and its checked properties

    The development follows the TypeScript sources of the library:

    - [lib/utils/time.ts], [lib/utils/math.ts], [lib/utils/astronomy.ts]
      (leaf utilities),
    - [lib/engine/astronomical.ts], [lib/utils/polar.ts] (twilight and
      high-latitude rules),
    - [lib/methods/methods.ts], [lib/methods/validation.ts] (registry and
      configuration validation),
    - [lib/engine/precision.ts], [lib/engine/calculator.ts] (orchestrator),
    - [extensions/sunnah-times.ts], [api/prayer-times.ts].

    Modelling conventions.

    - A JavaScript [number] that takes part in time arithmetic is a
      rational or NaN: [option Q], [None] being NaN.  Arithmetic is exact;
      the rounding of IEEE-754 doubles and the infinities are outside the
      model.
    - A [Date] holds an integral count of milliseconds since the epoch, or
      is an Invalid Date: [option Z].  The constructor truncates its
      argument towards zero, as the language prescribes.  The bound of
      8.64e15 ms on valid time values is not modelled.
    - The host time zone is UTC, so that the local-time accessors
      ([getFullYear], [getSeconds], [setDate], ...) coincide with their
      UTC versions.
    - The trigonometric solver [SolarTime] produces doubles through
      [Math.sin], [Math.acos], ...; the orchestrator is therefore stated
      over an arbitrary solver (a [Section] variable), and the closed
      formulas of the astronomy kernel are given over the real numbers. *)

From Stdlib Require Import ZArith QArith Qround Qabs Bool List.
From Stdlib Require Import Ascii String DecimalString.
From Stdlib Require Import Reals Psatz.
Import ListNotations.

Set Implicit Arguments.

(* ================================================================= *)
(** ** JavaScript numbers and dates *)

Module JS.

Local Open Scope Q_scope.

(** A finite number or NaN. *)
Definition number := option Q.
Definition NaN : number := None.

Definition isNaN (x : number) : bool :=
  match x with None => true | Some _ => false end.

Definition lift1 (f : Q -> Q) (x : number) : number :=
  match x with Some a => Some (f a) | None => None end.

Definition lift2 (f : Q -> Q -> Q) (x y : number) : number :=
  match x, y with
  | Some a, Some b => Some (f a b)
  | _, _ => None
  end.

Definition add := lift2 Qplus.
Definition sub := lift2 Qminus.
Definition mul := lift2 Qmult.
(** Division is only ever used with a non-zero literal divisor. *)
Definition div := lift2 Qdiv.
Definition neg := lift1 Qopp.

Definition Qlt_bool (a b : Q) : bool := negb (Qle_bool b a).

(** Comparisons: any comparison with NaN is false. *)
Definition lt (x y : number) : bool :=
  match x, y with Some a, Some b => Qlt_bool a b | _, _ => false end.
Definition gt (x y : number) : bool := lt y x.
Definition ge (x y : number) : bool :=
  match x, y with Some a, Some b => Qle_bool b a | _, _ => false end.
Definition le (x y : number) : bool := ge y x.

(** [Math.trunc], which is also the conversion applied by [new Date(v)]. *)
Definition trunc (q : Q) : Z :=
  if Qle_bool 0 q then Qfloor q else Qceiling q.

(** [Math.round]: the nearest integer, halves going up. *)
Definition round (q : Q) : Z := Qfloor (q + (1 # 2)).

(** [x % 1] keeps the sign of the dividend. *)
Definition mod1 (q : Q) : Q := q - inject_Z (trunc q).

(** *** Dates *)

Definition Date := option Z.
Definition InvalidDate : Date := None.

Definition newDate (v : number) : Date :=
  match v with Some q => Some (trunc q) | None => None end.

Definition getTime (d : Date) : number :=
  match d with Some t => Some (inject_Z t) | None => None end.

Definition ofZ (z : Z) : number := Some (inject_Z z).

Local Open Scope Z_scope.

Definition msPerSecond : Z := 1000.
Definition msPerMinute : Z := 60000.
Definition msPerHour : Z := 3600000.
Definition msPerDay : Z := 86400000.

(** Time-value accessors of the language, on a valid time value. *)
Definition Day (t : Z) : Z := t / msPerDay.
Definition SecFromTime (t : Z) : Z := (t / msPerSecond) mod 60.
Definition utcMidnight (t : Z) : Z := msPerDay * Day t.

(** [DayFromYear] of the language definition. *)
Definition DayFromYear (y : Z) : Z :=
  365 * (y - 1970) + (y - 1969) / 4 - (y - 1901) / 100 + (y - 1601) / 400.

(** [YearFromTime]: the proleptic Gregorian year of a day number, by the
    usual era decomposition (the era starts on 0000-03-01). *)
Definition yearOfDay (day : Z) : Z :=
  let z := day + 719468 in
  let era := z / 146097 in
  let doe := z - era * 146097 in
  let yoe := (doe - doe / 1460 + doe / 36524 - doe / 146096) / 365 in
  let doy := doe - (365 * yoe + yoe / 4 - yoe / 100) in
  let mp := (5 * doy + 2) / 153 in
  let m := if mp <? 10 then mp + 3 else mp - 9 in
  yoe + era * 400 + (if m <=? 2 then 1 else 0).

Definition getFullYear (t : Z) : Z := yearOfDay (Day t).
Definition getUTCSeconds (t : Z) : Z := SecFromTime t.
Definition getSeconds (t : Z) : Z := SecFromTime t.

(** [Date.UTC(y, m, d + k, H, M, S)] where [y], [m], [d] are the UTC
    calendar fields of [base]: the fields are combined linearly. *)
Definition dateUTCFrom (base : Z) (k H M S : Z) : Z :=
  utcMidnight base + k * msPerDay + H * msPerHour + M * msPerMinute
  + S * msPerSecond.

(** [new Date(year, 0, 0)]: the last day of the previous year. *)
Definition startOfYear0 (year : Z) : Z := (DayFromYear year - 1) * msPerDay.

(** [d.setDate(d.getDate() + 1)]. *)
Definition nextDay (t : Z) : Z := t + msPerDay.

End JS.

(* ================================================================= *)
(** ** [lib/utils/time.ts] *)

Module Time.
Import JS.

(** [addMinutes(date, minutes)] and [addSeconds(date, seconds)]. *)
Definition addMinutes (date : Date) (minutes : number) : Date :=
  newDate (add (getTime date) (mul (mul minutes (Some 60%Q)) (Some 1000%Q))).

Definition addSeconds (date : Date) (seconds : number) : Date :=
  newDate (add (getTime date) (mul seconds (Some 1000%Q))).

Inductive RoundingMode := Nearest | Up | NoRounding.

(** [roundedMinute(date, rounding)]: the offset in seconds is computed
    from the seconds field alone; the milliseconds are left as they are. *)
Definition roundedMinute (date : Date) (rounding : RoundingMode) : Date :=
  let seconds : option Z :=
    match date with Some t => Some (getUTCSeconds t) | None => None end in
  let offset : number :=
    match rounding with
    | Nearest =>
        match seconds with
        | Some s => if (30 <=? s)%Z then ofZ (60 - s) else ofZ (-1 * s)
        | None => NaN
        end
    | Up =>
        match seconds with
        | Some s => if (0 <? s)%Z then ofZ (60 - s) else ofZ 0
        | None => ofZ 0
        end
    | NoRounding => ofZ 0
    end in
  addSeconds date offset.

(** [convertToTimezone]: the instants are kept in UTC. *)
Definition convertToTimezone (date : Date) (timezone : string) : Date := date.

End Time.

(* ================================================================= *)
(** ** [lib/utils/astronomy.ts]: calendar helpers *)

Module Calendar.
Import JS.
Local Open Scope Z_scope.

(** [isLeapYear(year)]; [%] is the remainder that follows the dividend. *)
Definition isLeapYear (year : Z) : bool :=
  if negb (Z.rem year 4 =? 0) then false
  else if (Z.rem year 100 =? 0) && negb (Z.rem year 400 =? 0) then false
  else true.

(** [daysSinceSolstice(dayOfYear, year, latitude)]. *)
Definition daysSinceSolstice (dayOfYear year : Z) (latitude : Q) : Z :=
  let northernOffset := 10 in
  let southernOffset := if isLeapYear year then 173 else 172 in
  let daysInYear := if isLeapYear year then 366 else 365 in
  if Qle_bool 0 latitude then
    let d := dayOfYear + northernOffset in
    if daysInYear <=? d then d - daysInYear else d
  else
    let d := dayOfYear - southernOffset in
    if d <? 0 then d + daysInYear else d.

(** [dayOfYear(date)]: whole days since the last day of the previous
    year. *)
Definition dayOfYear (date : Z) : Z :=
  let start := startOfYear0 (getFullYear date) in
  let diff := date - start in
  diff / msPerDay.

End Calendar.

(* ================================================================= *)
(** ** Season-adjusted twilight: [lib/engine/astronomical.ts] *)

Inductive Shafaq := general | ahmer | abyad.

(** The six-segment blend over the days since the solstice.  The source
    repeats this block in each of the four twilight functions. *)
Definition seasonBlend (a b c d : Q) (dyy : Z) : Q :=
  let n := inject_Z dyy in
  (if (dyy <? 91)%Z then a + ((b - a) / 91.0) * n
   else if (dyy <? 137)%Z then b + ((c - b) / 46.0) * (n - 91)
   else if (dyy <? 183)%Z then c + ((d - c) / 46.0) * (n - 137)
   else if (dyy <? 229)%Z then d + ((c - d) / 46.0) * (n - 183)
   else if (dyy <? 275)%Z then c + ((b - c) / 46.0) * (n - 229)
   else b + ((a - b) / 91.0) * (n - 275))%Q.

Module Astronomical.
Import JS Time Calendar.
Local Open Scope Q_scope.

Definition seasonAdjustedMorningTwilight
    (latitude : Q) (dayOfYearValue year : Z) (sunrise : Date) : Date :=
  let a := 75 + (28.65 / 55.0) * Qabs latitude in
  let b := 75 + (19.44 / 55.0) * Qabs latitude in
  let c := 75 + (32.74 / 55.0) * Qabs latitude in
  let d := 75 + (48.1 / 55.0) * Qabs latitude in
  let dyy := daysSinceSolstice dayOfYearValue year latitude in
  let adjustment := seasonBlend a b c d dyy in
  addSeconds sunrise (ofZ (round (adjustment * -60.0))).

(** The coefficients chosen by the evening function for each shafaq. *)
Definition eveningCoefficients (latitude : Q) (shafaq : Shafaq)
  : Q * Q * Q * Q :=
  match shafaq with
  | ahmer =>
      (62 + (17.4 / 55.0) * Qabs latitude,
       62 - (7.16 / 55.0) * Qabs latitude,
       62 + (5.12 / 55.0) * Qabs latitude,
       62 + (19.44 / 55.0) * Qabs latitude)
  | abyad =>
      (75 + (25.6 / 55.0) * Qabs latitude,
       75 + (7.16 / 55.0) * Qabs latitude,
       75 + (36.84 / 55.0) * Qabs latitude,
       75 + (81.84 / 55.0) * Qabs latitude)
  | general =>
      (75 + (25.6 / 55.0) * Qabs latitude,
       75 + (7.16 / 55.0) * Qabs latitude,
       75 + (36.84 / 55.0) * Qabs latitude,
       75 + (81.84 / 55.0) * Qabs latitude)
  end.

Definition seasonAdjustedEveningTwilight
    (latitude : Q) (dayOfYearValue year : Z) (sunset : Date)
    (shafaq : Shafaq) : Date :=
  let '(a, b, c, d) := eveningCoefficients latitude shafaq in
  let dyy := daysSinceSolstice dayOfYearValue year latitude in
  let adjustment := seasonBlend a b c d dyy in
  addSeconds sunset (ofZ (round (adjustment * 60.0))).

End Astronomical.

(* ================================================================= *)
(** ** High-latitude rules: [lib/utils/polar.ts] *)

Inductive HighLatitudeRule := NightMiddle | AngleBased | OneSeventh | RuleNone.

Module Polar.
Import JS Time Calendar.
Local Open Scope Q_scope.

Record PolarAdjustmentParams := {
  pa_latitude : Q;
  pa_angle : Q;
  pa_night : number;
  pa_direction : option Q
}.

Record SeasonAdjustmentParams := {
  sp_latitude : Q;
  sp_dayOfYear : Z;
  sp_year : Z;
  sp_baseTime : Date
}.

(** [requiresPolarAdjustment(latitude, threshold = 48)]. *)
Definition requiresPolarAdjustment (latitude : Q) : bool :=
  Qle_bool 48 (Qabs latitude).

Definition getAdjustmentPortion (night : number) (angle : Q)
    (rule : HighLatitudeRule) : number :=
  match rule with
  | NightMiddle => mul night (Some 0.5)
  | OneSeventh => div night (Some 7)
  | AngleBased => mul night (Some (angle / 60))
  | RuleNone => mul night (Some 0.5)
  end.

Definition applyHighLatitudeRule (baseTime : Date)
    (params : PolarAdjustmentParams) (rule : HighLatitudeRule) : Date :=
  let portion := getAdjustmentPortion (pa_night params) (pa_angle params) rule in
  let direction := match pa_direction params with Some d => d | None => 1 end in
  let adjustment := mul (mul portion (Some direction)) (Some 3600) in
  addSeconds baseTime adjustment.

Definition seasonAdjustedMorningTwilight (params : SeasonAdjustmentParams)
  : Date :=
  let latitude := sp_latitude params in
  let a := 75 + (28.65 / 55.0) * Qabs latitude in
  let b := 75 + (19.44 / 55.0) * Qabs latitude in
  let c := 75 + (32.74 / 55.0) * Qabs latitude in
  let d := 75 + (48.1 / 55.0) * Qabs latitude in
  let dyy := daysSinceSolstice (sp_dayOfYear params) (sp_year params) latitude in
  let adjustment := seasonBlend a b c d dyy in
  addSeconds (sp_baseTime params) (ofZ (round (adjustment * -60.0))).

Definition eveningCoefficients (latitude : Q) (shafaq : Shafaq)
  : Q * Q * Q * Q :=
  match shafaq with
  | ahmer =>
      (62 + (17.4 / 55.0) * Qabs latitude,
       62 - (7.16 / 55.0) * Qabs latitude,
       62 + (5.12 / 55.0) * Qabs latitude,
       62 + (19.44 / 55.0) * Qabs latitude)
  | abyad =>
      (75 + (25.6 / 55.0) * Qabs latitude,
       75 + (7.16 / 55.0) * Qabs latitude,
       75 + (36.84 / 55.0) * Qabs latitude,
       75 + (81.84 / 55.0) * Qabs latitude)
  | general =>
      (75 + (25.6 / 55.0) * Qabs latitude,
       75 + (2.05 / 55.0) * Qabs latitude,
       75 - (9.21 / 55.0) * Qabs latitude,
       75 + (6.14 / 55.0) * Qabs latitude)
  end.

Definition seasonAdjustedEveningTwilight (params : SeasonAdjustmentParams)
    (shafaq : Shafaq) : Date :=
  let latitude := sp_latitude params in
  let '(a, b, c, d) := eveningCoefficients latitude shafaq in
  let dyy := daysSinceSolstice (sp_dayOfYear params) (sp_year params) latitude in
  let adjustment := seasonBlend a b c d dyy in
  addSeconds (sp_baseTime params) (ofZ (round (adjustment * 60.0))).

(** [calculateNightLength(sunrise, previousSunset)] as it is called, with
    no third argument: the next sunrise is taken one day after [sunrise].
    The result is in hours. *)
Definition calculateNightLength (sunrise previousSunset : Date) : number :=
  let nextSunrise : Date :=
    match sunrise with Some t => Some (nextDay t) | None => None end in
  div (sub (getTime nextSunrise) (getTime previousSunset))
      (Some (1000 * 60 * 60)).

Record SafeInput := {
  si_fajr : Date;
  si_sunrise : Date;
  si_sunset : Date;
  si_isha : Date;
  si_maghrib : Date
}.

Record SafeAngles := {
  sa_fajr : Q;
  sa_isha : option Q;
  sa_maghrib : option Q
}.

Record SafeTimes := {
  st_fajr : Date;
  st_isha : Date;
  st_maghrib : Date
}.

Definition isRuleNone (rule : HighLatitudeRule) : bool :=
  match rule with RuleNone => true | _ => false end.

(** Truthiness of an optional number: defined and non-zero. *)
Definition truthy (x : option Q) : bool :=
  match x with Some q => negb (Qeq_bool q 0) | None => false end.

Definition getSafePrayerTimes (calculatedTimes : SafeInput)
    (latitude : Q) (date : Z) (angles : SafeAngles)
    (rule : HighLatitudeRule) : SafeTimes :=
  let night :=
    calculateNightLength (si_sunrise calculatedTimes)
                         (si_sunset calculatedTimes) in
  let dayOfYearValue := dayOfYear date in
  let safeFajr :=
    match si_fajr calculatedTimes with
    | Some t => Some t
    | None =>
        if requiresPolarAdjustment latitude && negb (isRuleNone rule) then
          applyHighLatitudeRule (si_sunrise calculatedTimes)
            {| pa_latitude := latitude; pa_angle := sa_fajr angles;
               pa_night := night; pa_direction := Some (-1) |} rule
        else
          seasonAdjustedMorningTwilight
            {| sp_latitude := latitude; sp_dayOfYear := dayOfYearValue;
               sp_year := getFullYear date;
               sp_baseTime := si_sunrise calculatedTimes |}
    end in
  let safeIsha :=
    match si_isha calculatedTimes with
    | Some t => Some t
    | None =>
        if requiresPolarAdjustment latitude && negb (isRuleNone rule)
           && truthy (sa_isha angles) then
          applyHighLatitudeRule (si_sunset calculatedTimes)
            {| pa_latitude := latitude;
               pa_angle := match sa_isha angles with Some a => a | None => 0 end;
               pa_night := night; pa_direction := Some 1 |} rule
        else
          seasonAdjustedEveningTwilight
            {| sp_latitude := latitude; sp_dayOfYear := dayOfYearValue;
               sp_year := getFullYear date;
               sp_baseTime := si_sunset calculatedTimes |} general
    end in
  let safeMaghrib := si_maghrib calculatedTimes in
  {| st_fajr := safeFajr; st_isha := safeIsha; st_maghrib := safeMaghrib |}.

End Polar.

(* ================================================================= *)
(** ** Exceptions and strings *)

(** A computation that may throw an [Error]; the payload is the message. *)
Definition Exc (A : Type) : Type := (string + A)%type.

Definition ret {A} (a : A) : Exc A := inr a.
Definition throw {A} (message : string) : Exc A := inl message.

Definition bind {A B} (m : Exc A) (k : A -> Exc B) : Exc B :=
  match m with inl e => inl e | inr a => k a end.

Declare Scope exc_scope.
Delimit Scope exc_scope with exc.
Notation "x <- m ;; k" := (bind m (fun x => k))
  (at level 61, m at next level, right associativity) : exc_scope.
Notation "m ;;; k" := (bind m (fun _ => k))
  (at level 61, right associativity) : exc_scope.

(** [hay.includes(needle)]. *)
Fixpoint includes (needle hay : string) : bool :=
  String.prefix needle hay
  || match hay with
     | EmptyString => false
     | String _ rest => includes needle rest
     end.

(** [parts.join(sep)]. *)
Fixpoint join (sep : string) (parts : list string) : string :=
  match parts with
  | [] => EmptyString
  | [p] => p
  | p :: rest => (p ++ sep ++ join sep rest)%string
  end.

(* ================================================================= *)
(** ** Shared types: [types/index.ts] *)

Inductive PrayerName := fajr | sunrise | dhuhr | asr | maghrib | isha.

Definition PrayerName_eqb (a b : PrayerName) : bool :=
  match a, b with
  | fajr, fajr | sunrise, sunrise | dhuhr, dhuhr
  | asr, asr | maghrib, maghrib | isha, isha => true
  | _, _ => false
  end.

Definition prayerLabel (p : PrayerName) : string :=
  match p with
  | fajr => "fajr" | sunrise => "sunrise" | dhuhr => "dhuhr"
  | asr => "asr" | maghrib => "maghrib" | isha => "isha"
  end.

Inductive AsrSchool := Standard | Hanafi.
Inductive MidnightMode := MidnightStandard | MidnightJafari.

Inductive MethodCode :=
| ISNA | MWL | Egypt | UmmAlQura | Qatar | Dubai | JAKIM | JAKIMKN
| Kemenag | Singapore | France12 | France15 | France18 | Turkey | Russia
| Moonsighting | Tehran | Jafari | Karachi | Custom.

Definition methodLabel (m : MethodCode) : string :=
  match m with
  | ISNA => "ISNA" | MWL => "MWL" | Egypt => "Egypt"
  | UmmAlQura => "UmmAlQura" | Qatar => "Qatar" | Dubai => "Dubai"
  | JAKIM => "JAKIM" | JAKIMKN => "JAKIMKN" | Kemenag => "Kemenag"
  | Singapore => "Singapore" | France12 => "France12"
  | France15 => "France15" | France18 => "France18" | Turkey => "Turkey"
  | Russia => "Russia" | Moonsighting => "Moonsighting"
  | Tehran => "Tehran" | Jafari => "Jafari" | Karachi => "Karachi"
  | Custom => "Custom"
  end.

Definition isMoonsighting (m : MethodCode) : bool :=
  match m with Moonsighting => true | _ => false end.

(** A value of type [number | string]. *)
Inductive NumOrString := NumV (q : Q) | StrV (s : string).

(** [Partial<Record<PrayerName, number>>]: the entries of the object, in
    insertion order.  An object holds each key at most once. *)
Definition Adjustments := list (PrayerName * JS.number).

(** Property access [adj.p]; [None] is [undefined]. *)
Fixpoint lookup (p : PrayerName) (adj : Adjustments) : option JS.number :=
  match adj with
  | [] => None
  | (k, v) :: rest => if PrayerName_eqb k p then Some v else lookup p rest
  end.

Record MethodParams := {
  mp_fajr : Q;
  mp_isha : NumOrString;
  mp_maghrib : option NumOrString;
  mp_midnight : option MidnightMode;
  mp_shafaq : option Shafaq;
  mp_adjustments : option Adjustments
}.

Record Coordinates := {
  latitude : Q;
  longitude : Q
}.

Record PrayerTimes := {
  t_fajr : JS.Date;
  t_sunrise : JS.Date;
  t_dhuhr : JS.Date;
  t_asr : JS.Date;
  t_sunset : JS.Date;
  t_maghrib : JS.Date;
  t_isha : JS.Date
}.

(** The field of a [PrayerTimes] named by a prayer. *)
Definition getPrayer (times : PrayerTimes) (p : PrayerName) : JS.Date :=
  match p with
  | fajr => t_fajr times | sunrise => t_sunrise times
  | dhuhr => t_dhuhr times | asr => t_asr times
  | maghrib => t_maghrib times | isha => t_isha times
  end.

(** The assignment [times[p] = v]. *)
Definition setPrayer (times : PrayerTimes) (p : PrayerName) (v : JS.Date)
  : PrayerTimes :=
  match p with
  | fajr =>
      {| t_fajr := v; t_sunrise := t_sunrise times; t_dhuhr := t_dhuhr times;
         t_asr := t_asr times; t_sunset := t_sunset times;
         t_maghrib := t_maghrib times; t_isha := t_isha times |}
  | sunrise =>
      {| t_fajr := t_fajr times; t_sunrise := v; t_dhuhr := t_dhuhr times;
         t_asr := t_asr times; t_sunset := t_sunset times;
         t_maghrib := t_maghrib times; t_isha := t_isha times |}
  | dhuhr =>
      {| t_fajr := t_fajr times; t_sunrise := t_sunrise times; t_dhuhr := v;
         t_asr := t_asr times; t_sunset := t_sunset times;
         t_maghrib := t_maghrib times; t_isha := t_isha times |}
  | asr =>
      {| t_fajr := t_fajr times; t_sunrise := t_sunrise times;
         t_dhuhr := t_dhuhr times; t_asr := v; t_sunset := t_sunset times;
         t_maghrib := t_maghrib times; t_isha := t_isha times |}
  | maghrib =>
      {| t_fajr := t_fajr times; t_sunrise := t_sunrise times;
         t_dhuhr := t_dhuhr times; t_asr := t_asr times;
         t_sunset := t_sunset times; t_maghrib := v; t_isha := t_isha times |}
  | isha =>
      {| t_fajr := t_fajr times; t_sunrise := t_sunrise times;
         t_dhuhr := t_dhuhr times; t_asr := t_asr times;
         t_sunset := t_sunset times; t_maghrib := t_maghrib times;
         t_isha := v |}
  end.

(* ================================================================= *)
(** ** The solver interface and the host environment *)

(** The five members of [SolarTime] that the orchestrator reads
    ([lib/engine/solar-time.ts]); hours are decimal UTC hours. *)
Record SolarTime := {
  transit : JS.number;
  sunriseHours : JS.number;
  sunsetHours : JS.number;
  hourAngle : Q -> bool -> JS.number;
  afternoon : Q -> JS.number
}.

(** Result of [checkPolarConditions] ([lib/engine/solar.ts]). *)
Record PolarConditions := {
  isPolarDay : bool;
  isPolarNight : bool;
  polarReason : string
}.

(** What the model takes from outside: the floating-point solver, the
    clock, and the built-in conversions between numbers and strings. *)
Record Host := {
  newSolarTime : Z -> Coordinates -> SolarTime;
  checkPolarConditions : Z -> Coordinates -> PolarConditions;
  now : Z;
  parseFloat : string -> JS.number;
  parseDateString : string -> JS.Date;
  numberToString : Q -> string;
  toFixed1 : Q -> string
}.

(* ================================================================= *)
(** ** [lib/methods/methods.ts] *)

Module Methods.
Import JS.
Local Open Scope Q_scope.

Definition mk (f : Q) (i : NumOrString) (m : option NumOrString)
    (mid : MidnightMode) (sh : option Shafaq) (adj : option Adjustments)
  : MethodParams :=
  {| mp_fajr := f; mp_isha := i; mp_maghrib := m; mp_midnight := Some mid;
     mp_shafaq := sh; mp_adjustments := adj |}.

Definition oneMin : option NumOrString := Some (StrV "1 min").

(** [CALCULATION_METHODS]; [JAKIMKN] has no entry. *)
Definition CALCULATION_METHODS (method : MethodCode) : option MethodParams :=
  match method with
  | ISNA =>
      Some (mk 15 (NumV 15) oneMin MidnightStandard None
        (Some [(fajr, Some (-12.5)); (dhuhr, Some 5); (asr, Some (-1));
               (maghrib, Some 2); (isha, Some (-1.5))]))
  | MWL =>
      Some (mk 18 (NumV 17) oneMin MidnightStandard None
        (Some [(dhuhr, Some 1)]))
  | Egypt =>
      Some (mk 19.5 (NumV 17.5) oneMin MidnightStandard None
        (Some [(fajr, Some (-0.5)); (sunrise, Some (-0.5)); (asr, Some 0.5);
               (maghrib, Some (-1))]))
  | UmmAlQura =>
      Some (mk 18.5 (StrV "90 min") oneMin MidnightStandard None None)
  | Qatar =>
      Some (mk 18 (StrV "90 min") oneMin MidnightStandard None
        (Some [(fajr, Some (-0.5)); (maghrib, Some 2); (isha, Some 3)]))
  | Dubai =>
      Some (mk 18.2 (NumV 18.2) oneMin MidnightStandard None
        (Some [(sunrise, Some (-3.5)); (dhuhr, Some 3); (asr, Some 1.5);
               (maghrib, Some 2.5); (isha, Some 0.5)]))
  | JAKIM =>
      Some (mk 18 (NumV 18) oneMin MidnightStandard None
        (Some [(fajr, Some 1); (dhuhr, Some 2); (asr, Some 1);
               (isha, Some 1)]))
  | Kemenag =>
      Some (mk 20 (NumV 18) oneMin MidnightStandard None
        (Some [(fajr, Some 2); (dhuhr, Some 3); (asr, Some 2);
               (maghrib, Some 2); (isha, Some 2); (sunrise, Some (-4))]))
  | Singapore =>
      Some (mk 20 (NumV 18) oneMin MidnightStandard None
        (Some [(fajr, Some 0.5); (sunrise, Some 0.5); (dhuhr, Some 1);
               (asr, Some 1); (isha, Some 1)]))
  | France12 => Some (mk 12 (NumV 12) oneMin MidnightStandard None None)
  | France15 => Some (mk 15 (NumV 15) oneMin MidnightStandard None None)
  | France18 => Some (mk 18 (NumV 18) oneMin MidnightStandard None None)
  | Turkey =>
      Some (mk 18 (NumV 17) oneMin MidnightStandard None
        (Some [(sunrise, Some (-7)); (dhuhr, Some 5); (asr, Some 5.5);
               (maghrib, Some 7); (isha, Some 1.5)]))
  | Russia =>
      Some (mk 16 (NumV 15) oneMin MidnightStandard None
        (Some [(fajr, Some (-0.5)); (sunrise, Some (-0.5));
               (dhuhr, Some (-0.5)); (asr, Some 0.5);
               (maghrib, Some (-1.5)); (isha, Some (-0.5))]))
  | Moonsighting =>
      Some (mk 18 (NumV 18) oneMin MidnightStandard (Some general)
        (Some [(dhuhr, Some 5); (maghrib, Some 3)]))
  | Tehran =>
      Some (mk 17.7 (NumV 14) (Some (NumV 4.5)) MidnightJafari None None)
  | Jafari =>
      Some (mk 16 (NumV 14) (Some (NumV 4)) MidnightJafari None None)
  | Karachi =>
      Some (mk 18 (NumV 18) oneMin MidnightStandard None
        (Some [(dhuhr, Some 1)]))
  | Custom => Some (mk 18 (NumV 17) oneMin MidnightStandard None None)
  | JAKIMKN => None
  end.

Definition getMethodParams (method : MethodCode) : Exc MethodParams :=
  match CALCULATION_METHODS method with
  | Some params => ret params
  | None => throw ("Unknown calculation method: " ++ methodLabel method)
  end.

Definition isValidMethod (method : MethodCode) : bool :=
  match CALCULATION_METHODS method with Some _ => true | None => false end.

(** *** [parseAngleOrInterval] *)

Inductive ParsedKind := angle | interval.

Record Parsed := { p_type : ParsedKind; p_value : number }.

Definition isDigit (c : ascii) : bool :=
  let n := nat_of_ascii c in (48 <=? n)%nat && (n <=? 57)%nat.

(** The white space of the pattern language, within ASCII. *)
Definition isSpace (c : ascii) : bool :=
  let n := nat_of_ascii c in
  ((9 <=? n)%nat && (n <=? 13)%nat) || (n =? 32)%nat.

Definition digitValue (c : ascii) : Z := Z.of_nat (nat_of_ascii c) - 48.

(** Longest prefix of digits and the remainder. *)
Fixpoint takeDigits (s : string) : list Z * string :=
  match s with
  | String c rest =>
      if isDigit c then
        let '(ds, r) := takeDigits rest in (digitValue c :: ds, r)
      else ([], s)
  | EmptyString => ([], s)
  end.

Fixpoint dropSpaces (s : string) : string :=
  match s with
  | String c rest => if isSpace c then dropSpaces rest else s
  | EmptyString => s
  end.

Definition lower (c : ascii) : ascii :=
  let n := nat_of_ascii c in
  if (65 <=? n)%nat && (n <=? 90)%nat then ascii_of_nat (n + 32) else c.

Definition isMinWord (s : string) : bool :=
  match s with
  | String a (String b (String c EmptyString)) =>
      Ascii.eqb (lower a) "m" && Ascii.eqb (lower b) "i"
      && Ascii.eqb (lower c) "n"
  | _ => false
  end.

(** Value of a decimal numeral [ip.fp]. *)
Definition decimalValue (ip fp : list Z) : Q :=
  let int := fold_left (fun acc d => (10 * acc + d)%Z) ip 0%Z in
  let frac := fold_left (fun acc d => (10 * acc + d)%Z) fp 0%Z in
  inject_Z int + (frac # Pos.of_nat (10 ^ List.length fp)).

(** The match of [/^(\d+(?:\.\d+)?)\s*min$/i] and the value of its
    group, on ASCII input. *)
Definition minuteMatch (value : string) : option Q :=
  let '(ip, r1) := takeDigits value in
  match ip with
  | [] => None
  | _ =>
      let '(fp, r2) :=
        match r1 with
        | String "."%char r =>
            let '(fd, r') := takeDigits r in
            match fd with [] => ([], r1) | _ => (fd, r') end
        | _ => ([], r1)
        end in
      if isMinWord (dropSpaces r2) then Some (decimalValue ip fp) else None
  end.

Section WithHost.
Variable host : Host.

Definition parseAngleOrInterval (value : NumOrString) : Exc Parsed :=
  match value with
  | NumV q => ret {| p_type := angle; p_value := Some q |}
  | StrV s =>
      match minuteMatch s with
      | Some q => ret {| p_type := interval; p_value := Some q |}
      | None =>
          match parseFloat host s with
          | Some q => ret {| p_type := angle; p_value := Some q |}
          | None => throw ("Invalid angle or interval format: " ++ s)
          end
      end
  end.

End WithHost.

End Methods.

(* ================================================================= *)
(** ** [lib/engine/precision.ts] *)

Record CalculationContext := {
  ctx_date : Z;
  ctx_coordinates : Coordinates;
  ctx_methodParams : MethodParams;
  ctx_methodCode : option MethodCode;
  ctx_elevation : JS.number;
  ctx_highLatitudeRule : HighLatitudeRule;
  ctx_asrSchool : AsrSchool;
  ctx_iterations : JS.number
}.

Record IterativeResult := {
  ir_value : PrayerTimes;
  ir_iterations : Z;
  ir_converged : bool
}.

Record ValidationOutcome := {
  vo_isValid : bool;
  vo_issues : list string
}.

Module Precision.
Import JS Time Calendar Methods.
Local Open Scope Q_scope.

(** The two loops of [createUTCDateFromHours]: bring the hour count into
    [0, 24) and count the days carried.  [fuel] bounds the iterations. *)
Fixpoint wrapNegative (fuel : nat) (adjustedHours : Q) (adjustedDay : Z)
  : Q * Z :=
  match fuel with
  | O => (adjustedHours, adjustedDay)
  | S fuel' =>
      if Qlt_bool adjustedHours 0
      then wrapNegative fuel' (adjustedHours + 24) (adjustedDay - 1)
      else (adjustedHours, adjustedDay)
  end.

Fixpoint wrapOverflow (fuel : nat) (adjustedHours : Q) (adjustedDay : Z)
  : Q * Z :=
  match fuel with
  | O => (adjustedHours, adjustedDay)
  | S fuel' =>
      if Qle_bool 24 adjustedHours
      then wrapOverflow fuel' (adjustedHours - 24) (adjustedDay + 1)
      else (adjustedHours, adjustedDay)
  end.

(** Enough iterations for either loop to reach its exit. *)
Definition wrapFuel (utcHours : Q) : nat :=
  S (Z.abs_nat (Qfloor (utcHours / 24))).

(** [createUTCDateFromHours(utcHours, baseDate)]; the day offset is
    counted from the UTC day of [baseDate]. *)
Definition createUTCDateFromHours (utcHours : number) (baseDate : Z) : Date :=
  match utcHours with
  | None => InvalidDate
  | Some h =>
      let '(h1, k1) := wrapNegative (wrapFuel h) h 0%Z in
      let '(adjustedHours, adjustedDay) := wrapOverflow (wrapFuel h) h1 k1 in
      let hours := Qfloor adjustedHours in
      let minutes := Qfloor (mod1 adjustedHours * 60) in
      let seconds := Qfloor (mod1 (mod1 adjustedHours * 60) * 60) in
      Some (dateUTCFrom baseDate adjustedDay hours minutes seconds)
  end.

Section WithHost.
Variable host : Host.

Definition hoursSince (d : Date) (date : Z) : number :=
  div (sub (getTime d) (ofZ date)) (Some (1000 * 60 * 60)).

Definition isMoonsightingCode (code : option MethodCode) : bool :=
  match code with Some m => isMoonsighting m | None => false end.

(** The night in seconds, from today's sunset to tomorrow's sunrise, as
    both [calculateFajrTime] and [calculateIshaTime] compute it. *)
Definition nightSeconds (solarTime : SolarTime) (context : CalculationContext)
  : number :=
  let tomorrow := nextDay (ctx_date context) in
  let tomorrowSolarTime :=
    newSolarTime host tomorrow (ctx_coordinates context) in
  let tomorrowSunriseDate :=
    createUTCDateFromHours (sunriseHours tomorrowSolarTime) tomorrow in
  let sunsetDate :=
    createUTCDateFromHours (sunsetHours solarTime) (ctx_date context) in
  div (sub (getTime tomorrowSunriseDate) (getTime sunsetDate)) (Some 1000).

Definition getSafeFajrTime (context : CalculationContext) (sunriseTime : Date)
  : option Date :=
  if isMoonsightingCode (ctx_methodCode context) then
    let dayOfYearValue := dayOfYear (ctx_date context) in
    Some (Astronomical.seasonAdjustedMorningTwilight
            (latitude (ctx_coordinates context)) dayOfYearValue
            (getFullYear (ctx_date context)) sunriseTime)
  else None.

Definition calculateFajrTime (solarTime : SolarTime)
    (methodParams : MethodParams) (context : CalculationContext)
    (sunriseTime : Date) : number :=
  let fajrTime0 := hourAngle solarTime (- mp_fajr methodParams) false in
  let fajrTime :=
    if isMoonsightingCode (ctx_methodCode context)
       && Qle_bool 55 (Qabs (latitude (ctx_coordinates context)))
    then
      let night := nightSeconds solarTime context in
      let nightFraction := div night (Some 7) in
      let adjustedFajrTime :=
        newDate (sub (getTime sunriseTime) (mul nightFraction (Some 1000))) in
      hoursSince adjustedFajrTime (ctx_date context)
    else fajrTime0 in
  let safeFajr := getSafeFajrTime context sunriseTime in
  if isNaN fajrTime
     || match safeFajr with
        | Some sf => gt (hoursSince sf (ctx_date context)) fajrTime
        | None => false
        end
  then
    match safeFajr with
    | Some sf => hoursSince sf (ctx_date context)
    | None => fajrTime
    end
  else fajrTime.

(** [!value] for a value of type [number | string | undefined]. *)
Definition falsy (v : option NumOrString) : bool :=
  match v with
  | None => true
  | Some (NumV q) => Qeq_bool q 0
  | Some (StrV s) => match s with EmptyString => true | _ => false end
  end.

Definition calculateMaghribTime (solarTime : SolarTime)
    (methodParams : MethodParams) (context : CalculationContext)
  : Exc number :=
  match mp_maghrib methodParams with
  | None => ret (sunsetHours solarTime)
  | Some m =>
      if falsy (Some m) then ret (sunsetHours solarTime)
      else
        (maghribParsed <- parseAngleOrInterval host m ;;
         match p_type maghribParsed with
         | angle =>
             ret (match p_value maghribParsed with
                  | Some v => hourAngle solarTime (- v) true
                  | None => NaN
                  end)
         | interval =>
             ret (add (sunsetHours solarTime)
                      (div (p_value maghribParsed) (Some 60)))
         end)%exc
  end.

Definition getSafeIshaTime (context : CalculationContext) (sunsetTime : Date)
  : option Date :=
  if isMoonsightingCode (ctx_methodCode context) then
    let dayOfYearValue := dayOfYear (ctx_date context) in
    let shafaq :=
      match mp_shafaq (ctx_methodParams context) with
      | Some ahmer => ahmer
      | Some abyad => abyad
      | _ => general
      end in
    Some (Astronomical.seasonAdjustedEveningTwilight
            (latitude (ctx_coordinates context)) dayOfYearValue
            (getFullYear (ctx_date context)) sunsetTime shafaq)
  else None.

Definition calculateIshaTime (solarTime : SolarTime)
    (methodParams : MethodParams) (context : CalculationContext)
    (sunsetTime : Date) : Exc number :=
  (ishaParsed <- parseAngleOrInterval host (mp_isha methodParams) ;;
   let ishaTime0 :=
     match p_type ishaParsed with
     | angle =>
         match p_value ishaParsed with
         | Some v => hourAngle solarTime (- v) true
         | None => NaN
         end
     | interval =>
         add (sunsetHours solarTime) (div (p_value ishaParsed) (Some 60))
     end in
   let ishaTime :=
     if isMoonsightingCode (ctx_methodCode context)
        && Qle_bool 55 (Qabs (latitude (ctx_coordinates context)))
     then
       let night := nightSeconds solarTime context in
       let nightFraction := div night (Some 7) in
       let adjustedIshaTime :=
         newDate (add (getTime sunsetTime) (mul nightFraction (Some 1000))) in
       hoursSince adjustedIshaTime (ctx_date context)
     else ishaTime0 in
   let safeIsha := getSafeIshaTime context sunsetTime in
   if isNaN ishaTime
      || match safeIsha with
         | Some si => lt (hoursSince si (ctx_date context)) ishaTime
         | None => false
         end
   then
     ret (match safeIsha with
          | Some si => hoursSince si (ctx_date context)
          | None => ishaTime
          end)
   else ret ishaTime)%exc.

(** [adj.p ? addMinutes(t, adj.p) : t]. *)
Definition adjustIfSet (adj : Adjustments) (p : PrayerName) (t : Date) : Date :=
  match lookup p adj with
  | Some (Some q) => if Qeq_bool q 0 then t else addMinutes t (Some q)
  | _ => t
  end.

(** The instants before the method adjustments and the rounding: the
    first half of [calculatePrecisePrayerTimes]. *)
Definition computeCurrentTimes (context : CalculationContext)
  : Exc PrayerTimes :=
  let date := ctx_date context in
  let methodParams := ctx_methodParams context in
  let solarTime := newSolarTime host date (ctx_coordinates context) in
  let sunrise := createUTCDateFromHours (sunriseHours solarTime) date in
  let sunset := createUTCDateFromHours (sunsetHours solarTime) date in
  let fajrTime := calculateFajrTime solarTime methodParams context sunrise in
  let fajr := createUTCDateFromHours fajrTime date in
  let dhuhr := createUTCDateFromHours (transit solarTime) date in
  let asrShadowLength :=
    match ctx_asrSchool context with Hanafi => 2 | Standard => 1 end in
  let asrTime := afternoon solarTime asrShadowLength in
  let asr := createUTCDateFromHours asrTime date in
  (maghribTime <- calculateMaghribTime solarTime methodParams context ;;
   let maghrib := createUTCDateFromHours maghribTime date in
   ishaTime <- calculateIshaTime solarTime methodParams context sunset ;;
   let isha := createUTCDateFromHours ishaTime date in
   ret {| t_fajr := fajr; t_sunrise := sunrise; t_dhuhr := dhuhr;
          t_asr := asr; t_sunset := sunset; t_maghrib := maghrib;
          t_isha := isha |})%exc.

(** The method's own adjustments; [sunset] is not adjusted. *)
Definition applyMethodAdjustments (methodParams : MethodParams)
    (t : PrayerTimes) : PrayerTimes :=
  match mp_adjustments methodParams with
  | Some adj =>
      {| t_fajr := adjustIfSet adj fajr (t_fajr t);
         t_sunrise := adjustIfSet adj sunrise (t_sunrise t);
         t_dhuhr := adjustIfSet adj dhuhr (t_dhuhr t);
         t_asr := adjustIfSet adj asr (t_asr t);
         t_sunset := t_sunset t;
         t_maghrib := adjustIfSet adj maghrib (t_maghrib t);
         t_isha := adjustIfSet adj isha (t_isha t) |}
  | None => t
  end.

Definition roundTimes (t : PrayerTimes) : PrayerTimes :=
  {| t_fajr := roundedMinute (t_fajr t) Nearest;
     t_sunrise := roundedMinute (t_sunrise t) Nearest;
     t_dhuhr := roundedMinute (t_dhuhr t) Nearest;
     t_asr := roundedMinute (t_asr t) Nearest;
     t_sunset := roundedMinute (t_sunset t) Nearest;
     t_maghrib := roundedMinute (t_maghrib t) Nearest;
     t_isha := roundedMinute (t_isha t) Nearest |}.

Definition calculatePrecisePrayerTimes (context : CalculationContext)
  : Exc IterativeResult :=
  (currentTimes <- computeCurrentTimes context ;;
   let adjustedTimes :=
     applyMethodAdjustments (ctx_methodParams context) currentTimes in
   let roundedTimes := roundTimes adjustedTimes in
   ret {| ir_value := roundedTimes; ir_iterations := 1;
          ir_converged := true |})%exc.

(** *** [validateCalculationResults] *)

Definition showRounded (x : number) : string :=
  match x with
  | Some q => numberToString host (inject_Z (round q))
  | None => "NaN"
  end.

Definition showFixed1 (x : number) : string :=
  match x with
  | Some q => toFixed1 host q
  | None => "NaN"
  end.

Definition msgFajrOrder : string := "Fajr time is not before sunrise".
Definition msgSunriseOrder : string := "Sunrise time is not before Dhuhr".
Definition msgDhuhrOrder : string := "Dhuhr time is not before Asr".
Definition msgAsrOrder : string := "Asr time is not before Maghrib".
Definition msgMaghribOrder : string := "Maghrib time is not before Isha".
Definition msgFajrGap : string := "Fajr to sunrise gap is unusually large".
Definition msgIshaGap : string := "Maghrib to Isha gap is unusually large".
Definition msgDayLength : string := "Day length is unusual for high latitude".

Definition msgFajrGapHigh (fajrToSunrise : number) : string :=
  ("Large Fajr-sunrise gap (" ++ showRounded fajrToSunrise
   ++ "min) at high latitude - normal in winter")%string.

Definition msgIshaGapHigh (maghribToIsha : number) : string :=
  ("Large Maghrib-Isha gap (" ++ showRounded maghribToIsha
   ++ "min) at high latitude - normal in winter")%string.

Definition msgExtremeDay (dayLength : number) (lat : Q) : string :=
  ("Extreme day length (" ++ showFixed1 dayLength ++ "h) at latitude "
   ++ toFixed1 host lat ++ "°")%string.

(** The filter that keeps the critical issues. *)
Definition isCritical (issue : string) : bool :=
  negb (includes "at high latitude" issue)
  && negb (includes "at latitude" issue)
  && negb (includes "Extreme day length" issue).

(** [issues.push(msg)] under a condition. *)
Definition pushIf (cond : bool) (msg : string) : list string :=
  if cond then [msg] else [].

Definition validateCalculationResults (times : PrayerTimes)
    (context : CalculationContext) : ValidationOutcome :=
  let coordinates := ctx_coordinates context in
  let tFajr := getTime (t_fajr times) in
  let tSunrise := getTime (t_sunrise times) in
  let tDhuhr := getTime (t_dhuhr times) in
  let tAsr := getTime (t_asr times) in
  let tMaghrib := getTime (t_maghrib times) in
  let tIsha := getTime (t_isha times) in
  let ordering :=
    pushIf (ge tFajr tSunrise) msgFajrOrder
    ++ pushIf (ge tSunrise tDhuhr) msgSunriseOrder
    ++ pushIf (ge tDhuhr tAsr) msgDhuhrOrder
    ++ pushIf (ge tAsr tMaghrib) msgAsrOrder
    ++ pushIf (ge tMaghrib tIsha) msgMaghribOrder in
  let latitudeAbs := Qabs (latitude coordinates) in
  let isHighLatitude := Qle_bool 48 latitudeAbs in
  let isExtremeLatitude := Qle_bool 60 latitudeAbs in
  let fajrGapThreshold : Q :=
    if isExtremeLatitude then 300 else if isHighLatitude then 240 else 180 in
  let ishaGapThreshold : Q :=
    if isExtremeLatitude then 360 else if isHighLatitude then 300 else 240 in
  let fajrToSunrise := div (sub tSunrise tFajr) (Some (1000 * 60)) in
  let fajrGap :=
    if gt fajrToSunrise (Some fajrGapThreshold) then
      if isHighLatitude then [msgFajrGapHigh fajrToSunrise] else [msgFajrGap]
    else [] in
  let maghribToIsha := div (sub tIsha tMaghrib) (Some (1000 * 60)) in
  let ishaGap :=
    if gt maghribToIsha (Some ishaGapThreshold) then
      if isHighLatitude then [msgIshaGapHigh maghribToIsha] else [msgIshaGap]
    else [] in
  let dayLength := div (sub tMaghrib tSunrise) (Some (1000 * 60 * 60)) in
  let dayIssue :=
    if isExtremeLatitude then
      pushIf (lt dayLength (Some 2) || gt dayLength (Some 22))
             (msgExtremeDay dayLength (latitude coordinates))
    else if Qlt_bool 60 latitudeAbs then
      pushIf (lt dayLength (Some 4) || gt dayLength (Some 20)) msgDayLength
    else [] in
  let issues := ordering ++ fajrGap ++ ishaGap ++ dayIssue in
  let criticalIssues := filter isCritical issues in
  {| vo_isValid := (List.length criticalIssues =? 0)%nat;
     vo_issues := issues |}.

End WithHost.

End Precision.

(* ================================================================= *)
(** ** Configuration and its validation: [lib/methods/validation.ts],
       [lib/utils/coordinates.ts] *)

Record PrayerTimeConfig := {
  cfg_method : MethodCode;
  cfg_location : Coordinates;
  cfg_timezone : option string;
  cfg_date : option JS.Date;
  cfg_fajr : option Q;
  cfg_isha : option NumOrString;
  cfg_maghrib : option NumOrString;
  cfg_midnight : option MidnightMode;
  cfg_shafaq : option Shafaq;
  cfg_asrSchool : option AsrSchool;
  cfg_highLatitudeRule : option HighLatitudeRule;
  cfg_elevation : option JS.number;
  cfg_adjustments : option Adjustments;
  cfg_iterations : option JS.number
}.
(** The fields [format] and [rounding] range over closed enumerations,
    are always accepted by the validation and are read nowhere in the
    engine; they are left out. *)

Record ValidationError := {
  ve_field : string;
  ve_message : string;
  ve_code : string
}.

Record ValidationResult := {
  vr_isValid : bool;
  vr_errors : list ValidationError
}.

Module Validation.
Import JS Methods.
Local Open Scope Q_scope.
Local Open Scope string_scope.

Definition isLetterOrUnderscore (c : ascii) : bool :=
  let n := nat_of_ascii c in
  ((65 <=? n)%nat && (n <=? 90)%nat)
  || ((97 <=? n)%nat && (n <=? 122)%nat)
  || (n =? 95)%nat.

Fixpoint takeWord (s : string) : nat * string :=
  match s with
  | String c rest =>
      if isLetterOrUnderscore c then
        let '(n, r) := takeWord rest in (S n, r)
      else (O, s)
  | EmptyString => (O, s)
  end.

(** [/^[A-Za-z_]+\/[A-Za-z_]+$/.test(timezone)]. *)
Definition timezonePattern (timezone : string) : bool :=
  let '(n1, r1) := takeWord timezone in
  match n1, r1 with
  | S _, String "/"%char r2 =>
      let '(n2, r3) := takeWord r2 in
      match n2, r3 with
      | S _, EmptyString => true
      | _, _ => false
      end
  | _, _ => false
  end.

Definition reverse (s : string) : string :=
  string_of_list_ascii (rev (list_ascii_of_string s)).

(** [s.trim()], for ASCII white space. *)
Definition trim (s : string) : string :=
  reverse (dropSpaces (reverse (dropSpaces s))).

(** A text between double quotes. *)
Definition quoted (s : string) : string :=
  String (ascii_of_nat 34) (s ++ String (ascii_of_nat 34) EmptyString).

Section WithHost.
Variable host : Host.

Definition isValidLatitude (lat : Q) : bool :=
  Qle_bool (-90) lat && Qle_bool lat 90.

Definition isValidLongitude (lng : Q) : bool :=
  Qle_bool (-180) lng && Qle_bool lng 180.

Definition validateCoordinates (coords : Coordinates) : Exc Coordinates :=
  if negb (isValidLatitude (latitude coords)) then
    throw ("Invalid latitude: " ++ numberToString host (latitude coords)
           ++ ". Must be between -90 and 90 degrees")
  else if negb (isValidLongitude (longitude coords)) then
    throw ("Invalid longitude: " ++ numberToString host (longitude coords)
           ++ ". Must be between -180 and 180 degrees")
  else ret coords.

Definition parseCoordinates (input : Coordinates) : Exc Coordinates :=
  validateCoordinates input.

(** The small validators return [None] when the value is accepted and
    the error text otherwise. *)
Definition validateTimezone (timezone : string) : option string :=
  if (String.length (trim timezone) =? 0)%nat then
    Some "Timezone cannot be empty"
  else if negb (timezonePattern timezone) && negb (String.eqb timezone "UTC")
  then Some ("Timezone must be in format " ++ quoted "Region/City"
             ++ " (e.g., " ++ quoted "America/New_York" ++ ") or "
             ++ quoted "UTC")
  else None.

Definition validateDate (date : Date) : option string :=
  match date with
  | None => Some "Invalid date provided"
  | Some t =>
      let year := getFullYear t in
      if (year <? 1900)%Z || (2200 <? year)%Z
      then Some "Date must be between years 1900 and 2200"
      else None
  end.

Definition validateElevation (elevation : number) : option string :=
  match elevation with
  | None => Some "Elevation must be a number"
  | Some e =>
      if Qlt_bool e (-500) || Qlt_bool 10000 e
      then Some "Elevation must be between -500 and 10,000 meters"
      else None
  end.

Fixpoint validateAdjustments (adjustments : Adjustments) : option string :=
  match adjustments with
  | [] => None
  | (prayer, adjustment) :: rest =>
      match adjustment with
      | None =>
          Some ("Adjustment for " ++ prayerLabel prayer ++ " must be a number")
      | Some a =>
          if Qlt_bool 60 (Qabs a) then
            Some ("Adjustment for " ++ prayerLabel prayer
                  ++ " must be between -60 and +60 minutes")
          else validateAdjustments rest
      end
  end.

Definition isInteger (q : Q) : bool := Qeq_bool q (inject_Z (Qfloor q)).

Definition validateIterations (iterations : number) : option string :=
  match iterations with
  | None => Some "Iterations must be a number"
  | Some i =>
      if negb (isInteger i) || Qlt_bool i 1 || Qlt_bool 10 i
      then Some "Iterations must be an integer between 1 and 10"
      else None
  end.

Definition errorIf (field code : string) (check : option string)
  : list ValidationError :=
  match check with
  | Some msg => [{| ve_field := field; ve_message := msg; ve_code := code |}]
  | None => []
  end.

Definition onField {A} (v : option A) (check : A -> option string)
  : option string :=
  match v with Some a => check a | None => None end.

Definition validateConfig (config : PrayerTimeConfig) : ValidationResult :=
  let errors :=
    List.concat
      [ errorIf "method" "INVALID_METHOD"
          (if isValidMethod (cfg_method config) then None
           else Some ("Invalid calculation method: "
                      ++ methodLabel (cfg_method config)));
        errorIf "location" "INVALID_COORDINATES"
          (match validateCoordinates (cfg_location config) with
           | inl msg => Some msg
           | inr _ => None
           end);
        errorIf "timezone" "INVALID_TIMEZONE"
          (onField (cfg_timezone config) validateTimezone);
        errorIf "date" "INVALID_DATE"
          (onField (cfg_date config) validateDate);
        errorIf "elevation" "VALIDATION_ERROR"
          (onField (cfg_elevation config) validateElevation);
        errorIf "adjustments" "INVALID_ADJUSTMENT"
          (onField (cfg_adjustments config) validateAdjustments);
        errorIf "iterations" "VALIDATION_ERROR"
          (onField (cfg_iterations config) validateIterations) ] in
  {| vr_isValid := (List.length errors =? 0)%nat; vr_errors := errors |}.

(** [sanitizeConfig]: a valid location is rewritten to the same pair, the
    time-zone name is trimmed and the iteration count rounded. *)
Definition sanitizeConfig (config : PrayerTimeConfig) : PrayerTimeConfig :=
  {| cfg_method := cfg_method config;
     cfg_location := cfg_location config;
     cfg_timezone :=
       match cfg_timezone config with
       | Some tz =>
           match tz with EmptyString => Some tz | _ => Some (trim tz) end
       | None => None
       end;
     cfg_date := cfg_date config;
     cfg_fajr := cfg_fajr config;
     cfg_isha := cfg_isha config;
     cfg_maghrib := cfg_maghrib config;
     cfg_midnight := cfg_midnight config;
     cfg_shafaq := cfg_shafaq config;
     cfg_asrSchool := cfg_asrSchool config;
     cfg_highLatitudeRule := cfg_highLatitudeRule config;
     cfg_elevation := cfg_elevation config;
     cfg_adjustments := cfg_adjustments config;
     cfg_iterations :=
       match cfg_iterations config with
       | Some (Some i) => Some (Some (inject_Z (round i)))
       | other => other
       end |}.

End WithHost.

End Validation.

(* ================================================================= *)
(** ** The orchestrator: [lib/engine/calculator.ts] *)

Record CalculationOptions := {
  opt_validateInput : option bool;
  opt_applyAdjustments : option bool;
  opt_handlePolarRegions : option bool;
  opt_includeMetadata : option bool
}.

(** The [metadata] member carries wall-clock measurements and is not part
    of the model. *)
Record CalculationResult := {
  times : PrayerTimes;
  isValid : bool;
  warnings : list string
}.

(** What the first half of [calculatePrayerTimes] hands to the second:
    the sanitized configuration, the coordinates, the context and the
    warnings raised so far. *)
Record Prepared := {
  pr_config : PrayerTimeConfig;
  pr_coordinates : Coordinates;
  pr_context : CalculationContext;
  pr_warnings : list string
}.

Module Calculator.
Import JS Time Calendar Methods Validation Precision.
Local Open Scope Q_scope.
Local Open Scope string_scope.

Definition noOptions : CalculationOptions :=
  {| opt_validateInput := None; opt_applyAdjustments := None;
     opt_handlePolarRegions := None; opt_includeMetadata := None |}.

(** [{ ...DEFAULT_OPTIONS, ...options }], member by member. *)
Definition orDefault (o : option bool) (default : bool) : bool :=
  match o with Some b => b | None => default end.

Definition applyParameterOverrides (baseParams : MethodParams)
    (config : PrayerTimeConfig) : MethodParams :=
  {| mp_fajr :=
       match cfg_fajr config with Some f => f | None => mp_fajr baseParams end;
     mp_isha :=
       match cfg_isha config with Some i => i | None => mp_isha baseParams end;
     mp_maghrib :=
       match cfg_maghrib config with
       | Some m => Some m
       | None => mp_maghrib baseParams
       end;
     mp_midnight :=
       match cfg_midnight config with
       | Some m => Some m
       | None => mp_midnight baseParams
       end;
     mp_shafaq :=
       match cfg_shafaq config with
       | Some s => Some s
       | None => mp_shafaq baseParams
       end;
     mp_adjustments := mp_adjustments baseParams |}.

Definition applyUserAdjustment (adjustedTimes : PrayerTimes)
    (entry : PrayerName * number) : PrayerTimes :=
  let '(prayerName, adjustment) := entry in
  if negb (PrayerName_eqb prayerName sunrise) then
    setPrayer adjustedTimes prayerName
      (addMinutes (getPrayer adjustedTimes prayerName) adjustment)
  else adjustedTimes.

(** [applyUserAdjustments]: the loop over [Object.entries(adjustments)].
    The guards [prayer in adjustedTimes] and [typeof adjustment ===
    "number"] hold for every entry of a well-typed map. *)
Definition applyUserAdjustments (t : PrayerTimes) (adjustments : Adjustments)
  : PrayerTimes :=
  fold_left applyUserAdjustment adjustments t.

Definition convertTimesToTimezone (t : PrayerTimes) (timezoneName : string)
  : PrayerTimes :=
  {| t_fajr := convertToTimezone (t_fajr t) timezoneName;
     t_sunrise := convertToTimezone (t_sunrise t) timezoneName;
     t_dhuhr := convertToTimezone (t_dhuhr t) timezoneName;
     t_asr := convertToTimezone (t_asr t) timezoneName;
     t_sunset := convertToTimezone (t_sunset t) timezoneName;
     t_maghrib := convertToTimezone (t_maghrib t) timezoneName;
     t_isha := convertToTimezone (t_isha t) timezoneName |}.

(** [createFallbackTimes]: fixed clock times on the day of [date]. *)
Definition createFallbackTimes (date : Z) : PrayerTimes :=
  let baseDate := Some (utcMidnight date) in
  {| t_fajr := addMinutes baseDate (Some (5 * 60));
     t_sunrise := addMinutes baseDate (Some (6 * 60));
     t_dhuhr := addMinutes baseDate (Some (12 * 60));
     t_asr := addMinutes baseDate (Some (15 * 60));
     t_sunset := addMinutes baseDate (Some (18 * 60));
     t_maghrib := addMinutes baseDate (Some (18 * 60 + 5));
     t_isha := addMinutes baseDate (Some (19 * 60 + 30)) |}.

Definition createCalculationContext (date : Z) (coordinates : Coordinates)
    (methodParams : MethodParams) (methodCode : option MethodCode)
    (elevation : option number) (highLatitudeRule : option HighLatitudeRule)
    (asrSchool : option AsrSchool) (iterations : option number)
  : CalculationContext :=
  {| ctx_date := date;
     ctx_coordinates := coordinates;
     ctx_methodParams := methodParams;
     ctx_methodCode := methodCode;
     ctx_elevation := match elevation with Some e => e | None => Some 0 end;
     ctx_highLatitudeRule :=
       match highLatitudeRule with Some r => r | None => NightMiddle end;
     ctx_asrSchool :=
       match asrSchool with Some a => a | None => Standard end;
     ctx_iterations :=
       match iterations with Some i => i | None => Some 1 end |}.

Definition numberOnly (v : NumOrString) : option Q :=
  match v with NumV q => Some q | StrV _ => None end.

Definition applyHighLatitudeAdjustments (t : PrayerTimes)
    (context : CalculationContext) (config : PrayerTimeConfig)
  : PrayerTimes :=
  let methodParams := ctx_methodParams context in
  let rule :=
    match cfg_highLatitudeRule config with
    | Some r => r
    | None => NightMiddle
    end in
  let safeTimes :=
    Polar.getSafePrayerTimes
      {| Polar.si_fajr := t_fajr t; Polar.si_sunrise := t_sunrise t;
         Polar.si_sunset := t_sunset t; Polar.si_isha := t_isha t;
         Polar.si_maghrib := t_maghrib t |}
      (latitude (ctx_coordinates context)) (ctx_date context)
      {| Polar.sa_fajr := mp_fajr methodParams;
         Polar.sa_isha := numberOnly (mp_isha methodParams);
         Polar.sa_maghrib :=
           match mp_maghrib methodParams with
           | Some m => numberOnly m
           | None => None
           end |}
      rule in
  {| t_fajr := Polar.st_fajr safeTimes;
     t_sunrise := t_sunrise t;
     t_dhuhr := t_dhuhr t;
     t_asr := t_asr t;
     t_sunset := t_sunset t;
     t_maghrib := Polar.st_maghrib safeTimes;
     t_isha := Polar.st_isha safeTimes |}.

(** [date.setUTCHours(h, m, s, 0)] on a valid date. *)
Definition setUTCHours (date : Z) (h m s : Z) : Z :=
  (utcMidnight date + h * msPerHour + m * msPerMinute + s * msPerSecond)%Z.

Section WithHost.
Variable host : Host.

Definition calculateHanafiAsr (coordinates : Coordinates) (date : Z) : Date :=
  let solarTime := newSolarTime host date coordinates in
  match afternoon solarTime 2 with
  | None => InvalidDate
  | Some hanafiAsrTime =>
      let hours := Qfloor hanafiAsrTime in
      let minutes := mod1 hanafiAsrTime * 60 in
      let seconds := mod1 minutes * 60 in
      Some (setUTCHours date hours (Qfloor minutes) (Qfloor seconds))
  end.

Definition isHanafi (a : option AsrSchool) : bool :=
  match a with Some Hanafi => true | _ => false end.

Definition nonEmpty (s : option string) : bool :=
  match s with
  | Some (String _ _) => true
  | _ => false
  end.

(** The [try] block of [calculatePrayerTimes] is split at the call of
    the precision engine.  Before it: validation, sanitization, method
    parameters, context and the polar check. *)
Definition prepareCalculation (config : PrayerTimeConfig)
    (calculationDate : Z) (options : CalculationOptions) : Exc Prepared :=
  let validateInput := orDefault (opt_validateInput options) true in
  let handlePolarRegions := orDefault (opt_handlePolarRegions options) true in
  ((if validateInput then
      let validation := validateConfig host config in
      if negb (vr_isValid validation) then
        throw ("Configuration validation failed: "
               ++ join ", " (map ve_message (vr_errors validation)))
      else ret tt
    else ret tt) ;;;
   let sanitizedConfig := sanitizeConfig config in
   coordinates <- parseCoordinates host (cfg_location sanitizedConfig) ;;
   baseMethodParams <- getMethodParams (cfg_method sanitizedConfig) ;;
   let methodParams :=
     applyParameterOverrides baseMethodParams sanitizedConfig in
   let context :=
     createCalculationContext calculationDate coordinates methodParams
       (Some (cfg_method sanitizedConfig)) (cfg_elevation sanitizedConfig)
       (cfg_highLatitudeRule sanitizedConfig) None
       (cfg_iterations sanitizedConfig) in
   let polarConditions :=
     checkPolarConditions host calculationDate coordinates in
   polarWarnings <-
     (if isPolarDay polarConditions || isPolarNight polarConditions then
        if handlePolarRegions then
          ret ["Polar region detected: " ++ polarReason polarConditions]
        else
          throw ("Cannot calculate prayer times in polar regions: "
                 ++ polarReason polarConditions)
      else ret []) ;;
   ret {| pr_config := sanitizedConfig; pr_coordinates := coordinates;
          pr_context := context; pr_warnings := polarWarnings |})%exc.

(** After it: high-latitude adjustment, Hanafi Asr, user adjustments,
    time zone and the validation of the result. *)
Definition finishCalculation (prepared : Prepared) (calculationDate : Z)
    (options : CalculationOptions) (precisionResult : IterativeResult)
  : CalculationResult :=
  let applyAdjustments := orDefault (opt_applyAdjustments options) true in
  let handlePolarRegions := orDefault (opt_handlePolarRegions options) true in
  let sanitizedConfig := pr_config prepared in
  let coordinates := pr_coordinates prepared in
  let context := pr_context prepared in
  let convergenceWarnings :=
    if negb (ir_converged precisionResult) then
      ["Calculation did not fully converge, results may have reduced accuracy"]
    else [] in
  let times0 := ir_value precisionResult in
  let times1 :=
    if handlePolarRegions
       && Polar.requiresPolarAdjustment (latitude coordinates)
    then applyHighLatitudeAdjustments times0 context sanitizedConfig
    else times0 in
  let times2 :=
    if isHanafi (cfg_asrSchool sanitizedConfig) then
      setPrayer times1 asr (calculateHanafiAsr coordinates calculationDate)
    else times1 in
  let times3 :=
    match cfg_adjustments sanitizedConfig with
    | Some adjustments =>
        if applyAdjustments then applyUserAdjustments times2 adjustments
        else times2
    | None => times2
    end in
  let times4 :=
    match cfg_timezone sanitizedConfig with
    | Some tz =>
        if nonEmpty (Some tz) then convertTimesToTimezone times3 tz
        else times3
    | None => times3
    end in
  let validation := validateCalculationResults host times4 context in
  let validationWarnings :=
    if negb (vo_isValid validation) then vo_issues validation else [] in
  {| times := times4;
     isValid := vo_isValid validation;
     warnings :=
       (pr_warnings prepared ++ convergenceWarnings ++ validationWarnings)%list
  |}.

(** The body of the [try] block of [calculatePrayerTimes]. *)
Definition calculatePrayerTimesBody (config : PrayerTimeConfig)
    (calculationDate : Z) (options : CalculationOptions)
  : Exc CalculationResult :=
  (prepared <- prepareCalculation config calculationDate options ;;
   precisionResult <- calculatePrecisePrayerTimes host (pr_context prepared) ;;
   ret (finishCalculation prepared calculationDate options precisionResult)
  )%exc.

(** [calculatePrayerTimes(config, date, options)]: the [try] block and
    its [catch]. *)
Definition calculatePrayerTimes (config : PrayerTimeConfig)
    (date : option Z) (options : CalculationOptions) : CalculationResult :=
  let calculationDate := match date with Some d => d | None => now host end in
  match calculatePrayerTimesBody config calculationDate options with
  | inr result => result
  | inl message =>
      {| times := createFallbackTimes calculationDate;
         isValid := false;
         warnings := ["Calculation failed: " ++ message] |}
  end.

End WithHost.

End Calculator.

(* ================================================================= *)
(** ** Sunnah times: [extensions/sunnah-times.ts] *)

Record SunnahMeta := {
  nightDuration : JS.number;
  maghribTime : JS.number;
  nextFajrTime : JS.number;
  sunriseTime : JS.number;
  dhuhrTime : JS.number
}.

Record SunnahTimes := {
  middleOfNight : JS.Date;
  lastThirdOfNight : JS.Date;
  firstThirdOfNight : JS.Date;
  duhaStart : JS.Date;
  duhaEnd : JS.Date;
  meta : SunnahMeta
}.

Module Sunnah.
Import JS Calculator.
Local Open Scope string_scope.

(** [roundToNearestMinute(date)]: the copy is cut to the minute with
    [setSeconds(0, 0)] and moved on by [setMinutes(getMinutes() + 1)]
    when the seconds of the original are 30 or more. *)
Definition roundToNearestMinute (date : Date) : Date :=
  match date with
  | None => InvalidDate
  | Some t =>
      let rounded := (t - t mod msPerMinute)%Z in
      if (30 <=? getSeconds t)%Z then Some (rounded + msPerMinute)%Z
      else Some rounded
  end.

Section WithHost.
Variable host : Host.

Definition calculateSunnahTimes (config : PrayerTimeConfig) (date : Z)
  : Exc SunnahTimes :=
  let todayResult := calculatePrayerTimes host config (Some date) noOptions in
  if negb (isValid todayResult) then
    throw ("Cannot calculate Sunnah times: "
           ++ join ", " (warnings todayResult))
  else
    let todayTimes := times todayResult in
    let tomorrow := nextDay date in
    let tomorrowResult :=
      calculatePrayerTimes host config (Some tomorrow) noOptions in
    if negb (isValid tomorrowResult) then
      throw ("Cannot calculate tomorrow's Fajr: "
             ++ join ", " (warnings tomorrowResult))
    else
      let tomorrowFajr := t_fajr (times tomorrowResult) in
      let maghribMs := getTime (t_maghrib todayTimes) in
      let nightDurationMs := sub (getTime tomorrowFajr) maghribMs in
      let nightDurationMinutes := div nightDurationMs (Some (1000 * 60)%Q) in
      let firstThirdDuration := div nightDurationMs (Some 3%Q) in
      let middlePointDuration := div nightDurationMs (Some 2%Q) in
      let lastThirdStart := mul nightDurationMs (Some (2 / 3)%Q) in
      let firstThird := newDate (add maghribMs firstThirdDuration) in
      let middle := newDate (add maghribMs middlePointDuration) in
      let lastThird := newDate (add maghribMs lastThirdStart) in
      let duhaStart0 :=
        newDate (add (getTime (t_sunrise todayTimes))
                     (Some (15 * 60 * 1000)%Q)) in
      let duhaEnd0 :=
        newDate (sub (getTime (t_dhuhr todayTimes))
                     (Some (15 * 60 * 1000)%Q)) in
      ret {| middleOfNight := roundToNearestMinute middle;
             lastThirdOfNight := roundToNearestMinute lastThird;
             firstThirdOfNight := roundToNearestMinute firstThird;
             duhaStart := roundToNearestMinute duhaStart0;
             duhaEnd := roundToNearestMinute duhaEnd0;
             meta :=
               {| nightDuration :=
                    match nightDurationMinutes with
                    | Some m => ofZ (round m)
                    | None => NaN
                    end;
                  maghribTime := maghribMs;
                  nextFajrTime := getTime tomorrowFajr;
                  sunriseTime := getTime (t_sunrise todayTimes);
                  dhuhrTime := getTime (t_dhuhr todayTimes) |} |}.

End WithHost.

End Sunnah.

(* ================================================================= *)
(** ** The public calculator: [api/prayer-times.ts] *)

(** [DateInput = Date | string | number]. *)
Inductive DateInput :=
| DateObject (d : JS.Date)
| DateString (s : string)
| DateNumber (n : JS.number).

Module Api.
Import JS Calculator.
Local Open Scope string_scope.

Definition nl : string := String (ascii_of_nat 10) EmptyString.

Section WithHost.
Variable host : Host.

(** [!date] for a date input. *)
Definition absent (date : option DateInput) : bool :=
  match date with
  | None => true
  | Some (DateObject _) => false
  | Some (DateString s) => match s with EmptyString => true | _ => false end
  | Some (DateNumber None) => true
  | Some (DateNumber (Some q)) => Qeq_bool q 0
  end.

(** [parseDate(date)]. *)
Definition parseDate (date : option DateInput) : Exc Z :=
  if absent date then ret (now host)
  else
    match date with
    | None => ret (now host)
    | Some (DateObject d) =>
        match d with
        | None =>
            throw ("Invalid Date object provided. "
                   ++ "Please ensure the date is properly constructed.")
        | Some t => ret t
        end
    | Some (DateString s) =>
        match parseDateString host s with
        | None =>
            throw ("Invalid date string: " ++ Validation.quoted s ++ ". "
                   ++ "Please use a valid date format like "
                   ++ Validation.quoted "2024-01-15" ++ " or "
                   ++ Validation.quoted "2024-01-15T12:00:00Z" ++ ".")
        | Some t => ret t
        end
    | Some (DateNumber n) =>
        match newDate n with
        | None =>
            throw ("Invalid timestamp: NaN. "
                   ++ "Please provide a valid timestamp in milliseconds.")
        | Some t =>
            let year := getFullYear t in
            if (year <? 1900)%Z || (2200 <? year)%Z then
              throw ("Date timestamp appears to be invalid (year: "
                     ++ numberToString host (inject_Z year) ++ "). "
                     ++ "Please provide a timestamp in milliseconds since "
                     ++ "Unix epoch.")
            else ret t
        end
    end.

Definition failureText (result : CalculationResult) : string :=
  "Prayer time calculation failed: " ++ join "; " (warnings result)
  ++ nl ++ nl ++ "This may occur due to:" ++ nl
  ++ "  • Extreme latitude locations during certain seasons" ++ nl
  ++ "  • Invalid date or timezone" ++ nl
  ++ "  • Calculation method incompatible with location" ++ nl ++ nl
  ++ "Try using a different high latitude rule or adjust your "
  ++ "location/method.".

(** The [try] block of [PrayerTimeCalculator.calculate]. *)
Definition calculateAttempt (config : PrayerTimeConfig)
    (date : option DateInput) : Exc PrayerTimes :=
  (calculationDate <- parseDate date ;;
   let result :=
     calculatePrayerTimes host config (Some calculationDate) noOptions in
   if negb (isValid result) then throw (failureText result)
   else ret (times result))%exc.

(** [PrayerTimeCalculator.calculate(date)] for a calculator built on
    [config]: every caught error is thrown again, as it is or wrapped. *)
Definition calculate (config : PrayerTimeConfig) (date : option DateInput)
  : Exc PrayerTimes :=
  match calculateAttempt config date with
  | inr t => ret t
  | inl message =>
      if includes "Prayer time calculation failed" message then throw message
      else
        throw ("Failed to calculate prayer times: " ++ message ++ nl ++ nl
               ++ "Please verify your configuration and try again.")
  end.

End WithHost.

End Api.

(* ================================================================= *)
(** ** The astronomy kernel over the reals: [lib/utils/astronomy.ts],
       [lib/utils/math.ts], [lib/engine/solar-coordinates.ts] *)

Module Astronomy.
Local Open Scope R_scope.

(** Degree-based trigonometry of [math.ts]. *)
Definition dtr (degrees : R) : R := (degrees * PI) / 180.
Definition rtd (radians : R) : R := (radians * 180) / PI.
Definition sin_d (degrees : R) : R := sin (dtr degrees).
Definition cos_d (degrees : R) : R := cos (dtr degrees).

(** [nutationInLongitude(julianCentury, solarLongitude, lunarLongitude,
    ascendingNode)]. *)
Definition nutationInLongitude (julianCentury solarLongitude lunarLongitude
    ascendingNode : R) : R :=
  let L0 := solarLongitude in
  let Lp := lunarLongitude in
  let Omega := ascendingNode in
  let term1 := (-17.2 / 3600) * sin_d Omega in
  let term2 := (1.32 / 3600) * sin_d (2 * L0) in
  let term3 := (0.23 / 3600) * sin_d (2 * Lp) in
  let term4 := (0.21 / 3600) * sin_d (2 * Omega) in
  term1 - term2 - term3 + term4.

(** [nutationInObliquity], its companion. *)
Definition nutationInObliquity (julianCentury solarLongitude lunarLongitude
    ascendingNode : R) : R :=
  let L0 := solarLongitude in
  let Lp := lunarLongitude in
  let Omega := ascendingNode in
  let term1 := (9.2 / 3600) * cos_d Omega in
  let term2 := (0.57 / 3600) * cos_d (2 * L0) in
  let term3 := (0.1 / 3600) * cos_d (2 * Lp) in
  let term4 := (0.09 / 3600) * cos_d (2 * Omega) in
  term1 + term2 + term3 - term4.

(** The apparent sidereal time assembled by the [SolarCoordinates]
    constructor from the mean sidereal time [Theta0], the mean obliquity
    [Epsilon0] and the two nutations. *)
Definition apparentSiderealTime (T L0 Lp Omega Theta0 Epsilon0 : R) : R :=
  let dPsi := nutationInLongitude T L0 Lp Omega in
  let dEpsilon := nutationInObliquity T L0 Lp Omega in
  Theta0 + (dPsi * 3600 * cos (dtr (Epsilon0 + dEpsilon))) / 3600.

(** The four-term abbreviation as the specification prints it. *)
Definition nutationInLongitude_as_specified (L0 Lp Omega : R) : R :=
  (-17.2 * sin_d Omega + 1.32 * sin_d (2 * L0) + 0.23 * sin_d (2 * Lp)
   + 0.21 * sin_d (2 * Omega)) / 3600.

End Astronomy.

(* ================================================================= *)
(** ** The [Math] object and the remainder operator *)

Module MathObject.
Import JS.
Local Open Scope Q_scope.

Definition floor (x : number) : number :=
  lift1 (fun q => inject_Z (Qfloor q)) x.
Definition ceil (x : number) : number :=
  lift1 (fun q => inject_Z (Qceiling q)) x.
Definition roundN (x : number) : number :=
  lift1 (fun q => inject_Z (round q)) x.

(** [a % b]: the remainder has the sign of the dividend; a zero divisor
    gives NaN. *)
Definition rem (a b : number) : number :=
  match a, b with
  | Some x, Some y =>
      if Qeq_bool y 0 then NaN else Some (x - y * inject_Z (trunc (x / y)))
  | _, _ => NaN
  end.

End MathObject.

(* ================================================================= *)
(** ** [lib/utils/math.ts] *)

Module MathUtils.
Import JS MathObject.
Local Open Scope Q_scope.

Definition unwindAngle (angle : number) : number :=
  sub angle (mul (Some 360) (floor (div angle (Some 360)))).


Definition quadrantShiftAngle (angle : number) : number :=
  if ge angle (Some (-180)) && le angle (Some 180) then angle
  else sub angle (mul (Some 360) (roundN (div angle (Some 360)))).


Record HM := { hm_hours : number; hm_minutes : number }.



End MathUtils.

(* ================================================================= *)
(** ** [lib/utils/time.ts], continued *)

Inductive RoundingMethod := RoundNearest | RoundUp | RoundDown | RoundNone.

Record TimeComponents := {
  tc_hours : JS.number;
  tc_minutes : JS.number;
  tc_seconds : option JS.number
}.

Module TimeUtils.
Import JS MathObject MathUtils.
Local Open Scope Q_scope.

Definition roundTime (timestamp : number) (rounding : RoundingMethod)
  : number :=
  match rounding with
  | RoundNone => timestamp
  | _ =>
      let oneMinute := Some (60 * 1000) in
      let roundingFn :=
        match rounding with
        | RoundUp => ceil
        | RoundDown => floor
        | _ => roundN
        end in
      mul (roundingFn (div timestamp oneMinute)) oneMinute
  end.

Definition timeComponentsToDecimal (components : TimeComponents) : number :=
  let hours := tc_hours components in
  let minutes := tc_minutes components in
  let seconds :=
    match tc_seconds components with Some s => s | None => Some 0 end in
  add (add hours (div minutes (Some 60))) (div seconds (Some 3600)).

Definition decimalToTimeComponents (decimalHours : number) : TimeComponents :=
  let totalSeconds := roundN (mul decimalHours (Some 3600)) in
  let hours := floor (div totalSeconds (Some 3600)) in
  let minutes := floor (div (rem totalSeconds (Some 3600)) (Some 60)) in
  let seconds := rem totalSeconds (Some 60) in
  {| tc_hours := hours; tc_minutes := minutes; tc_seconds := Some seconds |}.



End TimeUtils.

(* ================================================================= *)
(** ** [lib/utils/astronomy.ts]: the rational part *)

Module AstronomyUtils.
Import JS MathObject MathUtils.
Local Open Scope Q_scope.

(** [Math.trunc] on a number. *)
Definition truncN (x : number) : number :=
  lift1 (fun q => inject_Z (trunc q)) x.

(** [julianDay(year, month, day, hours = 0)]. *)
Definition julianDay (year month day hours : number) : number :=
  let Y := truncN (if gt month (Some 2) then year else sub year (Some 1)) in
  let M := truncN (if gt month (Some 2) then month else add month (Some 12)) in
  let D := add day (div hours (Some 24)) in
  let A := truncN (div Y (Some 100)) in
  let B := truncN (add (sub (Some 2) A) (truncN (div A (Some 4)))) in
  let i0 := truncN (mul (Some 365.25) (add Y (Some 4716))) in
  let i1 := truncN (mul (Some 30.6001) (add M (Some 1))) in
  sub (add (add (add i0 i1) D) B) (Some 1524.5).

Definition julianCentury (julianDay : number) : number :=
  div (sub julianDay (Some 2451545.0)) (Some 36525).

Definition interpolate (y2 y1 y3 n : number) : number :=
  let a := sub y2 y1 in
  let b := sub y3 y2 in
  let c := sub b a in
  add y2 (mul (div n (Some 2)) (add (add a b) (mul n c))).

Definition interpolateAngles (y2 y1 y3 n : number) : number :=
  let a := unwindAngle (sub y2 y1) in
  let b := unwindAngle (sub y3 y2) in
  let c := sub b a in
  add y2 (mul (div n (Some 2)) (add (add a b) (mul n c))).

End AstronomyUtils.

(* ================================================================= *)
(** ** [lib/engine/astronomical.ts]: the transit *)

Module Transit.
Import JS MathObject MathUtils AstronomyUtils.
Local Open Scope Q_scope.



End Transit.

(* ================================================================= *)
(** ** [lib/utils/polar.ts], continued *)

Module PolarUtils.
Import JS Time Calendar MathObject Polar.
Local Open Scope Q_scope.


Definition getRecommendedHighLatitudeRule (coordinates : Coordinates)
  : HighLatitudeRule :=
  let absLatitude := Qabs (latitude coordinates) in
  if Qlt_bool absLatitude 48 then RuleNone
  else if Qlt_bool absLatitude 55 then AngleBased
  else if Qlt_bool absLatitude 66.5 then NightMiddle
  else OneSeventh.

End PolarUtils.

(* ================================================================= *)
(** ** [lib/utils/coordinates.ts], continued *)

Inductive RegionCode :=
| north_america | europe | middle_east | southeast_asia | africa
| south_asia | unknown.

Record CoordinateBounds := {
  north : Q;
  south : Q;
  east : Q;
  west : Q
}.

Module CoordinateUtils.
Import JS MathObject.
Local Open Scope Q_scope.

Definition directions : list string :=
  ["N"; "NNE"; "NE"; "ENE"; "E"; "ESE"; "SE"; "SSE";
   "S"; "SSW"; "SW"; "WSW"; "W"; "WNW"; "NW"; "NNW"]%string.

(** [getCardinalDirection(bearing)]: the index is
    [Math.round(bearing / 22.5) % 16]; an index outside the array gives
    [undefined]. *)
Definition getCardinalDirection (bearing : Q) : option string :=
  let index := Z.rem (round (bearing / 22.5)) 16 in
  if (index <? 0)%Z then None else nth_error directions (Z.to_nat index).

Definition isInPolarRegion (coordinates : Coordinates) : bool :=
  Qle_bool 48 (Qabs (latitude coordinates)).

Definition getRegion (coordinates : Coordinates) : RegionCode :=
  let latitude := latitude coordinates in
  let longitude := longitude coordinates in
  if Qle_bool 25 latitude && Qle_bool latitude 72
     && Qle_bool (-168) longitude && Qle_bool longitude (-52)
  then north_america
  else if Qle_bool 35 latitude && Qle_bool latitude 72
          && Qle_bool (-10) longitude && Qle_bool longitude 40
  then europe
  else if Qle_bool 12 latitude && Qle_bool latitude 42
          && Qle_bool 34 longitude && Qle_bool longitude 60
  then middle_east
  else if Qle_bool (-11) latitude && Qle_bool latitude 28
          && Qle_bool 95 longitude && Qle_bool longitude 141
  then southeast_asia
  else if Qle_bool (-35) latitude && Qle_bool latitude 37
          && Qle_bool (-18) longitude && Qle_bool longitude 51
  then africa
  else if Qle_bool 5 latitude && Qle_bool latitude 37
          && Qle_bool 60 longitude && Qle_bool longitude 97
  then south_asia
  else unknown.

Definition isWithinBounds (coordinates : Coordinates)
    (bounds : CoordinateBounds) : bool :=
  Qle_bool (south bounds) (latitude coordinates)
  && Qle_bool (latitude coordinates) (north bounds)
  && Qle_bool (west bounds) (longitude coordinates)
  && Qle_bool (longitude coordinates) (east bounds).

End CoordinateUtils.

(* ================================================================= *)
(** ** [lib/methods/geographic.ts] *)

Record MethodSuggestion := {
  recommended : MethodCode;
  region : RegionCode;
  alternatives : list MethodCode;
  reason : string
}.

Record RegionalPreference := {
  primary : MethodCode;
  rp_alternatives : list MethodCode;
  rp_reason : string
}.

Record Suitability := {
  suitable : bool;
  su_reason : option string
}.

Module Geographic.
Import JS CoordinateUtils.
Local Open Scope Q_scope.
Local Open Scope string_scope.

Definition bounds (n s e w : Q) : CoordinateBounds :=
  {| north := n; south := s; east := e; west := w |}.

(** [SPECIFIC_REGIONS], in the order of its keys. *)
Definition SPECIFIC_REGIONS : list (string * (CoordinateBounds * MethodCode)) :=
  [ ("saudi_arabia", (bounds 32.5 16 50.5 34.5, UmmAlQura));
    ("qatar", (bounds 26.2 24.5 51.7 50.7, Qatar));
    ("uae", (bounds 26.5 22.5 56.5 51, Dubai));
    ("malaysia", (bounds 7.5 0.5 119.5 99.5, JAKIM));
    ("indonesia", (bounds 6 (-11) 141 95, Kemenag));
    ("singapore", (bounds 1.5 1.2 104.1 103.6, Singapore));
    ("france", (bounds 51.5 41.5 9.5 (-5), France15));
    ("turkey", (bounds 42.5 35.5 45 25.5, Turkey));
    ("russia", (bounds 82 41.5 (-169) 19, Russia));
    ("iran", (bounds 40 25 63.5 44, Tehran)) ].

Definition REGIONAL_METHOD_PREFERENCES (r : RegionCode) : RegionalPreference :=
  match r with
  | north_america =>
      {| primary := ISNA; rp_alternatives := [MWL];
         rp_reason :=
           "ISNA is widely accepted across North American Muslim communities" |}
  | europe =>
      {| primary := MWL;
         rp_alternatives := [France15; France12; France18; Turkey; Russia];
         rp_reason :=
           "Muslim World League method is internationally recognized" |}
  | middle_east =>
      {| primary := UmmAlQura; rp_alternatives := [MWL; Egypt];
         rp_reason :=
           "Umm Al-Qura is used in the holy cities and widely accepted in the region" |}
  | southeast_asia =>
      {| primary := JAKIM; rp_alternatives := [Kemenag; Singapore; MWL];
         rp_reason := "JAKIM method is optimized for tropical latitudes" |}
  | africa =>
      {| primary := Egypt; rp_alternatives := [MWL];
         rp_reason := "Egyptian method is traditional in North Africa" |}
  | south_asia =>
      {| primary := MWL; rp_alternatives := [Kemenag];
         rp_reason :=
           "Muslim World League method is widely used in the Indian subcontinent" |}
  | unknown =>
      {| primary := MWL; rp_alternatives := [ISNA; UmmAlQura];
         rp_reason :=
           "Muslim World League is a safe default for unknown regions" |}
  end.

(** [getRegionalPreference]: the preference and its region. *)
Definition getRegionalPreference (coordinates : Coordinates)
  : RegionalPreference * RegionCode :=
  let region := getRegion coordinates in
  (REGIONAL_METHOD_PREFERENCES region, region).

(** [s.replace("_", " ")]: the first underscore only. *)
Fixpoint replaceUnderscore (s : string) : string :=
  match s with
  | EmptyString => EmptyString
  | String c rest =>
      if Ascii.eqb c "_" then String " " rest
      else String c (replaceUnderscore rest)
  end.

(** The loop of [suggestMethod] and of [getCountryFromCoordinates]: the
    first entry whose bounds hold the coordinates. *)
Fixpoint firstRegion (coordinates : Coordinates)
    (entries : list (string * (CoordinateBounds * MethodCode)))
  : option (string * MethodCode) :=
  match entries with
  | [] => None
  | (name, (b, method)) :: rest =>
      if isWithinBounds coordinates b then Some (name, method)
      else firstRegion coordinates rest
  end.

Definition suggestMethod (coordinates : Coordinates) : MethodSuggestion :=
  match firstRegion coordinates SPECIFIC_REGIONS with
  | Some (regionName, method) =>
      let '(preference, region) := getRegionalPreference coordinates in
      {| recommended := method;
         region := region;
         alternatives :=
           primary preference :: firstn 2 (rp_alternatives preference);
         reason := "Specific method for " ++ replaceUnderscore regionName
                   ++ ": " ++ methodLabel method |}
  | None =>
      let '(preference, region) := getRegionalPreference coordinates in
      {| recommended := primary preference;
         region := region;
         alternatives := rp_alternatives preference;
         reason := rp_reason preference |}
  end.

Definition getRegionalMethods (coordinates : Coordinates) : list MethodCode :=
  let region := getRegion coordinates in
  let preference := REGIONAL_METHOD_PREFERENCES region in
  primary preference :: rp_alternatives preference.

Definition MethodCode_eqb (a b : MethodCode) : bool :=
  String.eqb (methodLabel a) (methodLabel b).

(** [list.includes(method)]. *)
Definition includesMethod (l : list MethodCode) (method : MethodCode) : bool :=
  existsb (MethodCode_eqb method) l.

Definition isMethodSuitableForLocation (method : MethodCode)
    (coordinates : Coordinates) : Suitability :=
  let regionalMethods := getRegionalMethods coordinates in
  if includesMethod regionalMethods method then
    {| suitable := true; su_reason := None |}
  else
    let latitude := Qabs (latitude coordinates) in
    if Qlt_bool 55 latitude then
      if includesMethod [Russia; MWL; Moonsighting] method then
        {| suitable := true;
           su_reason := Some "Method adapted for high latitudes" |}
      else
        {| suitable := false;
           su_reason :=
             Some "Method may not work well at high latitudes. Consider Russia or Moonsighting method." |}
    else if Qlt_bool latitude 25 then
      if includesMethod [JAKIM; Kemenag; Singapore; MWL] method then
        {| suitable := true;
           su_reason := Some "Method suitable for tropical regions" |}
      else
        {| suitable := false;
           su_reason :=
             Some "Method may not be optimal for tropical regions. Consider JAKIM or Kemenag." |}
    else
      {| suitable := true;
         su_reason :=
           Some "Method will work but may not be regionally optimal" |}.

(** [suggestHighLatitudeRule]: the rule of the suggestion. *)
Definition suggestHighLatitudeRule (coordinates : Coordinates)
  : HighLatitudeRule :=
  let latitude := Qabs (latitude coordinates) in
  if Qlt_bool latitude 48 then RuleNone
  else if Qlt_bool latitude 55 then AngleBased
  else if Qlt_bool latitude 66.5 then NightMiddle
  else OneSeventh.

End Geographic.

(* ================================================================= *)
(** ** The current and the next prayer: [lib/engine/calculator.ts] and
      [api/prayer-times.ts] *)

Record CurrentPrayerInfo := {
  current : option PrayerName;
  next : option PrayerName;
  timeUntilNext : option JS.number
}.

Record NextPrayer := {
  np_prayer : PrayerName;
  np_time : JS.Date;
  np_minutesUntil : JS.number
}.

Module CalculatorUtils.
Import JS MathObject.
Local Open Scope Q_scope.

Definition prayerOrder : list PrayerName :=
  [fajr; sunrise; dhuhr; asr; maghrib; isha].

(** The loop of [getCurrentPrayerInfo] from index [i] on; [previous] is
    [prayerOrder[i - 1]], absent at [i = 0].  [None] is the loop running
    to its end. *)
Fixpoint findNext (times : PrayerTimes) (now : Date)
    (previous : option PrayerName) (order : list PrayerName)
  : option CurrentPrayerInfo :=
  match order with
  | [] => None
  | prayerName :: rest =>
      let prayerTime := getPrayer times prayerName in
      if lt (getTime now) (getTime prayerTime) then
        Some {| current := previous;
                next := Some prayerName;
                timeUntilNext :=
                  Some (roundN (div (sub (getTime prayerTime) (getTime now))
                                    (Some (1000 * 60)))) |}
      else findNext times now (Some prayerName) rest
  end.

Section WithHost.
Variable host : Host.

Definition getCurrentPrayerInfo (times : PrayerTimes)
    (currentTime : option Date) : CurrentPrayerInfo :=
  let now := match currentTime with Some d => d | None => Some (now host) end in
  match findNext times now None prayerOrder with
  | Some info => info
  | None =>
      {| current := Some isha; next := Some fajr; timeUntilNext := None |}
  end.

End WithHost.

End CalculatorUtils.

Module ApiQueries.
Import JS Api CalculatorUtils.

Section WithHost.
Variable host : Host.

(** [PrayerTimeCalculator.getCurrentPrayer(currentTime)] for a
    calculator built on [config]. *)
Definition getCurrentPrayer (config : PrayerTimeConfig)
    (currentTime : option DateInput) : Exc CurrentPrayerInfo :=
  (now <- parseDate host currentTime ;;
   times <- calculate host config (Some (DateObject (Some now))) ;;
   ret (getCurrentPrayerInfo host times (Some (Some now))))%exc.

(** [PrayerTimeCalculator.getNextPrayer(currentTime)]; [None] is
    [null]. *)
Definition getNextPrayer (config : PrayerTimeConfig)
    (currentTime : option DateInput) : Exc (option NextPrayer) :=
  (current <- getCurrentPrayer config currentTime ;;
   match next current, timeUntilNext current with
   | Some nextName, Some minutes =>
       now <- parseDate host currentTime ;;
       times <- calculate host config (Some (DateObject (Some now))) ;;
       ret (Some {| np_prayer := nextName;
                    np_time := getPrayer times nextName;
                    np_minutesUntil := minutes |})
   | _, _ => ret None
   end)%exc.

End WithHost.

End ApiQueries.

(* ================================================================= *)
(** ** [lib/methods/methods.ts], continued *)

Record MethodValidation := {
  mv_isValid : bool;
  mv_errors : list string
}.

Module MethodUtils.
Import JS Methods.
Local Open Scope Q_scope.
Local Open Scope string_scope.

Section WithHost.
Variable host : Host.

Definition isAngle (k : ParsedKind) : bool :=
  match k with angle => true | interval => false end.

(** The two range checks on a parsed angle or interval. *)
Definition rangeErrors (parsed : Parsed) (angleMax intervalMax : Q)
    (angleError intervalError : string) : list string :=
  (if isAngle (p_type parsed)
      && (lt (p_value parsed) (Some 0) || gt (p_value parsed) (Some angleMax))
   then [angleError] else [])
  ++ (if negb (isAngle (p_type parsed))
         && (lt (p_value parsed) (Some 0)
             || gt (p_value parsed) (Some intervalMax))
      then [intervalError] else []).

(** [validateMethodParams(params)].  The members [midnight] and [shafaq]
    range over closed enumerations and raise no error. *)
Definition validateMethodParams (params : MethodParams) : MethodValidation :=
  let fajrErrors :=
    if Qlt_bool (mp_fajr params) 0 || Qlt_bool 30 (mp_fajr params)
    then ["Fajr angle must be between 0 and 30 degrees"] else [] in
  let ishaErrors :=
    match parseAngleOrInterval host (mp_isha params) with
    | inr ishaParsed =>
        rangeErrors ishaParsed 30 300
          "Isha angle must be between 0 and 30 degrees"
          "Isha interval must be between 0 and 300 minutes"
    | inl _ => ["Invalid Isha parameter format"]
    end in
  let maghribErrors :=
    match mp_maghrib params with
    | Some m =>
        match parseAngleOrInterval host m with
        | inr maghribParsed =>
            rangeErrors maghribParsed 10 60
              "Maghrib angle must be between 0 and 10 degrees"
              "Maghrib interval must be between 0 and 60 minutes"
        | inl _ => ["Invalid Maghrib parameter format"]
        end
    | None => []
    end in
  let errors := (fajrErrors ++ ishaErrors ++ maghribErrors)%list in
  {| mv_isValid := (List.length errors =? 0)%nat; mv_errors := errors |}.

End WithHost.

End MethodUtils.

(* ================================================================= *)
(** ** Date ranges: [lib/engine/calculator.ts] *)

Record DayResult := {
  dr_date : Z;
  dr_times : PrayerTimes;
  dr_isValid : bool
}.

Module CalculatorRange.
Import JS Calculator.

Section WithHost.
Variable host : Host.

(** The loop of [calculatePrayerTimesRange]; [fuel] bounds the
    iterations. *)
Fixpoint rangeLoop (fuel : nat) (config : PrayerTimeConfig)
    (currentDate endDate : Z) : list DayResult :=
  match fuel with
  | O => []
  | S fuel' =>
      if (currentDate <=? endDate)%Z then
        let result :=
          calculatePrayerTimes host config (Some currentDate) noOptions in
        {| dr_date := currentDate; dr_times := times result;
           dr_isValid := isValid result |}
        :: rangeLoop fuel' config (nextDay currentDate) endDate
      else []
  end.

(** Enough iterations for the loop to reach its exit. *)
Definition rangeFuel (startDate endDate : Z) : nat :=
  Z.to_nat ((endDate - startDate) / msPerDay + 1).

(** [calculatePrayerTimesRange(config, startDate, endDate)]: a comparison
    with an invalid date is false. *)
Definition calculatePrayerTimesRange (config : PrayerTimeConfig)
    (startDate endDate : Date) : list DayResult :=
  match startDate, endDate with
  | Some s, Some e => rangeLoop (rangeFuel s e) config s e
  | _, _ => []
  end.

End WithHost.

End CalculatorRange.

(* ================================================================= *)
(** ** Sample data

    Concrete values on which the statements below are exercised.  The
    instants are those of 21 June 2024 (UTC midnight is
    1718928000000 ms). *)

Module Samples.
Import JS.

Definition day0 : Z := 1718928000000.

(** A time of day on [day0], given in whole seconds. *)
Definition at_ (h m s : Z) : Date :=
  Some (day0 + h * 3600000 + m * 60000 + s * 1000)%Z.

Definition sampleTimes : PrayerTimes :=
  {| t_fajr := at_ 3 10 0; t_sunrise := at_ 4 45 0; t_dhuhr := at_ 12 2 0;
     t_asr := at_ 16 5 0; t_sunset := at_ 19 18 0; t_maghrib := at_ 19 19 0;
     t_isha := at_ 20 50 0 |}.

Definition sampleAdjustments : Adjustments :=
  [(fajr, Some 2%Q); (sunrise, Some 5%Q); (isha, Some (-1.5)%Q)].

(** A stand-in for the floating-point solver: the hours of a summer day
    at a mid latitude (sunrise 02:27:29, transit 09:37:31, sunset
    16:47:33 UTC), the same on every day. *)
Definition summerSolar : SolarTime :=
  {| transit := Some 9.6253%Q;
     sunriseHours := Some 2.4581%Q;
     sunsetHours := Some 16.7925%Q;
     hourAngle := fun a afterTransit =>
       if afterTransit then Some (16.7925 + (- a) * 0.1)%Q
       else Some (2.4581 - (- a) * 0.1)%Q;
     afternoon := fun shadowLength => Some (12.3 + shadowLength * 1.1)%Q |}.

Definition showZ (z : Z) : string :=
  DecimalString.NilZero.string_of_int (Z.to_int z).

Definition notPolar : PolarConditions :=
  {| isPolarDay := false; isPolarNight := false; polarReason := "" |}.

Definition summerHost : Host :=
  {| newSolarTime := fun _ _ => summerSolar;
     checkPolarConditions := fun _ _ => notPolar;
     now := (day0 + 12 * 3600000)%Z;
     parseFloat := fun _ => None;
     parseDateString := fun s =>
       if String.eqb s "2024-06-21" then Some day0 else None;
     numberToString := fun q => showZ (Qfloor q);
     toFixed1 := fun q => showZ (Qfloor q) |}.

Definition damascus : Coordinates :=
  {| latitude := 33.5138%Q; longitude := 36.2765%Q |}.

Definition plainConfig (m : MethodCode) (c : Coordinates) : PrayerTimeConfig :=
  {| cfg_method := m; cfg_location := c; cfg_timezone := None;
     cfg_date := None; cfg_fajr := None; cfg_isha := None;
     cfg_maghrib := None; cfg_midnight := None; cfg_shafaq := None;
     cfg_asrSchool := None; cfg_highLatitudeRule := None;
     cfg_elevation := None; cfg_adjustments := None;
     cfg_iterations := None |}.

Definition plainContext (m : MethodCode) (c : Coordinates) (date : Z)
    (params : MethodParams) : CalculationContext :=
  Calculator.createCalculationContext date c params (Some m) None None None
    None.

(** A well-ordered day whose sunrise and maghrib are one hour apart. *)
Definition shortDayTimes : PrayerTimes :=
  {| t_fajr := at_ 10 0 0; t_sunrise := at_ 11 0 0; t_dhuhr := at_ 11 30 0;
     t_asr := at_ 11 45 0; t_sunset := at_ 11 59 0; t_maghrib := at_ 12 0 0;
     t_isha := at_ 13 0 0 |}.

Definition mwlParams : MethodParams :=
  Methods.mk 18 (NumV 17) Methods.oneMin MidnightStandard None
    (Some [(dhuhr, Some 1%Q)]).

Definition damascusContext : CalculationContext :=
  plainContext MWL damascus day0 mwlParams.

(** The MWL method with a user adjustment of half a minute on Dhuhr. *)
Definition halfMinuteConfig : PrayerTimeConfig :=
  {| cfg_method := MWL; cfg_location := damascus; cfg_timezone := None;
     cfg_date := None; cfg_fajr := None; cfg_isha := None;
     cfg_maghrib := None; cfg_midnight := None; cfg_shafaq := None;
     cfg_asrSchool := None; cfg_highLatitudeRule := None;
     cfg_elevation := None;
     cfg_adjustments := Some [(dhuhr, Some 0.5%Q); (fajr, Some 2%Q)];
     cfg_iterations := None |}.

Definition damascusPrepared (config : PrayerTimeConfig) : Prepared :=
  {| pr_config := Validation.sanitizeConfig config;
     pr_coordinates := damascus;
     pr_context := damascusContext;
     pr_warnings := [] |}.

(** The instants of [summerSolar] on [day0], before any adjustment. *)
Definition summerRaw : PrayerTimes :=
  {| t_fajr := at_ 0 39 29; t_sunrise := at_ 2 27 29;
     t_dhuhr := at_ 9 37 31; t_asr := at_ 13 24 0;
     t_sunset := at_ 16 47 33; t_maghrib := at_ 16 48 33;
     t_isha := at_ 18 29 33 |}.




(** The winter solstice of 2023 (UTC midnight of 21 December) at
    Edinburgh: sunrise 08:42:32, transit 12:11:00, sunset 15:39:29 UTC,
    the same on the next day. *)
Definition winterDay : Z := 1703116800000.






(** A time of day on [winterDay], in milliseconds since the epoch. *)
Definition onWinterDay (h m s : Z) : Z :=
  (winterDay + h * 3600000 + m * 60000 + s * 1000)%Z.

Definition winterSunrise : Z := onWinterDay 8 42 32.
Definition winterSunset : Z := onWinterDay 15 39 29.



(** The MWL method under the Hanafi school. *)
Definition hanafiConfig : PrayerTimeConfig :=
  {| cfg_method := MWL; cfg_location := damascus; cfg_timezone := None;
     cfg_date := None; cfg_fajr := None; cfg_isha := None;
     cfg_maghrib := None; cfg_midnight := None; cfg_shafaq := None;
     cfg_asrSchool := Some Hanafi; cfg_highLatitudeRule := None;
     cfg_elevation := None;
     cfg_adjustments := Some [(asr, Some 2%Q)];
     cfg_iterations := None |}.


(** The winter solstice at Tromso: the sun does not rise, the solver
    finds a transit and nothing else. *)
Definition tromso : Coordinates :=
  {| latitude := 69.6492%Q; longitude := 18.9553%Q |}.

Definition sunlessSolar : SolarTime :=
  {| transit := Some 10.7%Q;
     sunriseHours := NaN;
     sunsetHours := NaN;
     hourAngle := fun _ _ => NaN;
     afternoon := fun _ => NaN |}.

Definition polarNight : PolarConditions :=
  {| isPolarDay := false; isPolarNight := true;
     polarReason := "Sun never rises (polar night)" |}.

Definition sunlessHost : Host :=
  {| newSolarTime := fun _ _ => sunlessSolar;
     checkPolarConditions := fun _ _ => polarNight;
     now := (winterDay + 12 * 3600000)%Z;
     parseFloat := fun _ => None;
     parseDateString := fun _ => None;
     numberToString := fun q => showZ (Qfloor q);
     toFixed1 := fun q => showZ (Qfloor q) |}.


(** A configuration with the one method code of the type that has no
    entry in the registry. *)
Definition kelantanConfig : PrayerTimeConfig := plainConfig JAKIMKN damascus.

End Samples.

(* ================================================================= *)
(** ** Vocabulary of the statements *)

(** No issue of the list is critical. *)
Definition noCritical (issues : list string) : bool :=
  (List.length (filter Precision.isCritical issues) =? 0)%nat.

(** The user adjustments that [calculatePrayerTimes] applies. *)
Definition effectiveUserAdjustments (config : PrayerTimeConfig)
    (options : CalculationOptions) : Adjustments :=
  if Calculator.orDefault (opt_applyAdjustments options) true then
    match cfg_adjustments config with Some a => a | None => [] end
  else [].

(** The method's own adjustment of one prayer. *)
Definition methodAdjusted (params : MethodParams) (p : PrayerName)
    (t : JS.Date) : JS.Date :=
  match mp_adjustments params with
  | Some adj => Precision.adjustIfSet adj p t
  | None => t
  end.

(** The user's adjustment of one prayer. *)
Definition userAdjusted (adj : Adjustments) (p : PrayerName) (t : JS.Date)
  : JS.Date :=
  match lookup p adj with
  | Some m => Time.addMinutes t m
  | None => t
  end.

(** Whether the high-latitude stage runs. *)
Definition polarStage (options : CalculationOptions) (c : Coordinates) : bool :=
  Calculator.orDefault (opt_handlePolarRegions options) true
  && Polar.requiresPolarAdjustment (latitude c).

(** Two numbers that are equal as numbers: both NaN, or equal
    rationals. *)
Definition sameNumber (x y : JS.number) : Prop :=
  match x, y with
  | Some a, Some b => (a == b)%Q
  | None, None => True
  | _, _ => False
  end.


(* ================================================================= *)
(** * Properties *)

(* ----------------------------------------------------------------- *)
(** ** Arithmetic of numbers and dates *)

Section NumberFacts.
Import JS.
Local Open Scope Q_scope.

Lemma Qfloor_unique (x : Q) (n : Z) :
  inject_Z n <= x -> x < inject_Z n + 1 -> Qfloor x = n.
Proof.
  intros Hlo Hhi.
  pose proof (Qfloor_le x) as Hf1.
  pose proof (Qlt_floor x) as Hf2.
  assert (H1 : (Qfloor x < n + 1)%Z).
  { rewrite Zlt_Qlt, inject_Z_plus. eapply Qle_lt_trans; eauto. }
  assert (H2 : (n < Qfloor x + 1)%Z).
  { rewrite Zlt_Qlt. eapply Qle_lt_trans; eauto. }
  lia.
Qed.

Lemma Qfloor_plus_Z (x : Q) (n : Z) :
  Qfloor (x + inject_Z n) = (Qfloor x + n)%Z.
Proof.
  apply Qfloor_unique.
  - rewrite inject_Z_plus. pose proof (Qfloor_le x). lra.
  - pose proof (Qlt_floor x) as H. rewrite !inject_Z_plus in *.
    change (inject_Z 1) with 1 in H. lra.
Qed.

Lemma Qceiling_Z (z : Z) : Qceiling (inject_Z z) = z.
Proof.
  unfold Qceiling. rewrite <- inject_Z_opp, Qfloor_Z. lia.
Qed.

Lemma trunc_Z (z : Z) : trunc (inject_Z z) = z.
Proof.
  unfold trunc. destruct (Qle_bool 0 (inject_Z z)).
  - apply Qfloor_Z.
  - apply Qceiling_Z.
Qed.

Lemma trunc_comp (x y : Q) : x == y -> trunc x = trunc y.
Proof.
  intros E. unfold trunc. rewrite (Qleb_comp 0 0 (Qeq_refl 0) x y E).
  destruct (Qle_bool 0 y).
  - apply Qfloor_comp; exact E.
  - apply Qceiling_comp; exact E.
Qed.

Lemma trunc_integral (x : Q) (n : Z) : x == inject_Z n -> trunc x = n.
Proof.
  intros E. rewrite (trunc_comp E). apply trunc_Z.
Qed.

(** On non-negative numbers the truncation is the floor. *)
Lemma trunc_nonneg (x : Q) : 0 <= x -> trunc x = Qfloor x.
Proof.
  intros H. unfold trunc.
  destruct (Qle_bool 0 x) eqn:E; [reflexivity|].
  apply Qle_bool_iff in H. congruence.
Qed.

Lemma Qlt_bool_iff (a b : Q) : Qlt_bool a b = true <-> a < b.
Proof.
  unfold Qlt_bool. rewrite negb_true_iff.
  split; intros H.
  - apply Qnot_le_lt. intros Hle. apply Qle_bool_iff in Hle. congruence.
  - destruct (Qle_bool b a) eqn:E; [|reflexivity].
    apply Qle_bool_iff in E. lra.
Qed.

Lemma Qlt_bool_false_iff (a b : Q) : Qlt_bool a b = false <-> b <= a.
Proof.
  unfold Qlt_bool. rewrite negb_false_iff. apply Qle_bool_iff.
Qed.

Lemma Qle_bool_false_iff (a b : Q) : Qle_bool a b = false <-> b < a.
Proof.
  rewrite <- Qlt_bool_iff. unfold Qlt_bool.
  destruct (Qle_bool a b); simpl; intuition congruence.
Qed.

End NumberFacts.

Section TimeFacts.
Import JS Time.
Local Open Scope Z_scope.

(** Adding a whole number of milliseconds, given in minutes. *)
Lemma addMinutes_exact (t : Z) (q : Q) (n : Z) :
  (q * 60 * 1000 == inject_Z n)%Q ->
  addMinutes (Some t) (Some q) = Some (t + n).
Proof.
  intros E. unfold addMinutes. simpl. f_equal.
  apply trunc_integral. rewrite inject_Z_plus, E. reflexivity.
Qed.

Lemma addMinutes_invalid (m : number) : addMinutes None m = None.
Proof. reflexivity. Qed.

Lemma addSeconds_Z (t s : Z) :
  addSeconds (Some t) (ofZ s) = Some (t + s * 1000).
Proof.
  unfold addSeconds, ofZ. simpl. f_equal.
  apply trunc_integral.
  rewrite inject_Z_plus, inject_Z_mult. reflexivity.
Qed.

(** [roundedMinute] in closed form: the seconds field decides. *)
Lemma roundedMinute_nearest (t : Z) :
  roundedMinute (Some t) Nearest =
  Some (if 30 <=? getUTCSeconds t
        then t + (60 - getUTCSeconds t) * 1000
        else t - getUTCSeconds t * 1000).
Proof.
  unfold roundedMinute.
  destruct (30 <=? getUTCSeconds t); rewrite addSeconds_Z; f_equal; lia.
Qed.

(** On an instant that holds whole seconds, [roundedMinute] is the
    nearest whole minute, the half going up. *)
Lemma roundedMinute_whole_seconds (t : Z) :
  t mod 1000 = 0 ->
  roundedMinute (Some t) Nearest = Some (60000 * ((t + 30000) / 60000)).
Proof.
  intros Hms. rewrite roundedMinute_nearest. f_equal.
  unfold getUTCSeconds, SecFromTime, msPerSecond.
  pose proof (Z.div_mod t 1000 ltac:(lia)) as Ht.
  set (s := t / 1000) in *.
  pose proof (Z.div_mod s 60 ltac:(lia)) as Hs.
  pose proof (Z.mod_pos_bound s 60 ltac:(lia)) as Hb.
  set (m := s / 60) in *. set (r := s mod 60) in *.
  assert (Et : t = 60000 * m + 1000 * r) by lia.
  destruct (30 <=? r) eqn:E.
  - apply Z.leb_le in E.
    assert ((t + 30000) / 60000 = m + 1).
    { symmetry. apply (Z.div_unique _ _ _ (1000 * r - 30000)); lia. }
    lia.
  - apply Z.leb_gt in E.
    assert ((t + 30000) / 60000 = m).
    { symmetry. apply (Z.div_unique _ _ _ (1000 * r + 30000)); lia. }
    lia.
Qed.

Lemma roundedMinute_invalid : roundedMinute None Nearest = None.
Proof. reflexivity. Qed.

End TimeFacts.

(* ----------------------------------------------------------------- *)
(** ** [createUTCDateFromHours] in closed form *)

(** Integer literals seen through [inject_Z]. *)
Ltac zq :=
  repeat first
    [ progress change (inject_Z 0) with 0%Q in *
    | progress change (inject_Z 1) with 1%Q in *
    | progress change (inject_Z (-1)) with (-1)%Q in *
    | progress change (inject_Z 24) with 24%Q in *
    | progress change (inject_Z 60) with 60%Q in *
    | progress change (inject_Z 3600) with 3600%Q in *
    | progress change (inject_Z 86400) with 86400%Q in * ].

Section WrapFacts.
Import JS Precision.
Local Open Scope Q_scope.

Lemma Qfloor_div24_succ (h : Q) :
  Qfloor ((h + 24) / 24) = (Qfloor (h / 24) + 1)%Z.
Proof.
  rewrite <- Qfloor_plus_Z. apply Qfloor_comp. zq. field.
Qed.

Lemma Qfloor_div24_pred (h : Q) :
  Qfloor ((h - 24) / 24) = (Qfloor (h / 24) - 1)%Z.
Proof.
  replace (Qfloor (h / 24) - 1)%Z with (Qfloor (h / 24) + (-1))%Z by lia.
  rewrite <- Qfloor_plus_Z. apply Qfloor_comp. zq. field.
Qed.

(** The quotient by 24 brackets the hour count. *)
Lemma floor24_bounds (h : Q) :
  24 * inject_Z (Qfloor (h / 24)) <= h
  /\ h < 24 * inject_Z (Qfloor (h / 24)) + 24.
Proof.
  assert (Eh : h == (h / 24) * 24) by field.
  pose proof (Qfloor_le (h / 24)) as Hlo.
  pose proof (Qlt_floor (h / 24)) as Hhi.
  rewrite inject_Z_plus in Hhi. zq.
  set (q := h / 24) in *. set (k := inject_Z (Qfloor q)) in *.
  split; rewrite Eh; lra.
Qed.

Lemma Qfloor_div24_neg (h : Q) : h < 0 -> (Qfloor (h / 24) <= -1)%Z.
Proof.
  intros H. destruct (floor24_bounds h) as [Hlo Hhi].
  assert (Hz : (Qfloor (h / 24) < 0)%Z) by (rewrite Zlt_Qlt; zq; lra).
  lia.
Qed.

Lemma Qfloor_div24_small (h : Q) : 0 <= h -> h < 24 -> Qfloor (h / 24) = 0%Z.
Proof.
  intros H0 H24. destruct (floor24_bounds h) as [Hlo Hhi].
  assert (H1 : (Qfloor (h / 24) < 1)%Z) by (rewrite Zlt_Qlt; zq; lra).
  assert (H2 : (-1 < Qfloor (h / 24))%Z) by (rewrite Zlt_Qlt; zq; lra).
  lia.
Qed.

Lemma Qfloor_div24_big (h : Q) : 24 <= h -> (1 <= Qfloor (h / 24))%Z.
Proof.
  intros H. destruct (floor24_bounds h) as [Hlo Hhi].
  assert (Hz : (0 < Qfloor (h / 24))%Z) by (rewrite Zlt_Qlt; zq; lra).
  lia.
Qed.

Lemma wrapNegative_done (fuel : nat) (h : Q) (d : Z) :
  0 <= h -> wrapNegative fuel h d = (h, d).
Proof.
  intros H. destruct fuel; simpl; [reflexivity|].
  destruct (Qlt_bool h 0) eqn:E; [|reflexivity].
  apply Qlt_bool_iff in E. lra.
Qed.

Lemma wrapOverflow_done (fuel : nat) (h : Q) (d : Z) :
  h < 24 -> wrapOverflow fuel h d = (h, d).
Proof.
  intros H. destruct fuel; simpl; [reflexivity|].
  destruct (Qle_bool 24 h) eqn:E; [|reflexivity].
  apply Qle_bool_iff in E. lra.
Qed.

Lemma wrapNegative_spec (fuel : nat) :
  forall (h : Q) (d : Z),
    h < 0 -> (Z.abs_nat (Qfloor (h / 24)) <= fuel)%nat ->
    exists h', wrapNegative fuel h d = (h', (d + Qfloor (h / 24))%Z)
               /\ h' == h - 24 * inject_Z (Qfloor (h / 24)).
Proof.
  induction fuel as [|fuel IH]; intros h d Hneg Hfuel.
  - pose proof (Qfloor_div24_neg Hneg). lia.
  - cbn [wrapNegative]. destruct (Qlt_bool h 0) eqn:E.
    2:{ apply Qlt_bool_false_iff in E. lra. }
    pose proof (Qfloor_div24_neg Hneg) as Hk.
    pose proof (Qfloor_div24_succ h) as Hs.
    destruct (Qlt_le_dec (h + 24) 0) as [Hlt|Hge].
    + destruct (IH (h + 24) (d - 1)%Z Hlt) as [h' [E1 E2]].
      { rewrite Hs. lia. }
      exists h'. split.
      * rewrite E1. f_equal. rewrite Hs. lia.
      * rewrite E2, Hs, inject_Z_plus. zq. ring.
    + exists (h + 24). split.
      * rewrite wrapNegative_done by exact Hge. f_equal.
        assert (Qfloor ((h + 24) / 24) = 0%Z).
        { apply Qfloor_div24_small; lra. }
        lia.
      * assert (Qfloor ((h + 24) / 24) = 0%Z).
        { apply Qfloor_div24_small; lra. }
        assert (Ek : Qfloor (h / 24) = (-1)%Z) by lia.
        rewrite Ek. zq. ring.
Qed.

Lemma wrapOverflow_spec (fuel : nat) :
  forall (h : Q) (d : Z),
    24 <= h -> (Z.abs_nat (Qfloor (h / 24)) <= fuel)%nat ->
    exists h', wrapOverflow fuel h d = (h', (d + Qfloor (h / 24))%Z)
               /\ h' == h - 24 * inject_Z (Qfloor (h / 24)).
Proof.
  induction fuel as [|fuel IH]; intros h d Hbig Hfuel.
  - pose proof (Qfloor_div24_big Hbig). lia.
  - cbn [wrapOverflow]. destruct (Qle_bool 24 h) eqn:E.
    2:{ apply Qle_bool_false_iff in E. lra. }
    pose proof (Qfloor_div24_big Hbig) as Hk.
    pose proof (Qfloor_div24_pred h) as Hs.
    destruct (Qlt_le_dec (h - 24) 24) as [Hlt|Hge].
    + exists (h - 24). split.
      * rewrite wrapOverflow_done by exact Hlt. f_equal.
        assert (Qfloor ((h - 24) / 24) = 0%Z).
        { apply Qfloor_div24_small; lra. }
        lia.
      * assert (Qfloor ((h - 24) / 24) = 0%Z).
        { apply Qfloor_div24_small; lra. }
        assert (Ek : Qfloor (h / 24) = 1%Z) by lia.
        rewrite Ek. zq. ring.
    + destruct (IH (h - 24) (d + 1)%Z Hge) as [h' [E1 E2]].
      { rewrite Hs. lia. }
      exists h'. split.
      * rewrite E1. f_equal. rewrite Hs. lia.
      * rewrite E2, Hs.
        replace (Qfloor (h / 24) - 1)%Z with (Qfloor (h / 24) + (-1))%Z by lia.
        rewrite inject_Z_plus. zq. ring.
Qed.

(** The two loops together: the hour count is brought into [0, 24) and
    the day offset is the quotient by 24. *)
Lemma wrap_spec (h : Q) :
  exists a,
    (let '(h1, k1) := wrapNegative (wrapFuel h) h 0%Z in
     wrapOverflow (wrapFuel h) h1 k1) = (a, Qfloor (h / 24))
    /\ a == h - 24 * inject_Z (Qfloor (h / 24))
    /\ 0 <= a /\ a < 24.
Proof.
  destruct (floor24_bounds h) as [Hlo Hhi].
  destruct (Qlt_le_dec h 0) as [Hneg|Hnonneg].
  - destruct (@wrapNegative_spec (wrapFuel h) h 0%Z Hneg) as [h' [E1 E2]].
    { unfold wrapFuel. lia. }
    rewrite E1. exists h'.
    assert (0 <= h' /\ h' < 24) as [B1 B2] by (rewrite E2; split; lra).
    rewrite wrapOverflow_done by exact B2.
    repeat split; try assumption.
  - rewrite wrapNegative_done by exact Hnonneg.
    destruct (Qlt_le_dec h 24) as [Hsmall|Hbig].
    + rewrite wrapOverflow_done by exact Hsmall.
      exists h. rewrite (Qfloor_div24_small Hnonneg Hsmall).
      repeat split; try assumption. zq. ring.
    + destruct (@wrapOverflow_spec (wrapFuel h) h 0%Z Hbig) as [h' [E1 E2]].
      { unfold wrapFuel. lia. }
      rewrite E1. exists h'.
      assert (0 <= h' /\ h' < 24) as [B1 B2] by (rewrite E2; split; lra).
      repeat split; try assumption.
Qed.

(** Hours, minutes and seconds cut from a non-negative hour count add up
    to its whole seconds. *)
Lemma split_hms (a : Q) :
  0 <= a ->
  (3600 * Qfloor a + 60 * Qfloor (mod1 a * 60)
   + Qfloor (mod1 (mod1 a * 60) * 60))%Z = Qfloor (3600 * a).
Proof.
  intros Ha.
  assert (Hm1 : forall x, 0 <= x -> mod1 x == x - inject_Z (Qfloor x)).
  { intros x Hx. unfold mod1. rewrite (trunc_nonneg Hx). reflexivity. }
  pose proof (Qfloor_le a) as A1. pose proof (Qlt_floor a) as A2.
  rewrite inject_Z_plus in A2. zq.
  pose proof (Hm1 a Ha) as Ef.
  set (f := mod1 a) in *.
  assert (Hf : 0 <= f * 60) by (rewrite Ef; lra).
  pose proof (Qfloor_le (f * 60)) as M1. pose proof (Qlt_floor (f * 60)) as M2.
  rewrite inject_Z_plus in M2. zq.
  pose proof (Hm1 (f * 60) Hf) as Eg.
  set (g := mod1 (f * 60)) in *.
  pose proof (Qfloor_le (g * 60)) as S1. pose proof (Qlt_floor (g * 60)) as S2.
  rewrite inject_Z_plus in S2. zq.
  symmetry. apply Qfloor_unique.
  - rewrite !inject_Z_plus, !inject_Z_mult. zq. lra.
  - rewrite !inject_Z_plus, !inject_Z_mult. zq. lra.
Qed.

Lemma split_hms_comp (a b : Q) :
  a == b ->
  (3600 * Qfloor a + 60 * Qfloor (mod1 a * 60)
   + Qfloor (mod1 (mod1 a * 60) * 60))%Z =
  (3600 * Qfloor b + 60 * Qfloor (mod1 b * 60)
   + Qfloor (mod1 (mod1 b * 60) * 60))%Z.
Proof.
  intros E.
  assert (E1 : mod1 a == mod1 b).
  { unfold mod1. rewrite (trunc_comp E), E. reflexivity. }
  assert (E2 : mod1 (mod1 a * 60) == mod1 (mod1 b * 60)).
  { unfold mod1 at 1 3. rewrite (@trunc_comp (mod1 a * 60) (mod1 b * 60)).
    - rewrite E1. reflexivity.
    - rewrite E1. reflexivity. }
  rewrite (Qfloor_comp _ _ E).
  rewrite (Qfloor_comp (mod1 a * 60) (mod1 b * 60)) by (rewrite E1; reflexivity).
  rewrite (Qfloor_comp (mod1 (mod1 a * 60) * 60) (mod1 (mod1 b * 60) * 60))
    by (rewrite E2; reflexivity).
  reflexivity.
Qed.

(** [createUTCDateFromHours]: the UTC midnight of the base date plus the
    whole seconds of the hour count. *)
Lemma createUTCDateFromHours_closed (h : Q) (base : Z) :
  createUTCDateFromHours (Some h) base =
  Some (utcMidnight base + 1000 * Qfloor (3600 * h))%Z.
Proof.
  unfold createUTCDateFromHours.
  destruct (wrap_spec h) as [a [Ew [Ea [B1 B2]]]].
  destruct (wrapNegative (wrapFuel h) h 0) as [h1 k1].
  rewrite Ew. f_equal. unfold dateUTCFrom.
  pose proof (split_hms B1) as Hs.
  assert (Hfl : Qfloor (3600 * h) = (Qfloor (3600 * a) + 86400 * Qfloor (h / 24))%Z).
  { rewrite <- Qfloor_plus_Z. apply Qfloor_comp.
    rewrite Ea, inject_Z_mult. zq. ring. }
  unfold msPerDay, msPerHour, msPerMinute, msPerSecond.
  lia.
Qed.

Lemma createUTCDateFromHours_NaN (base : Z) :
  createUTCDateFromHours None base = None.
Proof. reflexivity. Qed.

End WrapFacts.

(* ----------------------------------------------------------------- *)
(** ** User adjustments ([applyUserAdjustments]) *)

Section UserAdjustmentFacts.
Import JS Time Calculator.

Lemma PrayerName_eqb_spec (a b : PrayerName) :
  PrayerName_eqb a b = true <-> a = b.
Proof. destruct a, b; simpl; split; intros H; congruence. Qed.

Lemma PrayerName_eqb_false (a b : PrayerName) :
  PrayerName_eqb a b = false <-> a <> b.
Proof.
  rewrite <- PrayerName_eqb_spec.
  destruct (PrayerName_eqb a b); split; intros H; congruence.
Qed.

Lemma getPrayer_setPrayer_same (t : PrayerTimes) (p : PrayerName) (v : Date) :
  getPrayer (setPrayer t p v) p = v.
Proof. destruct p; reflexivity. Qed.

Lemma getPrayer_setPrayer_other (t : PrayerTimes) (p q : PrayerName)
    (v : Date) :
  p <> q -> getPrayer (setPrayer t p v) q = getPrayer t q.
Proof. destruct p, q; intros H; try reflexivity; congruence. Qed.

Lemma t_sunset_setPrayer (t : PrayerTimes) (p : PrayerName) (v : Date) :
  t_sunset (setPrayer t p v) = t_sunset t.
Proof. destruct p; reflexivity. Qed.

(** One step of the loop touches the field of its key only, and never
    the sunrise or the sunset. *)
Lemma applyUserAdjustment_other (t : PrayerTimes) (k p : PrayerName)
    (m : number) :
  k <> p -> getPrayer (applyUserAdjustment t (k, m)) p = getPrayer t p.
Proof.
  intros H. unfold applyUserAdjustment.
  destruct (negb (PrayerName_eqb k sunrise)); [|reflexivity].
  apply getPrayer_setPrayer_other; exact H.
Qed.

Lemma applyUserAdjustment_sunrise (t : PrayerTimes) (e : PrayerName * number) :
  t_sunrise (applyUserAdjustment t e) = t_sunrise t.
Proof.
  destruct e as [k m]. unfold applyUserAdjustment.
  destruct (PrayerName_eqb k sunrise) eqn:E; simpl; [reflexivity|].
  apply PrayerName_eqb_false in E.
  apply (@getPrayer_setPrayer_other t k sunrise); exact E.
Qed.

Lemma applyUserAdjustment_sunset (t : PrayerTimes) (e : PrayerName * number) :
  t_sunset (applyUserAdjustment t e) = t_sunset t.
Proof.
  destruct e as [k m]. unfold applyUserAdjustment.
  destruct (negb (PrayerName_eqb k sunrise)); [|reflexivity].
  apply t_sunset_setPrayer.
Qed.

Lemma applyUserAdjustment_same (t : PrayerTimes) (p : PrayerName)
    (m : number) :
  p <> sunrise ->
  getPrayer (applyUserAdjustment t (p, m)) p = addMinutes (getPrayer t p) m.
Proof.
  intros H. unfold applyUserAdjustment.
  apply PrayerName_eqb_false in H. rewrite H. simpl.
  apply getPrayer_setPrayer_same.
Qed.

Lemma lookup_None_notin (p : PrayerName) (adj : Adjustments) :
  lookup p adj = None -> ~ In p (map fst adj).
Proof.
  induction adj as [|[k v] rest IH]; simpl; intros H; [tauto|].
  destruct (PrayerName_eqb k p) eqn:E; [discriminate|].
  apply PrayerName_eqb_false in E. intros [Hk|Hin]; [congruence|].
  exact (IH H Hin).
Qed.

Lemma applyUserAdjustments_notin (adj : Adjustments) :
  forall (t : PrayerTimes) (p : PrayerName),
    ~ In p (map fst adj) ->
    getPrayer (applyUserAdjustments t adj) p = getPrayer t p.
Proof.
  unfold applyUserAdjustments.
  induction adj as [|[k v] rest IH]; cbn [fold_left map fst In];
    intros t p H; [reflexivity|].
  rewrite IH by tauto.
  apply applyUserAdjustment_other. intros E. apply H. left. exact E.
Qed.

Lemma applyUserAdjustments_sunrise (adj : Adjustments) :
  forall t : PrayerTimes,
    t_sunrise (applyUserAdjustments t adj) = t_sunrise t.
Proof.
  unfold applyUserAdjustments.
  induction adj as [|e rest IH]; cbn [fold_left]; intros t; [reflexivity|].
  rewrite IH. apply applyUserAdjustment_sunrise.
Qed.

Lemma applyUserAdjustments_sunset (adj : Adjustments) :
  forall t : PrayerTimes,
    t_sunset (applyUserAdjustments t adj) = t_sunset t.
Proof.
  unfold applyUserAdjustments.
  induction adj as [|e rest IH]; cbn [fold_left]; intros t; [reflexivity|].
  rewrite IH. apply applyUserAdjustment_sunset.
Qed.

Lemma applyUserAdjustments_present (adj : Adjustments) :
  forall (t : PrayerTimes) (p : PrayerName) (m : number),
    NoDup (map fst adj) -> p <> sunrise -> lookup p adj = Some m ->
    getPrayer (applyUserAdjustments t adj) p = addMinutes (getPrayer t p) m.
Proof.
  induction adj as [|[k v] rest IH]; cbn [lookup map fst];
    intros t p m Hnd Hp Hl; [discriminate|].
  inversion Hnd as [|? ? Hnotin Hnd']; subst.
  change (applyUserAdjustments t ((k, v) :: rest))
    with (applyUserAdjustments (applyUserAdjustment t (k, v)) rest).
  destruct (PrayerName_eqb k p) eqn:E.
  - apply PrayerName_eqb_spec in E. subst k. inversion Hl; subst v.
    rewrite applyUserAdjustments_notin by exact Hnotin.
    apply applyUserAdjustment_same; exact Hp.
  - apply PrayerName_eqb_false in E.
    rewrite (IH _ p m Hnd' Hp Hl).
    rewrite applyUserAdjustment_other by exact E. reflexivity.
Qed.

(** C10.  Applying a user adjustments map (an object: no key twice)
    leaves the sunrise unchanged, whatever the map holds for it; every
    other prayer present in the map is moved by [addMinutes] with the
    given minutes, which is an exact shift whenever the minutes make a
    whole number of milliseconds; prayers absent from the map, and the
    sunset, are returned as they were. *)
Theorem applyUserAdjustments_frame (t : PrayerTimes) (adj : Adjustments) :
  NoDup (map fst adj) ->
  t_sunrise (applyUserAdjustments t adj) = t_sunrise t
  /\ t_sunset (applyUserAdjustments t adj) = t_sunset t
  /\ (forall p m, p <> sunrise -> lookup p adj = Some m ->
        getPrayer (applyUserAdjustments t adj) p
        = addMinutes (getPrayer t p) m)
  /\ (forall p q v n, p <> sunrise -> lookup p adj = Some (Some q) ->
        getPrayer t p = Some v -> (q * 60 * 1000 == inject_Z n)%Q ->
        getPrayer (applyUserAdjustments t adj) p = Some (v + n)%Z)
  /\ (forall p, lookup p adj = None ->
        getPrayer (applyUserAdjustments t adj) p = getPrayer t p).
Proof.
  intros Hnd. repeat split.
  - apply applyUserAdjustments_sunrise.
  - apply applyUserAdjustments_sunset.
  - intros p m Hp Hl. apply applyUserAdjustments_present; assumption.
  - intros p q v n Hp Hl Hv Hn.
    rewrite (@applyUserAdjustments_present adj t p (Some q) Hnd Hp Hl), Hv.
    apply addMinutes_exact; exact Hn.
  - intros p Hl. apply applyUserAdjustments_notin.
    apply lookup_None_notin; exact Hl.
Qed.

End UserAdjustmentFacts.

(** The frame property on the sample map, which holds an entry for the
    sunrise: fajr moves by two minutes, isha by minus ninety seconds. *)
Lemma applyUserAdjustments_frame_witness :
  NoDup (map fst Samples.sampleAdjustments)
  /\ t_sunrise (Calculator.applyUserAdjustments Samples.sampleTimes
                  Samples.sampleAdjustments)
     = Samples.at_ 4 45 0
  /\ t_fajr (Calculator.applyUserAdjustments Samples.sampleTimes
               Samples.sampleAdjustments)
     = Samples.at_ 3 12 0
  /\ t_isha (Calculator.applyUserAdjustments Samples.sampleTimes
               Samples.sampleAdjustments)
     = Samples.at_ 20 48 30.
Proof.
  assert (Hnd : NoDup (map fst Samples.sampleAdjustments)).
  { repeat constructor; simpl; intuition discriminate. }
  destruct (@applyUserAdjustments_frame Samples.sampleTimes
              Samples.sampleAdjustments Hnd) as [H1 [_ [_ [H4 _]]]].
  split; [exact Hnd|]. split; [exact H1|]. split.
  - apply (H4 fajr 2%Q (Samples.day0 + 3 * 3600000 + 10 * 60000 + 0 * 1000)%Z
              120000%Z); [discriminate|reflexivity|reflexivity|reflexivity].
  - apply (H4 isha (-1.5)%Q
              (Samples.day0 + 20 * 3600000 + 50 * 60000 + 0 * 1000)%Z
              (-90000)%Z); [discriminate|reflexivity|reflexivity|reflexivity].
Defined.

(* ----------------------------------------------------------------- *)
(** ** The result validator ([validateCalculationResults]) *)

Section StringFacts.
Local Open Scope string_scope.

Lemma prefix_app (a b : string) : String.prefix a (a ++ b) = true.
Proof.
  induction a as [|c a IH]; simpl.
  - destruct b; reflexivity.
  - destruct (ascii_dec c c) as [_|N]; [exact IH|congruence].
Qed.

Lemma includes_prefix (needle hay : string) :
  String.prefix needle hay = true -> includes needle hay = true.
Proof.
  intros H. destruct hay; cbn [includes]; rewrite H; reflexivity.
Qed.

Lemma includes_app_r (needle a b : string) :
  includes needle b = true -> includes needle (a ++ b) = true.
Proof.
  intros H. induction a as [|c a IH]; [exact H|].
  change (String c a ++ b) with (String c (a ++ b)).
  cbn [includes]. rewrite IH. apply orb_true_r.
Qed.


End StringFacts.

Section ValidatorFacts.
Import JS Precision.
Variable host : Host.

(** The messages that carry a latitude remark are not critical, whatever
    the rendering of the numbers. *)
Lemma msgFajrGapHigh_not_critical (x : number) :
  isCritical (msgFajrGapHigh host x) = false.
Proof.
  unfold isCritical, msgFajrGapHigh.
  rewrite (includes_app_r "at high latitude" "Large Fajr-sunrise gap ("
             (showRounded host x
              ++ "min) at high latitude - normal in winter")).
  - reflexivity.
  - apply includes_app_r. reflexivity.
Qed.

Lemma msgIshaGapHigh_not_critical (x : number) :
  isCritical (msgIshaGapHigh host x) = false.
Proof.
  unfold isCritical, msgIshaGapHigh.
  rewrite (includes_app_r "at high latitude" "Large Maghrib-Isha gap ("
             (showRounded host x
              ++ "min) at high latitude - normal in winter")).
  - reflexivity.
  - apply includes_app_r. reflexivity.
Qed.

Lemma msgExtremeDay_not_critical (x : number) (lat : Q) :
  isCritical (msgExtremeDay host x lat) = false.
Proof.
  unfold isCritical, msgExtremeDay.
  rewrite (includes_prefix "Extreme day length").
  - rewrite andb_false_r. reflexivity.
  - apply (prefix_app "Extreme day length"
             (" (" ++ showFixed1 host x ++ "h) at latitude "
              ++ toFixed1 host lat ++ "°")).
Qed.

Lemma filter_pushIf_critical (c : bool) (msg : string) :
  isCritical msg = true -> filter isCritical (pushIf c msg) = pushIf c msg.
Proof.
  intros H. destruct c; simpl; [rewrite H|]; reflexivity.
Qed.

Lemma filter_pushIf_not_critical (c : bool) (msg : string) :
  isCritical msg = false -> filter isCritical (pushIf c msg) = [].
Proof.
  intros H. destruct c; simpl; [rewrite H|]; reflexivity.
Qed.

End ValidatorFacts.

Section ValidatorChecks.
Import JS Precision.
Variable host : Host.

Lemma noCritical_app (a b : list string) :
  noCritical (a ++ b) = noCritical a && noCritical b.
Proof.
  unfold noCritical. rewrite filter_app, length_app.
  destruct (List.length (filter isCritical a)); reflexivity.
Qed.

Lemma noCritical_pushIf (c : bool) (msg : string) :
  isCritical msg = true -> noCritical (pushIf c msg) = negb c.
Proof.
  intros H. unfold noCritical. destruct c; simpl; [rewrite H|]; reflexivity.
Qed.

Lemma noCritical_pushIf_warning (c : bool) (msg : string) :
  isCritical msg = false -> noCritical (pushIf c msg) = true.
Proof.
  intros H. unfold noCritical. destruct c; simpl; [rewrite H|]; reflexivity.
Qed.

Lemma noCritical_single (msg : string) :
  noCritical [msg] = negb (isCritical msg).
Proof. unfold noCritical. simpl. destruct (isCritical msg); reflexivity. Qed.

Lemma in_pushIf (c : bool) (msg : string) : c = true -> In msg (pushIf c msg).
Proof. intros ->. left. reflexivity. Qed.

(** No issue other than the two day-length messages starts like them. *)
Lemma in_pushIf_inv (c : bool) (msg x : string) : In x (pushIf c msg) -> x = msg.
Proof. destruct c; simpl; intuition. Qed.

Ltac split_in H :=
  repeat match type of H with
         | In _ (_ ++ _) => apply in_app_or in H; destruct H as [H|H]
         end.

(** C7, as amended.  The validator checks the five orderings; a
    Fajr-to-sunrise gap above 180 / 240 / 300 minutes and a
    Maghrib-to-Isha gap above 240 / 300 / 360 minutes are flagged at
    moderate / high / extreme latitude; the day length is looked at only
    when the latitude is 60 degrees or more, where a length outside 2 to
    22 hours is flagged; below 60 degrees no day-length issue is ever
    raised.  The result is valid exactly when the order holds and, below
    48 degrees, neither gap exceeds its limit: gaps at high or extreme
    latitude and the day length are warnings only. *)
Theorem validateCalculationResults_checks
    (t : PrayerTimes) (context : CalculationContext) :
  let r := validateCalculationResults host t context in
  let lat := Qabs (latitude (ctx_coordinates context)) in
  let ms := fun p => getTime (getPrayer t p) in
  let fajrToSunrise := div (sub (ms sunrise) (ms fajr)) (Some (1000 * 60)%Q) in
  let maghribToIsha := div (sub (ms isha) (ms maghrib)) (Some (1000 * 60)%Q) in
  let dayLength :=
    div (sub (ms maghrib) (ms sunrise)) (Some (1000 * 60 * 60)%Q) in
  let ordered :=
    negb (ge (ms fajr) (ms sunrise)) && negb (ge (ms sunrise) (ms dhuhr))
    && negb (ge (ms dhuhr) (ms asr)) && negb (ge (ms asr) (ms maghrib))
    && negb (ge (ms maghrib) (ms isha)) in
  (* the order *)
  ((ge (ms fajr) (ms sunrise) = true -> In msgFajrOrder (vo_issues r))
   /\ (ge (ms sunrise) (ms dhuhr) = true -> In msgSunriseOrder (vo_issues r))
   /\ (ge (ms dhuhr) (ms asr) = true -> In msgDhuhrOrder (vo_issues r))
   /\ (ge (ms asr) (ms maghrib) = true -> In msgAsrOrder (vo_issues r))
   /\ (ge (ms maghrib) (ms isha) = true -> In msgMaghribOrder (vo_issues r)))
  (* the gaps, by latitude band *)
  /\ ((lat < 48)%Q ->
        (gt fajrToSunrise (Some 180%Q) = true -> In msgFajrGap (vo_issues r))
        /\ (gt maghribToIsha (Some 240%Q) = true -> In msgIshaGap (vo_issues r)))
  /\ ((48 <= lat)%Q -> (lat < 60)%Q ->
        (gt fajrToSunrise (Some 240%Q) = true ->
           In (msgFajrGapHigh host fajrToSunrise) (vo_issues r))
        /\ (gt maghribToIsha (Some 300%Q) = true ->
              In (msgIshaGapHigh host maghribToIsha) (vo_issues r)))
  /\ ((60 <= lat)%Q ->
        (gt fajrToSunrise (Some 300%Q) = true ->
           In (msgFajrGapHigh host fajrToSunrise) (vo_issues r))
        /\ (gt maghribToIsha (Some 360%Q) = true ->
              In (msgIshaGapHigh host maghribToIsha) (vo_issues r)))
  (* the day length *)
  /\ ((60 <= lat)%Q ->
        lt dayLength (Some 2%Q) || gt dayLength (Some 22%Q) = true ->
        In (msgExtremeDay host dayLength (latitude (ctx_coordinates context)))
           (vo_issues r))
  /\ ((lat < 60)%Q ->
        ~ In msgDayLength (vo_issues r)
        /\ forall d l, ~ In (msgExtremeDay host d l) (vo_issues r))
  (* validity *)
  /\ vo_isValid r =
     ordered
     && (Qle_bool 48 lat
         || (negb (gt fajrToSunrise (Some 180%Q))
             && negb (gt maghribToIsha (Some 240%Q)))).
Proof.
  intros r lat ms fajrToSunrise maghribToIsha dayLength ordered.
  unfold r, validateCalculationResults.
  fold lat. cbn [vo_issues vo_isValid].
  change (getTime (t_fajr t)) with (ms fajr).
  change (getTime (t_sunrise t)) with (ms sunrise).
  change (getTime (t_dhuhr t)) with (ms dhuhr).
  change (getTime (t_asr t)) with (ms asr).
  change (getTime (t_maghrib t)) with (ms maghrib).
  change (getTime (t_isha t)) with (ms isha).
  fold fajrToSunrise maghribToIsha dayLength.
  set (ordering := (pushIf (ge (ms fajr) (ms sunrise)) msgFajrOrder
                    ++ pushIf (ge (ms sunrise) (ms dhuhr)) msgSunriseOrder
                    ++ pushIf (ge (ms dhuhr) (ms asr)) msgDhuhrOrder
                    ++ pushIf (ge (ms asr) (ms maghrib)) msgAsrOrder
                    ++ pushIf (ge (ms maghrib) (ms isha)) msgMaghribOrder)%list).
  set (fajrGap := if gt fajrToSunrise _ then _ else []).
  set (ishaGap := if gt maghribToIsha _ then _ else []).
  set (dayIssue := if Qle_bool 60 lat then _ else _).
  assert (Hord : forall x, In x ordering -> In x (ordering ++ fajrGap ++ ishaGap ++ dayIssue)).
  { intros x Hx. apply in_or_app. left. exact Hx. }
  assert (Hfg : forall x, In x fajrGap -> In x (ordering ++ fajrGap ++ ishaGap ++ dayIssue)).
  { intros x Hx. apply in_or_app. right. apply in_or_app. left. exact Hx. }
  assert (Hig : forall x, In x ishaGap -> In x (ordering ++ fajrGap ++ ishaGap ++ dayIssue)).
  { intros x Hx. apply in_or_app. right. apply in_or_app. right.
    apply in_or_app. left. exact Hx. }
  assert (Hdi : forall x, In x dayIssue -> In x (ordering ++ fajrGap ++ ishaGap ++ dayIssue)).
  { intros x Hx. apply in_or_app. right. apply in_or_app. right.
    apply in_or_app. right. exact Hx. }
  split; [|split; [|split; [|split; [|split; [|split]]]]].
  - unfold ordering. repeat split; intros H; apply Hord.
    + apply in_or_app. left. apply in_pushIf, H.
    + apply in_or_app. right. apply in_or_app. left. apply in_pushIf, H.
    + do 2 (apply in_or_app; right). apply in_or_app. left. apply in_pushIf, H.
    + do 3 (apply in_or_app; right). apply in_or_app. left. apply in_pushIf, H.
    + do 4 (apply in_or_app; right). apply in_pushIf, H.
  - intros Hlat.
    assert (E48 : Qle_bool 48 lat = false) by (apply Qle_bool_false_iff; exact Hlat).
    assert (E60 : Qle_bool 60 lat = false) by (apply Qle_bool_false_iff; lra).
    split; intros H.
    + apply Hfg. unfold fajrGap. rewrite E60, E48, H. left. reflexivity.
    + apply Hig. unfold ishaGap. rewrite E60, E48, H. left. reflexivity.
  - intros Hlo Hhi.
    assert (E48 : Qle_bool 48 lat = true) by (apply Qle_bool_iff; exact Hlo).
    assert (E60 : Qle_bool 60 lat = false) by (apply Qle_bool_false_iff; exact Hhi).
    split; intros H.
    + apply Hfg. unfold fajrGap. rewrite E60, E48, H. left. reflexivity.
    + apply Hig. unfold ishaGap. rewrite E60, E48, H. left. reflexivity.
  - intros Hlo.
    assert (E48 : Qle_bool 48 lat = true) by (apply Qle_bool_iff; lra).
    assert (E60 : Qle_bool 60 lat = true) by (apply Qle_bool_iff; exact Hlo).
    split; intros H.
    + apply Hfg. unfold fajrGap. rewrite E60, E48, H. left. reflexivity.
    + apply Hig. unfold ishaGap. rewrite E60, E48, H. left. reflexivity.
  - intros Hlo H.
    assert (E60 : Qle_bool 60 lat = true) by (apply Qle_bool_iff; exact Hlo).
    apply Hdi. unfold dayIssue. rewrite E60. apply in_pushIf, H.
  - intros Hlat.
    assert (E60 : Qle_bool 60 lat = false) by (apply Qle_bool_false_iff; exact Hlat).
    assert (E60' : Qlt_bool 60 lat = false) by (apply Qlt_bool_false_iff; lra).
    assert (Hday : dayIssue = []) by (unfold dayIssue; rewrite E60, E60'; reflexivity).
    rewrite Hday, app_nil_r.
    assert (Hshape : forall x,
               In x (ordering ++ fajrGap ++ ishaGap) ->
               x = msgFajrOrder \/ x = msgSunriseOrder \/ x = msgDhuhrOrder
               \/ x = msgAsrOrder \/ x = msgMaghribOrder
               \/ x = msgFajrGapHigh host fajrToSunrise \/ x = msgFajrGap
               \/ x = msgIshaGapHigh host maghribToIsha \/ x = msgIshaGap).
    { intros x Hx. unfold ordering in Hx. split_in Hx.
      - apply in_pushIf_inv in Hx. tauto.
      - apply in_pushIf_inv in Hx. tauto.
      - apply in_pushIf_inv in Hx. tauto.
      - apply in_pushIf_inv in Hx. tauto.
      - apply in_pushIf_inv in Hx. tauto.
      - unfold fajrGap in Hx.
        destruct (gt fajrToSunrise _); [|destruct Hx].
        destruct (Qle_bool 48 lat); destruct Hx as [Hx|[]]; subst x; tauto.
      - unfold ishaGap in Hx.
        destruct (gt maghribToIsha _); [|destruct Hx].
        destruct (Qle_bool 48 lat); destruct Hx as [Hx|[]]; subst x; tauto. }
    split.
    + intros Hin. apply Hshape in Hin.
      unfold msgFajrGapHigh, msgIshaGapHigh in Hin.
      repeat (destruct Hin as [Hin|Hin]; [discriminate Hin|]).
      discriminate Hin.
    + intros d l Hin. apply Hshape in Hin.
      unfold msgExtremeDay, msgFajrGapHigh, msgIshaGapHigh in Hin.
      repeat (destruct Hin as [Hin|Hin]; [discriminate Hin|]).
      discriminate Hin.
  - change (noCritical (ordering ++ fajrGap ++ ishaGap ++ dayIssue)
            = ordered
              && (Qle_bool 48 lat
                  || (negb (gt fajrToSunrise (Some 180%Q))
                      && negb (gt maghribToIsha (Some 240%Q))))).
    assert (Hext : Qle_bool 60 lat = true -> Qle_bool 48 lat = true).
    { intros H. apply Qle_bool_iff in H. apply Qle_bool_iff. lra. }
    assert (Hday : noCritical dayIssue = true).
    { unfold dayIssue. destruct (Qle_bool 60 lat) eqn:E60.
      - apply noCritical_pushIf_warning, msgExtremeDay_not_critical.
      - destruct (Qlt_bool 60 lat) eqn:E60'; [|reflexivity].
        apply Qlt_bool_iff in E60'. apply Qle_bool_false_iff in E60. lra. }
    assert (Hfajr : noCritical fajrGap
                    = Qle_bool 48 lat || negb (gt fajrToSunrise (Some 180%Q))).
    { unfold fajrGap. destruct (Qle_bool 48 lat) eqn:E48.
      - destruct (gt fajrToSunrise _); [|reflexivity].
        rewrite noCritical_single, msgFajrGapHigh_not_critical. reflexivity.
      - destruct (Qle_bool 60 lat) eqn:E60; [specialize (Hext eq_refl); discriminate|].
        destruct (gt fajrToSunrise (Some 180%Q)); reflexivity. }
    assert (Hisha : noCritical ishaGap
                    = Qle_bool 48 lat || negb (gt maghribToIsha (Some 240%Q))).
    { unfold ishaGap. destruct (Qle_bool 48 lat) eqn:E48.
      - destruct (gt maghribToIsha _); [|reflexivity].
        rewrite noCritical_single, msgIshaGapHigh_not_critical. reflexivity.
      - destruct (Qle_bool 60 lat) eqn:E60; [specialize (Hext eq_refl); discriminate|].
        destruct (gt maghribToIsha (Some 240%Q)); reflexivity. }
    rewrite !noCritical_app, Hfajr, Hisha, Hday.
    unfold ordering. rewrite !noCritical_app.
    rewrite !noCritical_pushIf by reflexivity.
    unfold ordered.
    destruct (ge (ms fajr) (ms sunrise)), (ge (ms sunrise) (ms dhuhr)),
      (ge (ms dhuhr) (ms asr)), (ge (ms asr) (ms maghrib)),
      (ge (ms maghrib) (ms isha)), (Qle_bool 48 lat),
      (gt fajrToSunrise (Some 180%Q)), (gt maghribToIsha (Some 240%Q));
      reflexivity.
Qed.

End ValidatorChecks.

(** C7, the sentence as written fails: at latitude 33.5 a day of one
    hour between sunrise and maghrib, outside 4 to 20 hours, raises no
    issue at all and the result is valid. *)
Lemma validate_short_day_not_flagged :
  (Qabs (latitude (ctx_coordinates Samples.damascusContext)) < 60)%Q
  /\ JS.lt (JS.div (JS.sub (JS.getTime (t_maghrib Samples.shortDayTimes))
                           (JS.getTime (t_sunrise Samples.shortDayTimes)))
                   (Some (1000 * 60 * 60)%Q))
           (Some 4%Q) = true
  /\ Precision.validateCalculationResults Samples.summerHost
       Samples.shortDayTimes Samples.damascusContext
     = {| vo_isValid := true; vo_issues := [] |}.
Proof.
  split; [reflexivity|]. split; reflexivity.
Qed.

(* ----------------------------------------------------------------- *)
(** ** The two copies of the evening twilight *)

Section TwilightFacts.
Import JS.
Local Open Scope Q_scope.

(** C6, as amended.  For shafaq General the engine's
    [seasonAdjustedEveningTwilight] uses the Abyad coefficients and so
    returns what it returns for Abyad; the copy in [utils/polar] uses
    (75 + 25.60 k, 75 + 2.05 k, 75 - 9.21 k, 75 + 6.14 k) with
    k = |latitude| / 55 instead.  The two copies agree for Ahmer and for
    Abyad. *)
Theorem evening_twilight_general_coefficients
    (phi : Q) (dayOfYearValue year : Z) (sunset : Date) :
  (let '(a, b, c, d) := Astronomical.eveningCoefficients phi general in
   a == 75 + 25.60 * Qabs phi / 55 /\ b == 75 + 7.16 * Qabs phi / 55
   /\ c == 75 + 36.84 * Qabs phi / 55 /\ d == 75 + 81.84 * Qabs phi / 55)
  /\ Astronomical.eveningCoefficients phi general
     = Astronomical.eveningCoefficients phi abyad
  /\ Astronomical.seasonAdjustedEveningTwilight phi dayOfYearValue year
       sunset general
     = Astronomical.seasonAdjustedEveningTwilight phi dayOfYearValue year
         sunset abyad
  /\ (let '(a, b, c, d) := Polar.eveningCoefficients phi general in
      a == 75 + 25.60 * Qabs phi / 55 /\ b == 75 + 2.05 * Qabs phi / 55
      /\ c == 75 - 9.21 * Qabs phi / 55 /\ d == 75 + 6.14 * Qabs phi / 55)
  /\ (forall shafaq, shafaq <> general ->
        Polar.seasonAdjustedEveningTwilight
          {| Polar.sp_latitude := phi; Polar.sp_dayOfYear := dayOfYearValue;
             Polar.sp_year := year; Polar.sp_baseTime := sunset |} shafaq
        = Astronomical.seasonAdjustedEveningTwilight phi dayOfYearValue year
            sunset shafaq).
Proof.
  split; [|split; [|split; [|split]]].
  - cbn [Astronomical.eveningCoefficients]. repeat split; field.
  - reflexivity.
  - reflexivity.
  - cbn [Polar.eveningCoefficients]. repeat split; field.
  - intros shafaq Hs. destruct shafaq; [congruence| |]; reflexivity.
Qed.

End TwilightFacts.

(** C6, the sentence as written fails: at latitude 55 on day 172 of 2024,
    from a sunset at 18:00:00, the engine's copy gives 20:35:52 for
    General and the [utils/polar] copy gives 19:20:48. *)
Lemma evening_twilight_copies_differ :
  Astronomical.seasonAdjustedEveningTwilight 55 172 2024
    (Samples.at_ 18 0 0) general
  = Samples.at_ 20 35 52
  /\ Polar.seasonAdjustedEveningTwilight
       {| Polar.sp_latitude := 55; Polar.sp_dayOfYear := 172;
          Polar.sp_year := 2024; Polar.sp_baseTime := Samples.at_ 18 0 0 |}
       general
     = Samples.at_ 19 20 48
  /\ Astronomical.seasonAdjustedEveningTwilight 55 172 2024
       (Samples.at_ 18 0 0) general
     <> Polar.seasonAdjustedEveningTwilight
          {| Polar.sp_latitude := 55; Polar.sp_dayOfYear := 172;
             Polar.sp_year := 2024; Polar.sp_baseTime := Samples.at_ 18 0 0 |}
          general.
Proof.
  split; [|split]; vm_compute; [reflexivity|reflexivity|discriminate].
Qed.

(* ----------------------------------------------------------------- *)
(** ** Nutation in longitude *)

Section NutationFacts.
Import Astronomy.
Local Open Scope R_scope.

(** C5, as amended.  The nutation in longitude is
    (-17.2 sin Omega - 1.32 sin 2 L0 - 0.23 sin 2 Lp + 0.21 sin 2 Omega)
    / 3600 degrees: the two middle terms are subtracted. *)
Theorem nutationInLongitude_formula (T L0 Lp Omega : R) :
  nutationInLongitude T L0 Lp Omega
  = (-17.2 * sin_d Omega - 1.32 * sin_d (2 * L0) - 0.23 * sin_d (2 * Lp)
     + 0.21 * sin_d (2 * Omega)) / 3600.
Proof.
  unfold nutationInLongitude. field.
Qed.

Lemma sin_d_0 : sin_d 0 = 0.
Proof.
  unfold sin_d, dtr. replace (0 * PI / 180) with 0 by field. apply sin_0.
Qed.

Lemma sin_d_90 : sin_d 90 = 1.
Proof.
  unfold sin_d, dtr. replace (90 * PI / 180) with (PI / 2) by field.
  apply sin_PI2.
Qed.

End NutationFacts.

(** C5, the sentence as written fails: with the solar longitude at 45
    degrees and the other two angles at 0 the function returns
    -1.32 / 3600 while the printed abbreviation gives +1.32 / 3600. *)
Lemma nutationInLongitude_sign_counterexample :
  Astronomy.nutationInLongitude 0 45 0 0 = (- (1.32 / 3600))%R
  /\ Astronomy.nutationInLongitude_as_specified 45 0 0 = (1.32 / 3600)%R
  /\ Astronomy.nutationInLongitude 0 45 0 0
     <> Astronomy.nutationInLongitude_as_specified 45 0 0.
Proof.
  assert (E0 : Astronomy.sin_d (2 * 0) = 0%R).
  { replace (2 * 0)%R with 0%R by ring. apply sin_d_0. }
  assert (E90 : Astronomy.sin_d (2 * 45) = 1%R).
  { replace (2 * 45)%R with 90%R by ring. apply sin_d_90. }
  assert (A : Astronomy.nutationInLongitude 0 45 0 0 = (- (1.32 / 3600))%R).
  { unfold Astronomy.nutationInLongitude.
    rewrite E0, E90, sin_d_0. field. }
  assert (B : Astronomy.nutationInLongitude_as_specified 45 0 0
              = (1.32 / 3600)%R).
  { unfold Astronomy.nutationInLongitude_as_specified.
    rewrite E0, E90, sin_d_0. field. }
  split; [exact A|]. split; [exact B|].
  rewrite A, B. lra.
Qed.

(* ----------------------------------------------------------------- *)
(** ** The stages of the orchestrator *)

Section StageFacts.
Import JS Time Methods Precision Calculator.
Variable host : Host.

Lemma convertTimesToTimezone_id (t : PrayerTimes) (tz : string) :
  convertTimesToTimezone t tz = t.
Proof. destruct t; reflexivity. Qed.

Lemma getPrayer_applyMethodAdjustments (params : MethodParams)
    (t : PrayerTimes) (p : PrayerName) :
  getPrayer (applyMethodAdjustments params t) p
  = methodAdjusted params p (getPrayer t p).
Proof.
  unfold applyMethodAdjustments, methodAdjusted.
  destruct (mp_adjustments params); destruct p; reflexivity.
Qed.

Lemma getPrayer_roundTimes (t : PrayerTimes) (p : PrayerName) :
  getPrayer (roundTimes t) p = roundedMinute (getPrayer t p) Nearest.
Proof. destruct p; reflexivity. Qed.

Lemma getPrayer_applyUserAdjustments (adj : Adjustments) (t : PrayerTimes)
    (p : PrayerName) :
  NoDup (map fst adj) -> p <> sunrise ->
  getPrayer (applyUserAdjustments t adj) p = userAdjusted adj p (getPrayer t p).
Proof.
  intros Hnd Hp. unfold userAdjusted.
  destruct (lookup p adj) as [m|] eqn:E.
  - apply applyUserAdjustments_present; assumption.
  - apply applyUserAdjustments_notin, lookup_None_notin, E.
Qed.

(** Validity is kept by the adjustments and by the rounding. *)
Lemma addMinutes_valid (v : Z) (q : Q) : addMinutes (Some v) (Some q) <> None.
Proof. discriminate. Qed.

Lemma methodAdjusted_valid (params : MethodParams) (p : PrayerName) (v : Z) :
  methodAdjusted params p (Some v) <> None.
Proof.
  unfold methodAdjusted, adjustIfSet.
  destruct (mp_adjustments params) as [adj|]; [|discriminate].
  destruct (lookup p adj) as [[q|]|]; try discriminate.
  destruct (Qeq_bool q 0); discriminate.
Qed.

Lemma roundedMinute_valid (d : Date) :
  d <> None -> roundedMinute d Nearest <> None.
Proof.
  destruct d as [t|]; [|congruence]. intros _.
  rewrite roundedMinute_nearest. discriminate.
Qed.

(** The high-latitude stage keeps every field but an invalid Fajr or
    Isha. *)
Lemma applyHighLatitudeAdjustments_frame (t : PrayerTimes)
    (context : CalculationContext) (config : PrayerTimeConfig) :
  let t' := applyHighLatitudeAdjustments t context config in
  t_sunrise t' = t_sunrise t /\ t_dhuhr t' = t_dhuhr t
  /\ t_asr t' = t_asr t /\ t_sunset t' = t_sunset t
  /\ t_maghrib t' = t_maghrib t
  /\ (t_fajr t <> None -> t_fajr t' = t_fajr t)
  /\ (t_isha t <> None -> t_isha t' = t_isha t).
Proof.
  unfold applyHighLatitudeAdjustments, Polar.getSafePrayerTimes.
  cbn -[Polar.applyHighLatitudeRule Polar.seasonAdjustedMorningTwilight
        Polar.seasonAdjustedEveningTwilight Polar.calculateNightLength].
  repeat split.
  - destruct (t_fajr t); [reflexivity|congruence].
  - destruct (t_isha t); [reflexivity|congruence].
Qed.

Lemma sanitizeConfig_adjustments (config : PrayerTimeConfig) :
  cfg_adjustments (Validation.sanitizeConfig config) = cfg_adjustments config.
Proof. reflexivity. Qed.

Lemma sanitizeConfig_asrSchool (config : PrayerTimeConfig) :
  cfg_asrSchool (Validation.sanitizeConfig config) = cfg_asrSchool config.
Proof. reflexivity. Qed.

(** What a successful preparation fixes. *)
Lemma prepareCalculation_inv (config : PrayerTimeConfig) (date : Z)
    (options : CalculationOptions) (prepared : Prepared) :
  prepareCalculation host config date options = inr prepared ->
  exists baseParams,
    CALCULATION_METHODS (cfg_method config) = Some baseParams
    /\ pr_config prepared = Validation.sanitizeConfig config
    /\ pr_coordinates prepared = cfg_location config
    /\ pr_context prepared =
       createCalculationContext date (cfg_location config)
         (applyParameterOverrides baseParams (Validation.sanitizeConfig config))
         (Some (cfg_method config)) (cfg_elevation config)
         (cfg_highLatitudeRule config) None
         (cfg_iterations (Validation.sanitizeConfig config)).
Proof.
  unfold prepareCalculation. intros H.
  destruct (if orDefault (opt_validateInput options) true then _ else _)
    as [e|[]] eqn:Ev; [discriminate H|].
  cbn [bind] in H.
  unfold Validation.parseCoordinates, Validation.validateCoordinates in H.
  cbn [Validation.sanitizeConfig cfg_location cfg_method] in H.
  destruct (negb (Validation.isValidLatitude (latitude (cfg_location config))));
    [discriminate H|].
  destruct (negb (Validation.isValidLongitude (longitude (cfg_location config))));
    [discriminate H|].
  cbn [bind ret] in H. unfold getMethodParams in H.
  destruct (CALCULATION_METHODS (cfg_method config)) as [baseParams|] eqn:Em;
    [|discriminate H].
  cbn [bind ret] in H.
  destruct (isPolarDay _ || isPolarNight _).
  - destruct (orDefault (opt_handlePolarRegions options) true);
      [|discriminate H].
    cbn [bind ret] in H. inversion H; subst prepared.
    exists baseParams. repeat split.
  - cbn [bind ret] in H. inversion H; subst prepared.
    exists baseParams. repeat split.
Qed.

(** The result of a run whose preparation and solver calls succeed. *)
Lemma calculatePrayerTimes_success (config : PrayerTimeConfig) (date : Z)
    (options : CalculationOptions) (prepared : Prepared) (raw : PrayerTimes) :
  prepareCalculation host config date options = inr prepared ->
  computeCurrentTimes host (pr_context prepared) = inr raw ->
  calculatePrayerTimes host config (Some date) options
  = finishCalculation host prepared date options
      {| ir_value :=
           roundTimes
             (applyMethodAdjustments (ctx_methodParams (pr_context prepared))
                raw);
         ir_iterations := 1; ir_converged := true |}.
Proof.
  intros Hp Hc.
  unfold calculatePrayerTimes, calculatePrayerTimesBody,
    calculatePrecisePrayerTimes.
  rewrite Hp. cbn [bind]. rewrite Hc. reflexivity.
Qed.

(** The second half of the orchestrator, field by field: what it returns
    for the instants [t0] handed over by the precision engine. *)
Lemma finishCalculation_fields (config : PrayerTimeConfig) (date : Z)
    (options : CalculationOptions) (prepared : Prepared) (t0 : PrayerTimes)
    (n : Z) (converged : bool) :
  pr_config prepared = Validation.sanitizeConfig config ->
  NoDup (map fst (effectiveUserAdjustments config options)) ->
  let result :=
    finishCalculation host prepared date options
      {| ir_value := t0; ir_iterations := n; ir_converged := converged |} in
  let user := userAdjusted (effectiveUserAdjustments config options) in
  t_sunrise (times result) = t_sunrise t0
  /\ t_dhuhr (times result) = user dhuhr (t_dhuhr t0)
  /\ t_maghrib (times result) = user maghrib (t_maghrib t0)
  /\ (cfg_asrSchool config <> Some Hanafi ->
        t_asr (times result) = user asr (t_asr t0))
  /\ (polarStage options (pr_coordinates prepared) = false
      \/ t_fajr t0 <> None ->
        t_fajr (times result) = user fajr (t_fajr t0))
  /\ (polarStage options (pr_coordinates prepared) = false
      \/ t_isha t0 <> None ->
        t_isha (times result) = user isha (t_isha t0)).
Proof.
  intros Ecfg Hnd result user.
  unfold result, finishCalculation. cbn [times ir_value].
  fold (polarStage options (pr_coordinates prepared)).
  set (t1 := if polarStage options (pr_coordinates prepared) then _ else t0).
  set (t2 := if isHanafi _ then _ else t1).
  set (t3 := match cfg_adjustments (pr_config prepared) with
             | Some _ => _ | None => t2 end).
  assert (E4 : (match cfg_timezone (pr_config prepared) with
                | Some tz => if nonEmpty (Some tz)
                             then convertTimesToTimezone t3 tz else t3
                | None => t3
                end) = t3).
  { destruct (cfg_timezone (pr_config prepared)) as [tz|]; [|reflexivity].
    destruct (nonEmpty (Some tz)); [apply convertTimesToTimezone_id|reflexivity]. }
  rewrite E4.
  assert (E3 : t3 = applyUserAdjustments t2
                      (effectiveUserAdjustments config options)).
  { unfold t3, effectiveUserAdjustments.
    rewrite Ecfg, sanitizeConfig_adjustments.
    destruct (cfg_adjustments config);
      destruct (orDefault (opt_applyAdjustments options) true); reflexivity. }
  assert (U : forall p, p <> sunrise -> getPrayer t3 p = user p (getPrayer t2 p)).
  { intros p Hne. rewrite E3. apply getPrayer_applyUserAdjustments; assumption. }
  assert (U0 : t_sunrise t3 = t_sunrise t2).
  { rewrite E3. apply applyUserAdjustments_sunrise. }
  assert (A : forall p, p <> asr -> getPrayer t2 p = getPrayer t1 p).
  { intros p Hne. unfold t2. destruct (isHanafi _); [|reflexivity].
    apply getPrayer_setPrayer_other. congruence. }
  assert (A0 : cfg_asrSchool config <> Some Hanafi -> t2 = t1).
  { intros Hs. unfold t2. rewrite Ecfg, sanitizeConfig_asrSchool.
    destruct (cfg_asrSchool config) as [[|]|]; try reflexivity. congruence. }
  pose proof (applyHighLatitudeAdjustments_frame t0 (pr_context prepared)
                (pr_config prepared)) as F.
  cbv zeta in F. destruct F as [F1 [F2 [F3 [F4 [F5 [F6 F7]]]]]].
  split; [|split; [|split; [|split; [|split]]]].
  - rewrite U0. change (t_sunrise t2) with (getPrayer t2 sunrise).
    rewrite A by discriminate.
    unfold t1. destruct (polarStage _ _); [exact F1|reflexivity].
  - change (t_dhuhr t3) with (getPrayer t3 dhuhr).
    rewrite U, A by discriminate. f_equal.
    unfold t1. destruct (polarStage _ _); [exact F2|reflexivity].
  - change (t_maghrib t3) with (getPrayer t3 maghrib).
    rewrite U, A by discriminate. f_equal.
    unfold t1. destruct (polarStage _ _); [exact F5|reflexivity].
  - intros Hs. change (t_asr t3) with (getPrayer t3 asr).
    rewrite U by discriminate. rewrite (A0 Hs). f_equal.
    unfold t1. destruct (polarStage _ _); [exact F3|reflexivity].
  - intros Hf. change (t_fajr t3) with (getPrayer t3 fajr).
    rewrite U, A by discriminate. f_equal.
    unfold t1. destruct (polarStage _ _) eqn:Eps; [|reflexivity].
    apply F6. destruct Hf as [Hf|Hf]; [discriminate Hf|exact Hf].
  - intros Hf. change (t_isha t3) with (getPrayer t3 isha).
    rewrite U, A by discriminate. f_equal.
    unfold t1. destruct (polarStage _ _) eqn:Eps; [|reflexivity].
    apply F7. destruct Hf as [Hf|Hf]; [discriminate Hf|exact Hf].
Qed.

End StageFacts.

(* ----------------------------------------------------------------- *)
(** ** Adjustments and rounding *)

Section AdjustmentOrder.
Import JS Time Methods Precision Calculator.
Variable host : Host.

(** C1, as amended.  In a run whose preparation and solver calls
    succeed, each instant first receives the method's own adjustment
    (additive, in minutes) and is then rounded to the minute, seconds of
    30 or more going up; the user adjustment (additive, in minutes) is
    applied to the rounded instant, and never to the sunrise.  This holds
    for Dhuhr and Maghrib always, for Asr under the Standard school, and
    for Fajr and Isha unless the instant is invalid and the high-latitude
    stage replaces it. *)
Theorem method_adjustment_rounding_user_adjustment
    (config : PrayerTimeConfig) (date : Z) (options : CalculationOptions)
    (prepared : Prepared) (raw : PrayerTimes) :
  prepareCalculation host config date options = inr prepared ->
  computeCurrentTimes host (pr_context prepared) = inr raw ->
  NoDup (map fst (effectiveUserAdjustments config options)) ->
  let result := calculatePrayerTimes host config (Some date) options in
  let rounded := fun p =>
    roundedMinute
      (methodAdjusted (ctx_methodParams (pr_context prepared)) p
         (getPrayer raw p)) Nearest in
  let user := userAdjusted (effectiveUserAdjustments config options) in
  t_sunrise (times result) = rounded sunrise
  /\ t_dhuhr (times result) = user dhuhr (rounded dhuhr)
  /\ t_maghrib (times result) = user maghrib (rounded maghrib)
  /\ (cfg_asrSchool config <> Some Hanafi ->
        t_asr (times result) = user asr (rounded asr))
  /\ (polarStage options (pr_coordinates prepared) = false
      \/ t_fajr raw <> None ->
        t_fajr (times result) = user fajr (rounded fajr))
  /\ (polarStage options (pr_coordinates prepared) = false
      \/ t_isha raw <> None ->
        t_isha (times result) = user isha (rounded isha)).
Proof.
  intros Hp Hc Hnd result rounded user.
  unfold result. rewrite (calculatePrayerTimes_success host _ _ _ Hp Hc).
  destruct (prepareCalculation_inv host _ _ _ Hp) as [base [_ [Ecfg _]]].
  set (params := ctx_methodParams (pr_context prepared)) in *.
  set (t0 := roundTimes (applyMethodAdjustments params raw)).
  assert (R : forall p, getPrayer t0 p = rounded p).
  { intros p. unfold t0, rounded.
    rewrite getPrayer_roundTimes, getPrayer_applyMethodAdjustments.
    reflexivity. }
  assert (V : forall p, getPrayer raw p <> None -> getPrayer t0 p <> None).
  { intros p Hv. rewrite R. unfold rounded. apply roundedMinute_valid.
    destruct (getPrayer raw p) as [v|]; [apply methodAdjusted_valid|congruence]. }
  pose proof (finishCalculation_fields host date options prepared t0 1 true
                Ecfg Hnd) as F.
  cbv zeta in F. destruct F as [F1 [F2 [F3 [F4 [F5 F6]]]]].
  fold user in F2, F3, F4, F5, F6.
  split; [|split; [|split; [|split; [|split]]]].
  - rewrite F1. exact (R sunrise).
  - rewrite F2. f_equal. exact (R dhuhr).
  - rewrite F3. f_equal. exact (R maghrib).
  - intros Hs. rewrite (F4 Hs). f_equal. exact (R asr).
  - intros Hf. rewrite F5.
    + f_equal. exact (R fajr).
    + destruct Hf as [Hf|Hf]; [left; exact Hf|right; exact (V fajr Hf)].
  - intros Hf. rewrite F6.
    + f_equal. exact (R isha).
    + destruct Hf as [Hf|Hf]; [left; exact Hf|right; exact (V isha Hf)].
Qed.

End AdjustmentOrder.

(** The order of the stages on the sample day, MWL with user adjustments
    of +0.5 min on Dhuhr and +2 min on Fajr: Dhuhr is 09:37:31, plus the
    method's minute, rounded to 09:39:00, plus thirty seconds. *)
Lemma method_adjustment_rounding_user_adjustment_witness :
  t_dhuhr (times (Calculator.calculatePrayerTimes Samples.summerHost
                    Samples.halfMinuteConfig (Some Samples.day0)
                    Calculator.noOptions))
  = Samples.at_ 9 39 30
  /\ t_fajr (times (Calculator.calculatePrayerTimes Samples.summerHost
                      Samples.halfMinuteConfig (Some Samples.day0)
                      Calculator.noOptions))
     = Samples.at_ 0 41 0.
Proof.
  assert (Hp : Calculator.prepareCalculation Samples.summerHost
                 Samples.halfMinuteConfig Samples.day0 Calculator.noOptions
               = inr (Samples.damascusPrepared Samples.halfMinuteConfig))
    by reflexivity.
  assert (Hc : Precision.computeCurrentTimes Samples.summerHost
                 (pr_context (Samples.damascusPrepared Samples.halfMinuteConfig))
               = inr Samples.summerRaw) by (vm_compute; reflexivity).
  assert (Hnd : NoDup (map fst (effectiveUserAdjustments
                                  Samples.halfMinuteConfig
                                  Calculator.noOptions))).
  { repeat constructor; simpl; intuition discriminate. }
  destruct (@method_adjustment_rounding_user_adjustment Samples.summerHost
              Samples.halfMinuteConfig Samples.day0 Calculator.noOptions
              (Samples.damascusPrepared Samples.halfMinuteConfig)
              Samples.summerRaw Hp Hc Hnd) as [_ [Hd [_ [_ [Hf _]]]]].
  split.
  - rewrite Hd. vm_compute. reflexivity.
  - rewrite Hf by (right; discriminate). vm_compute. reflexivity.
Defined.

(** C1, the sentence as written fails: with a user adjustment of half a
    minute on Dhuhr the returned Dhuhr is 09:39:30, which is no whole
    minute; rounding after both adjustments would give 09:39:00. *)
Lemma rounding_precedes_user_adjustment :
  t_dhuhr (times (Calculator.calculatePrayerTimes Samples.summerHost
                    Samples.halfMinuteConfig (Some Samples.day0)
                    Calculator.noOptions))
  = Samples.at_ 9 39 30
  /\ Precision.computeCurrentTimes Samples.summerHost Samples.damascusContext
     = inr Samples.summerRaw
  /\ Time.roundedMinute
       (Time.addMinutes
          (Time.addMinutes (t_dhuhr Samples.summerRaw) (Some 1%Q))
          (Some 0.5%Q))
       Time.Nearest
     = Samples.at_ 9 39 0.
Proof.
  split; [|split]; vm_compute; reflexivity.
Qed.

(* ----------------------------------------------------------------- *)
(** ** Interval-based Isha *)

Section IntervalIsha.
Import JS Time Methods Precision Calculator.
Local Open Scope Z_scope.
Variable host : Host.








End IntervalIsha.

Section IntervalIshaClaim.
Import JS Time Methods Precision Calculator.
Local Open Scope Z_scope.
Variable host : Host.



End IntervalIshaClaim.


(* ----------------------------------------------------------------- *)
(** ** Moonsighting at high latitude *)

Section MoonsightingFacts.
Import JS Time Calendar Methods Precision.
Variable host : Host.







End MoonsightingFacts.

Section MoonsightingClaim.
Import JS Time Calendar Methods Precision.
Variable host : Host.


End MoonsightingClaim.



(* ----------------------------------------------------------------- *)
(** ** Sunnah times *)

Section SunnahFacts.
Import JS Time Calculator Sunnah.
Local Open Scope Z_scope.
Variable host : Host.

(** [roundToNearestMinute] is the nearest whole minute, the half minute
    going up, whatever the milliseconds. *)
Lemma roundToNearestMinute_nearest (t : Z) :
  roundToNearestMinute (Some t) = Some (60000 * ((t + 30000) / 60000)).
Proof.
  unfold roundToNearestMinute, getSeconds, SecFromTime, msPerSecond,
    msPerMinute.
  pose proof (Z.div_mod t 60000 ltac:(lia)) as Ht.
  pose proof (Z.mod_pos_bound t 60000 ltac:(lia)) as Hb.
  set (m := t / 60000) in *. set (r := t mod 60000) in *.
  pose proof (Z.div_mod r 1000 ltac:(lia)) as Hr.
  pose proof (Z.mod_pos_bound r 1000 ltac:(lia)) as Hu.
  set (s := r / 1000) in *. set (u := r mod 1000) in *.
  assert (Eq : t / 1000 = 60 * m + s).
  { symmetry. apply (Z.div_unique _ _ _ u); lia. }
  assert (Es : (t / 1000) mod 60 = s).
  { rewrite Eq. symmetry. apply (Z.mod_unique _ _ m); lia. }
  rewrite Es. cbv zeta.
  destruct (30 <=? s) eqn:E.
  - apply Z.leb_le in E.
    assert ((t + 30000) / 60000 = m + 1).
    { symmetry. apply (Z.div_unique _ _ _ (r - 30000)); lia. }
    f_equal. lia.
  - apply Z.leb_gt in E.
    assert ((t + 30000) / 60000 = m).
    { symmetry. apply (Z.div_unique _ _ _ (r + 30000)); lia. }
    f_equal. lia.
Qed.

(** On instants from 1970 on, cutting to the millisecond first does not
    change the minute that is nearest. *)
Lemma nearest_minute_of_trunc (x : Q) :
  (0 <= x)%Q ->
  (trunc x + 30000) / 60000 = Qfloor ((x + 30000) / 60000).
Proof.
  intros Hx. rewrite (trunc_nonneg Hx). symmetry.
  pose proof (Qfloor_le x) as Hlo. pose proof (Qlt_floor x) as Hhi.
  set (n := Qfloor x) in *.
  pose proof (Z.div_mod (n + 30000) 60000 ltac:(lia)) as Hn.
  pose proof (Z.mod_pos_bound (n + 30000) 60000 ltac:(lia)) as Hb.
  set (k := (n + 30000) / 60000) in *. set (r := (n + 30000) mod 60000) in *.
  assert (En : (inject_Z n == inject_Z k * 60000 + inject_Z r - 30000)%Q).
  { replace n with (k * 60000 + r - 30000) by lia.
    unfold Z.sub. rewrite !inject_Z_plus, inject_Z_mult, inject_Z_opp.
    reflexivity. }
  assert (Hr0 : (0 <= inject_Z r)%Q)
    by (change 0%Q with (inject_Z 0); rewrite <- Zle_Qle; lia).
  assert (Hr1 : (inject_Z r <= 59999)%Q)
    by (change 59999%Q with (inject_Z 59999); rewrite <- Zle_Qle; lia).
  rewrite inject_Z_plus in Hhi. zq.
  set (y := ((x + 30000) / 60000)%Q).
  assert (Ey : (y * 60000 == x + 30000)%Q) by (unfold y; field).
  apply Qfloor_unique; lra.
Qed.

End SunnahFacts.

Section SunnahClaim.
Import JS Time Calculator Sunnah.
Local Open Scope Z_scope.
Variable host : Host.

(** C8.  When today's and tomorrow's results are valid and their
    instants are dates, [calculateSunnahTimes] returns; with N the time
    from today's Maghrib to tomorrow's Fajr, the first third is the
    instant Maghrib + N/3, the middle is Maghrib + N/2, the last third is
    Maghrib + 2N/3, the Duha starts 15 minutes after the sunrise and ends
    15 minutes before Dhuhr, each of the five rounded to the nearest
    whole minute, seconds of 30 or more going up.  For instants from 1970
    on, the minute is the one nearest to the exact value. *)
Theorem sunnah_times_from_night_fractions
    (config : PrayerTimeConfig) (date mg fj sr dh : Z) :
  let today := calculatePrayerTimes host config (Some date) noOptions in
  let tomorrow :=
    calculatePrayerTimes host config (Some (nextDay date)) noOptions in
  isValid today = true -> isValid tomorrow = true ->
  t_maghrib (times today) = Some mg -> t_fajr (times tomorrow) = Some fj ->
  t_sunrise (times today) = Some sr -> t_dhuhr (times today) = Some dh ->
  let N := (inject_Z fj - inject_Z mg)%Q in
  let nearestMinute := fun t : Z => 60000 * ((t + 30000) / 60000) in
  exists s,
    calculateSunnahTimes host config date = inr s
    /\ firstThirdOfNight s
       = Some (nearestMinute (trunc (inject_Z mg + N / 3)))
    /\ middleOfNight s
       = Some (nearestMinute (trunc (inject_Z mg + N / 2)))
    /\ lastThirdOfNight s
       = Some (nearestMinute (trunc (inject_Z mg + N * (2 / 3))))
    /\ duhaStart s = Some (nearestMinute (sr + 15 * msPerMinute))
    /\ duhaEnd s = Some (nearestMinute (dh - 15 * msPerMinute))
    /\ (0 <= mg -> mg <= fj ->
        nearestMinute (trunc (inject_Z mg + N / 3))
        = 60000 * Qfloor ((inject_Z mg + N / 3 + 30000) / 60000)
        /\ nearestMinute (trunc (inject_Z mg + N / 2))
           = 60000 * Qfloor ((inject_Z mg + N / 2 + 30000) / 60000)
        /\ nearestMinute (trunc (inject_Z mg + N * (2 / 3)))
           = 60000 * Qfloor ((inject_Z mg + N * (2 / 3) + 30000) / 60000)).
Proof.
  intros today tomorrow Hv1 Hv2 Hmg Hfj Hsr Hdh N nearestMinute.
  unfold calculateSunnahTimes. cbv zeta.
  fold today. rewrite Hv1. cbn [negb].
  fold tomorrow. rewrite Hv2. cbn [negb].
  rewrite Hmg, Hfj, Hsr, Hdh.
  eexists. split; [reflexivity|].
  cbn [firstThirdOfNight middleOfNight lastThirdOfNight duhaStart duhaEnd].
  split; [exact (roundToNearestMinute_nearest _)|].
  split; [exact (roundToNearestMinute_nearest _)|].
  split; [exact (roundToNearestMinute_nearest _)|].
  split; [|split].
  - change (newDate (add (getTime (Some sr)) (Some (15 * 60 * 1000)%Q)))
      with (Some (trunc (inject_Z sr + 15 * 60 * 1000))).
    rewrite (@trunc_integral _ (sr + 15 * msPerMinute)).
    + apply roundToNearestMinute_nearest.
    + rewrite inject_Z_plus. reflexivity.
  - change (newDate (sub (getTime (Some dh)) (Some (15 * 60 * 1000)%Q)))
      with (Some (trunc (inject_Z dh - 15 * 60 * 1000))).
    rewrite (@trunc_integral _ (dh - 15 * msPerMinute)).
    + apply roundToNearestMinute_nearest.
    + unfold Z.sub. rewrite inject_Z_plus, inject_Z_opp. reflexivity.
  - intros H0 Hle.
    assert (Q0 : (0 <= inject_Z mg)%Q)
      by (change 0%Q with (inject_Z 0); rewrite <- Zle_Qle; exact H0).
    assert (QN : (0 <= N)%Q).
    { unfold N. rewrite Zle_Qle in Hle. lra. }
    assert (E3 : (N / 3 * 3 == N)%Q) by field.
    assert (E2 : (N / 2 * 2 == N)%Q) by field.
    assert (E23 : (N * (2 / 3) * 3 == N * 2)%Q) by field.
    unfold nearestMinute.
    repeat split; f_equal; apply nearest_minute_of_trunc.
    + set (a := (N / 3)%Q) in *. lra.
    + set (a := (N / 2)%Q) in *. lra.
    + set (a := (N * (2 / 3))%Q) in *. lra.
Qed.

End SunnahClaim.

(** The sample day under MWL: Maghrib 16:49, the next Fajr 00:39, so
    that N is 470 minutes; sunrise 02:27 and Dhuhr 09:39. *)
Lemma sunnah_times_from_night_fractions_witness :
  exists s,
    Sunnah.calculateSunnahTimes Samples.summerHost
      (Samples.plainConfig MWL Samples.damascus) Samples.day0 = inr s
    /\ firstThirdOfNight s = Samples.at_ 19 26 0
    /\ middleOfNight s = Samples.at_ 20 44 0
    /\ lastThirdOfNight s = Samples.at_ 22 2 0
    /\ duhaStart s = Samples.at_ 2 42 0
    /\ duhaEnd s = Samples.at_ 9 24 0.
Proof.
  destruct (@sunnah_times_from_night_fractions Samples.summerHost
              (Samples.plainConfig MWL Samples.damascus) Samples.day0
              (Samples.day0 + 16 * 3600000 + 49 * 60000)%Z
              (Samples.day0 + 24 * 3600000 + 39 * 60000)%Z
              (Samples.day0 + 2 * 3600000 + 27 * 60000)%Z
              (Samples.day0 + 9 * 3600000 + 39 * 60000)%Z
              ltac:(vm_compute; reflexivity) ltac:(vm_compute; reflexivity)
              ltac:(vm_compute; reflexivity) ltac:(vm_compute; reflexivity)
              ltac:(vm_compute; reflexivity) ltac:(vm_compute; reflexivity))
    as [s [E [H1 [H2 [H3 [H4 [H5 _]]]]]]].
  exists s. split; [exact E|].
  rewrite H1, H2, H3, H4, H5. vm_compute. repeat split.
Defined.

(* ----------------------------------------------------------------- *)
(** ** Failures: the engine and the public calculator *)

Section FailureFacts.
Import JS Precision Calculator Api.
Local Open Scope string_scope.
Variable host : Host.



End FailureFacts.

Section FailureClaim.
Import JS Precision Calculator Api.
Local Open Scope string_scope.
Variable host : Host.




End FailureClaim.

(* ----------------------------------------------------------------- *)
(** ** Normalisation of angles and hours *)

Section DivisionFacts.
Import JS.
Local Open Scope Q_scope.

(** Floor of a quotient by a positive number. *)
Lemma Qfloor_div_bounds (x y : Q) :
  0 < y ->
  y * inject_Z (Qfloor (x / y)) <= x
  /\ x < y * inject_Z (Qfloor (x / y)) + y.
Proof.
  intros Hy.
  assert (Ex : x == (x / y) * y) by (field; lra).
  pose proof (Qfloor_le (x / y)) as Hlo.
  pose proof (Qlt_floor (x / y)) as Hhi.
  rewrite inject_Z_plus in Hhi. zq.
  set (q := x / y) in *. set (k := inject_Z (Qfloor q)) in *.
  split; rewrite Ex; nra.
Qed.

Lemma Qfloor_div_unique (x y : Q) (n : Z) :
  0 < y ->
  y * inject_Z n <= x -> x < y * inject_Z n + y ->
  Qfloor (x / y) = n.
Proof.
  intros Hy Hlo Hhi.
  assert (Ex : x == (x / y) * y) by (field; lra).
  set (q := x / y) in *.
  apply Qfloor_unique.
  - assert (y * inject_Z n <= q * y) by (rewrite <- Ex; exact Hlo). nra.
  - assert (q * y < y * inject_Z n + y) by (rewrite <- Ex; exact Hhi). nra.
Qed.

Lemma Qceiling_bounds (q : Q) :
  inject_Z (Qceiling q) - 1 < q /\ q <= inject_Z (Qceiling q).
Proof.
  unfold Qceiling.
  pose proof (Qfloor_le (- q)) as Hlo.
  pose proof (Qlt_floor (- q)) as Hhi.
  rewrite inject_Z_plus in Hhi. zq.
  rewrite inject_Z_opp. split; lra.
Qed.

Lemma round_bounds (q : Q) :
  q - (1 # 2) < inject_Z (round q) /\ inject_Z (round q) <= q + (1 # 2).
Proof.
  unfold round.
  pose proof (Qfloor_le (q + (1 # 2))) as Hlo.
  pose proof (Qlt_floor (q + (1 # 2))) as Hhi.
  rewrite inject_Z_plus in Hhi. zq. split; lra.
Qed.

Lemma round_Z (z : Z) : round (inject_Z z) = z.
Proof.
  unfold round. apply Qfloor_unique; lra.
Qed.


Lemma round_comp (x y : Q) : x == y -> round x = round y.
Proof. intros E. unfold round. apply Qfloor_comp. rewrite E. reflexivity. Qed.

Lemma round_integral_value (x : Q) (n : Z) : x == inject_Z n -> round x = n.
Proof. intros E. rewrite (round_comp E). apply round_Z. Qed.

End DivisionFacts.

(** Order facts on integers seen as rationals, for [lia]. *)
Ltac zify_Q :=
  repeat first
    [ progress change 0%Q with (inject_Z 0)
    | progress change 1%Q with (inject_Z 1)
    | progress change 59%Q with (inject_Z 59)
    | progress change 60%Q with (inject_Z 60) ];
  rewrite <- ?Zle_Qle, <- ?Zlt_Qlt.

(** Integer numerals seen through [inject_Z]. *)
Ltac zlit :=
  repeat match goal with
  | |- context [inject_Z (Zpos ?p)] =>
      change (inject_Z (Zpos p)) with (Zpos p # 1)
  | |- context [inject_Z (Zneg ?p)] =>
      change (inject_Z (Zneg p)) with (Zneg p # 1)
  | |- context [inject_Z Z0] => change (inject_Z 0%Z) with 0%Q
  end.

Section NormalisationFacts.
Import JS MathObject MathUtils.
Local Open Scope Q_scope.

Lemma trunc_div_nonneg (x y : Q) :
  0 < y -> 0 <= x -> trunc (x / y) = Qfloor (x / y).
Proof.
  intros Hy Hx. apply trunc_nonneg.
  apply Qle_shift_div_l; [exact Hy|]. lra.
Qed.

Lemma trunc_div_neg (x y : Q) :
  0 < y -> x < 0 -> trunc (x / y) = Qceiling (x / y).
Proof.
  intros Hy Hx. unfold trunc.
  destruct (Qle_bool 0 (x / y)) eqn:E; [|reflexivity].
  apply Qle_bool_iff in E.
  assert (Ex : x == (x / y) * y) by (field; lra).
  set (q := x / y) in *. nra.
Qed.

(** The remainder by a positive divisor, in closed form. *)
Lemma rem_positive_divisor (x y : Q) :
  0 < y ->
  exists r,
    rem (Some x) (Some y) = Some r
    /\ (0 <= x -> r == x - y * inject_Z (Qfloor (x / y)))
    /\ (x < 0 -> r == x - y * inject_Z (Qceiling (x / y)))
    /\ (0 <= x -> 0 <= r /\ r < y)
    /\ (x < 0 -> - y < r /\ r <= 0).
Proof.
  intros Hy. unfold rem.
  assert (E0 : Qeq_bool y 0 = false).
  { destruct (Qeq_bool y 0) eqn:E; [|reflexivity].
    apply Qeq_bool_iff in E. lra. }
  rewrite E0. eexists. split; [reflexivity|].
  assert (Ex : x == (x / y) * y) by (field; lra).
  pose proof (Qfloor_div_bounds x Hy) as [F1 F2].
  pose proof (Qceiling_bounds (x / y)) as [C1 C2].
  split; [|split; [|split]].
  - intros Hx. rewrite (trunc_div_nonneg Hy Hx). reflexivity.
  - intros Hx. rewrite (trunc_div_neg Hy Hx). reflexivity.
  - intros Hx. rewrite (trunc_div_nonneg Hy Hx). split; lra.
  - intros Hx. rewrite (trunc_div_neg Hy Hx).
    set (q := x / y) in *. set (c := inject_Z (Qceiling q)) in *.
    split; nra.
Qed.




End NormalisationFacts.

Section NormalisationClaims.
Import JS MathObject MathUtils TimeUtils.
Local Open Scope Q_scope.



(** X3.  [quadrantShiftAngle] returns an angle between -180 and 180 that
    differs from its argument by a whole number of turns, and returns the
    argument itself when it already lies there. *)
Theorem quadrantShiftAngle_range (a : Q) :
  exists r k,
    quadrantShiftAngle (Some a) = Some r
    /\ -180 <= r /\ r <= 180
    /\ r == a - 360 * inject_Z k
    /\ (-180 <= a -> a <= 180 -> r = a).
Proof.
  unfold quadrantShiftAngle. cbn [ge le].
  destruct (Qle_bool (-180) a && Qle_bool a 180) eqn:E.
  - apply andb_true_iff in E. destruct E as [E1 E2].
    apply Qle_bool_iff in E1, E2.
    exists a, 0%Z. split; [reflexivity|]. repeat split; try assumption.
    zq. ring.
  - exists (a - 360 * inject_Z (round (a / 360))), (round (a / 360)).
    split; [reflexivity|].
    pose proof (round_bounds (a / 360)) as [R1 R2].
    assert (Ea : a == (a / 360) * 360) by field.
    set (q := a / 360) in *. set (n := inject_Z (round q)) in *.
    split; [lra|]. split; [lra|]. split; [reflexivity|].
    intros H1 H2.
    assert (Qle_bool (-180) a && Qle_bool a 180 = true).
    { apply andb_true_iff. split; apply Qle_bool_iff; assumption. }
    congruence.
Qed.

End NormalisationClaims.


(* ----------------------------------------------------------------- *)
(** ** Interpolation and the transit *)

Section TransitClaims.
Import JS MathObject MathUtils AstronomyUtils Transit.
Local Open Scope Q_scope.

(** X4.  [interpolate] is the parabola through the three values: at
    n = -1, 0, 1 it returns the previous, the current and the next
    one. *)
Theorem interpolate_nodes (y1 y2 y3 : Q) :
  sameNumber (interpolate (Some y2) (Some y1) (Some y3) (Some (-1))) (Some y1)
  /\ sameNumber (interpolate (Some y2) (Some y1) (Some y3) (Some 0)) (Some y2)
  /\ sameNumber (interpolate (Some y2) (Some y1) (Some y3) (Some 1)) (Some y3).
Proof.
  unfold interpolate.
  cbn [sameNumber add sub mul div lift2].
  repeat split; field.
Qed.

(** X5.  [interpolateAngles] returns the current angle at n = 0 and, at
    n = 1 and n = -1, the next and the previous angle up to whole
    turns. *)
Theorem interpolateAngles_nodes (y1 y2 y3 : Q) :
  sameNumber (interpolateAngles (Some y2) (Some y1) (Some y3) (Some 0))
    (Some y2)
  /\ (exists r k,
        interpolateAngles (Some y2) (Some y1) (Some y3) (Some 1) = Some r
        /\ r == y3 + 360 * inject_Z k)
  /\ (exists r k,
        interpolateAngles (Some y2) (Some y1) (Some y3) (Some (-1)) = Some r
        /\ r == y1 + 360 * inject_Z k).
Proof.
  unfold interpolateAngles.
  cbn [unwindAngle sameNumber add sub mul div floor lift1 lift2].
  split; [field|]. split.
  - eexists. exists (- Qfloor ((y3 - y2) / 360))%Z.
    split; [reflexivity|]. rewrite inject_Z_opp. field.
  - eexists. exists (Qfloor ((y2 - y1) / 360))%Z.
    split; [reflexivity|]. field.
Qed.


End TransitClaims.

(* ----------------------------------------------------------------- *)
(** ** The Julian day *)

Section JulianDayFacts.
Import JS MathObject MathUtils AstronomyUtils.
Local Open Scope Q_scope.

Lemma trunc_div_pos (n : Z) (d : positive) :
  (0 <= n)%Z -> trunc (inject_Z n / (Zpos d # 1)) = (n / Zpos d)%Z.
Proof.
  intros Hn.
  assert (E : inject_Z n / (Zpos d # 1) == n # d).
  { rewrite (Qmake_Qdiv n d). reflexivity. }
  rewrite (trunc_comp E). rewrite trunc_nonneg.
  - reflexivity.
  - unfold Qle. simpl. lia.
Qed.

Lemma trunc_scaled (x : Q) (p : Z) (d : positive) :
  (0 <= p)%Z -> x == inject_Z p / (Zpos d # 1) -> trunc x = (p / Zpos d)%Z.
Proof.
  intros Hp E. rewrite (trunc_comp E). apply trunc_div_pos, Hp.
Qed.

Lemma Qlt_bool_Z (a b : Z) : Qlt_bool (inject_Z a) (inject_Z b) = (a <? b)%Z.
Proof.
  destruct (Z.ltb_spec a b) as [H|H].
  - apply Qlt_bool_iff. rewrite <- Zlt_Qlt. exact H.
  - apply Qlt_bool_false_iff. rewrite <- Zle_Qle. exact H.
Qed.

(** The Julian day of a calendar date at 0 h, in integers. *)
Lemma julianDay_closed (n m d : Z) :
  let Y := (if 2 <? m then n else n - 1)%Z in
  let M := (if 2 <? m then m else m + 12)%Z in
  let A := (Y / 100)%Z in
  let B := (2 - A + A / 4)%Z in
  (0 <= Y)%Z -> (0 <= M)%Z ->
  exists j,
    julianDay (Some (inject_Z n)) (Some (inject_Z m)) (Some (inject_Z d))
      (Some 0) = Some j
    /\ j == inject_Z ((1461 * (Y + 4716)) / 4 + (306001 * (M + 1)) / 10000
                      + d + B) - 1524.5.
Proof.
  intros Y M A B HY HM.
  unfold julianDay.
  change (gt (Some (inject_Z m)) (Some 2))
    with (Qlt_bool (inject_Z 2) (inject_Z m)).
  rewrite Qlt_bool_Z.
  assert (EY : truncN (if (2 <? m)%Z then Some (inject_Z n)
                       else sub (Some (inject_Z n)) (Some 1))
               = Some (inject_Z Y)).
  { unfold Y. destruct (2 <? m)%Z; cbn [truncN lift1 sub lift2]; f_equal; f_equal.
    - apply trunc_Z.
    - apply trunc_integral. unfold Z.sub. rewrite inject_Z_plus. reflexivity. }
  assert (EM : truncN (if (2 <? m)%Z then Some (inject_Z m)
                       else add (Some (inject_Z m)) (Some 12))
               = Some (inject_Z M)).
  { unfold M. destruct (2 <? m)%Z; cbn [truncN lift1 add lift2]; f_equal; f_equal.
    - apply trunc_Z.
    - apply trunc_integral. rewrite inject_Z_plus. reflexivity. }
  rewrite EY, EM. cbn [truncN lift1 add sub mul div lift2].
  rewrite (@trunc_div_pos Y 100 HY). fold A.
  assert (HA : (0 <= A)%Z) by (unfold A; apply Z.div_pos; lia).
  rewrite (@trunc_div_pos A 4 HA).
  rewrite (@trunc_integral (2 - inject_Z A + inject_Z (A / 4)) B).
  2:{ unfold B, Z.sub. rewrite !inject_Z_plus, inject_Z_opp. reflexivity. }
  rewrite (@trunc_scaled (365.25 * (inject_Z Y + 4716)) (1461 * (Y + 4716)) 4).
  2:{ lia. }
  2:{ rewrite inject_Z_mult, inject_Z_plus. field. }
  rewrite (@trunc_scaled (30.6001 * (inject_Z M + 1)) (306001 * (M + 1)) 10000).
  2:{ lia. }
  2:{ rewrite inject_Z_mult, inject_Z_plus. field. }
  eexists. split; [reflexivity|].
  rewrite !inject_Z_plus. field.
Qed.

End JulianDayFacts.

Section JulianDayClaim.
Import JS MathObject MathUtils AstronomyUtils.
Local Open Scope Q_scope.

(** X7.  For every year from year 1 on, [julianDay] counts 1 January of
    the next year as the day after 31 December, and 1 March as the day
    after 28 February, or as the second day after it exactly when
    [isLeapYear] holds of the year. *)
Theorem julianDay_follows_the_calendar (y : Z) :
  (1 <= y)%Z ->
  let jd := fun year month day =>
    julianDay (Some (inject_Z year)) (Some (inject_Z month))
      (Some (inject_Z day)) (Some 0) in
  sameNumber (jd (y + 1)%Z 1%Z 1%Z) (add (jd y 12%Z 31%Z) (Some 1))
  /\ sameNumber (jd y 3%Z 1%Z)
       (add (jd y 2%Z 28%Z)
            (Some (if Calendar.isLeapYear y then 2 else 1))).
Proof.
  intros Hy jd. unfold jd.
  destruct (@julianDay_closed (y + 1) 1 1) as [j1 [E1 R1]]; [simpl; lia..|].
  destruct (@julianDay_closed y 12 31) as [j2 [E2 R2]]; [simpl; lia..|].
  destruct (@julianDay_closed y 3 1) as [j3 [E3 R3]]; [simpl; lia..|].
  destruct (@julianDay_closed y 2 28) as [j4 [E4 R4]]; [simpl; lia..|].
  rewrite E1, E2, E3, E4. cbn [add lift2 sameNumber].
  rewrite R1, R2, R3, R4.
  cbn [Z.ltb Z.compare Pos.compare Pos.compare_cont].
  split.
  - replace (y + 1 - 1)%Z with y by lia.
    change ((306001 * (1 + 12 + 1)) / 10000)%Z with 428%Z.
    change ((306001 * (12 + 1)) / 10000)%Z with 397%Z.
    rewrite !inject_Z_plus. change (inject_Z 428) with 428.
    change (inject_Z 397) with 397. change (inject_Z 31) with 31.
    change (inject_Z 1) with 1. ring.
  - change ((306001 * (3 + 1)) / 10000)%Z with 122%Z.
    change ((306001 * (2 + 12 + 1)) / 10000)%Z with 459%Z.
    set (Y := (y - 1)%Z).
    assert (D : ((1461 * (y + 4716)) / 4 + 122 + 1 + (2 - y / 100 + y / 100 / 4)
                 = (1461 * (Y + 4716)) / 4 + 459 + 28
                   + (2 - Y / 100 + Y / 100 / 4)
                   + (if Calendar.isLeapYear y then 2 else 1))%Z).
    { unfold Y, Calendar.isLeapYear.
      destruct (Z.rem y 4 =? 0)%Z eqn:E4'; cbn [negb];
        destruct (Z.rem y 100 =? 0)%Z eqn:E100; cbn [andb];
        destruct (Z.rem y 400 =? 0)%Z eqn:E400; cbn [negb];
        rewrite ?Z.eqb_eq, ?Z.eqb_neq in *;
        Z.quot_rem_to_equations; Z.div_mod_to_equations; lia. }
    rewrite D.
    destruct (Calendar.isLeapYear y); rewrite !inject_Z_plus; ring.
Qed.

End JulianDayClaim.

(** The year 2024 is a leap year, 1900 is not. *)
Lemma julianDay_follows_the_calendar_witness :
  sameNumber
    (AstronomyUtils.julianDay (Some 2024%Q) (Some 3%Q) (Some 1%Q) (Some 0%Q))
    (JS.add
       (AstronomyUtils.julianDay (Some 2024%Q) (Some 2%Q) (Some 28%Q)
          (Some 0%Q))
       (Some 2%Q)).
Proof.
  destruct (@julianDay_follows_the_calendar 2024 ltac:(lia)) as [_ H].
  exact H.
Defined.

(* ----------------------------------------------------------------- *)
(** ** Rounding to the minute and time components *)

Section MinuteFacts.
Import JS Time MathObject MathUtils TimeUtils.
Local Open Scope Q_scope.

Lemma Qfloor_Zdiv (a : Z) (d : positive) :
  Qfloor (inject_Z a / (Zpos d # 1)) = (a / Zpos d)%Z.
Proof.
  transitivity (Qfloor (a # d)); [|reflexivity].
  apply Qfloor_comp. symmetry. apply Qmake_Qdiv.
Qed.

(** [Math.round(t / 60000)] on an integer. *)
Lemma round_minute (t : Z) :
  round (inject_Z t / 60000) = ((t + 30000) / 60000)%Z.
Proof.
  unfold round. rewrite <- (Qfloor_Zdiv (t + 30000) 60000).
  apply Qfloor_comp. rewrite inject_Z_plus. field.
Qed.

Lemma roundTime_nearest_Z (t : Z) :
  sameNumber (roundTime (Some (inject_Z t)) RoundNearest)
    (Some (inject_Z (60000 * ((t + 30000) / 60000)))).
Proof.
  cbn [roundTime mul div roundN lift1 lift2 sameNumber].
  change (60 * 1000) with 60000.
  rewrite round_minute, inject_Z_mult. ring.
Qed.

End MinuteFacts.

Section MinuteClaims.
Import JS Time MathObject MathUtils TimeUtils.
Local Open Scope Q_scope.

(** X8.  [roundTime] returns a whole number of minutes: the last one not
    after the timestamp (down), the first one not before it (up), or the
    nearest one, the half minute going up; with "none" it returns the
    timestamp.  Rounding twice is rounding once. *)
Theorem roundTime_whole_minutes (t : Q) :
  roundTime (Some t) RoundNone = Some t
  /\ (exists k,
        roundTime (Some t) RoundDown = Some (inject_Z k * (60 * 1000))
        /\ inject_Z k * 60000 <= t /\ t < inject_Z k * 60000 + 60000)
  /\ (exists k,
        roundTime (Some t) RoundUp = Some (inject_Z k * (60 * 1000))
        /\ t <= inject_Z k * 60000 /\ inject_Z k * 60000 < t + 60000)
  /\ (exists k,
        roundTime (Some t) RoundNearest = Some (inject_Z k * (60 * 1000))
        /\ t - 30000 < inject_Z k * 60000 /\ inject_Z k * 60000 <= t + 30000)
  /\ (forall mode,
        sameNumber (roundTime (roundTime (Some t) mode) mode)
                   (roundTime (Some t) mode)).
Proof.
  assert (Et : t == (t / (60 * 1000)) * 60000) by field.
  split; [reflexivity|]. split; [|split; [|split]].
  - exists (Qfloor (t / (60 * 1000))). split; [reflexivity|].
    pose proof (Qfloor_le (t / (60 * 1000))) as H1.
    pose proof (Qlt_floor (t / (60 * 1000))) as H2.
    rewrite inject_Z_plus in H2. zq.
    set (q := t / (60 * 1000)) in *. set (k := inject_Z (Qfloor q)) in *.
    split; lra.
  - exists (Qceiling (t / (60 * 1000))). split; [reflexivity|].
    pose proof (Qceiling_bounds (t / (60 * 1000))) as [H1 H2].
    set (q := t / (60 * 1000)) in *. set (k := inject_Z (Qceiling q)) in *.
    split; lra.
  - exists (round (t / (60 * 1000))). split; [reflexivity|].
    pose proof (round_bounds (t / (60 * 1000))) as [H1 H2].
    set (q := t / (60 * 1000)) in *. set (k := inject_Z (round q)) in *.
    split; lra.
  - intros mode.
    assert (W : forall k : Z,
              inject_Z k * (60 * 1000) / (60 * 1000) == inject_Z k)
      by (intros k; field).
    destruct mode; cbn [roundTime mul div floor ceil roundN lift1 lift2 sameNumber].
    + rewrite (round_comp (W _)), round_Z. reflexivity.
    + rewrite (Qceiling_comp _ _ (W _)), Qceiling_Z. reflexivity.
    + rewrite (Qfloor_comp _ _ (W _)), Qfloor_Z. reflexivity.
    + reflexivity.
Qed.

(** X9.  The three roundings to the minute of an instant in whole
    milliseconds: [roundToNearestMinute] of the Sunnah times and
    [roundTime] with "nearest" agree on every instant; [roundedMinute]
    of the engine agrees with them on instants in whole seconds, and
    otherwise keeps the milliseconds of its argument. *)
Theorem minute_roundings_agree (t : Z) :
  sameNumber (getTime (Sunnah.roundToNearestMinute (Some t)))
             (roundTime (Some (inject_Z t)) RoundNearest)
  /\ ((t mod 1000 = 0)%Z ->
      sameNumber (getTime (roundedMinute (Some t) Nearest))
                 (roundTime (Some (inject_Z t)) RoundNearest))
  /\ exists r,
       roundedMinute (Some t) Nearest = Some r
       /\ (r mod 1000 = t mod 1000)%Z.
Proof.
  pose proof (roundTime_nearest_Z t) as R.
  destruct (roundTime (Some (inject_Z t)) RoundNearest) as [v|] eqn:E;
    [|contradiction].
  cbn [sameNumber] in R.
  split; [|split].
  - rewrite roundToNearestMinute_nearest. cbn [getTime sameNumber].
    rewrite R. reflexivity.
  - intros Hms. rewrite (roundedMinute_whole_seconds _ Hms).
    cbn [getTime sameNumber]. rewrite R. reflexivity.
  - rewrite roundedMinute_nearest. eexists. split; [reflexivity|].
    destruct (30 <=? getUTCSeconds t)%Z.
    + replace (t + (60 - getUTCSeconds t) * 1000)%Z
        with (t + (60 - getUTCSeconds t) * 1000)%Z by reflexivity.
      rewrite Z.mod_add by lia. reflexivity.
    + replace (t - getUTCSeconds t * 1000)%Z
        with (t + (- getUTCSeconds t) * 1000)%Z by lia.
      rewrite Z.mod_add by lia. reflexivity.
Qed.

End MinuteClaims.

Section ComponentsClaims.
Import JS MathObject MathUtils TimeUtils.
Local Open Scope Q_scope.

(** X10.  Hours, minutes and seconds survive the trip through decimal
    hours: for whole hours from 0 on, whole minutes and seconds below 60,
    [decimalToTimeComponents] of [timeComponentsToDecimal] returns the
    three numbers; an absent seconds member counts as 0. *)
Theorem timeComponents_round_trip (h m s : Z) :
  (0 <= h)%Z -> (0 <= m < 60)%Z -> (0 <= s < 60)%Z ->
  let back := fun seconds =>
    decimalToTimeComponents
      (timeComponentsToDecimal
         {| tc_hours := Some (inject_Z h); tc_minutes := Some (inject_Z m);
            tc_seconds := seconds |}) in
  tc_hours (back (Some (Some (inject_Z s)))) = Some (inject_Z h)
  /\ tc_minutes (back (Some (Some (inject_Z s)))) = Some (inject_Z m)
  /\ (exists v, tc_seconds (back (Some (Some (inject_Z s)))) = Some (Some v)
                /\ v == inject_Z s)
  /\ tc_hours (back None) = Some (inject_Z h)
  /\ tc_minutes (back None) = Some (inject_Z m)
  /\ (exists v, tc_seconds (back None) = Some (Some v) /\ v == 0).
Proof.
  intros Hh Hm Hs back.
  assert (G : forall s' : Z, (0 <= s' < 60)%Z ->
            let x := inject_Z h + inject_Z m / 60 + inject_Z s' / 3600 in
            let total := inject_Z (round (x * 3600)) in
            round (x * 3600) = (3600 * h + 60 * m + s')%Z
            /\ Qfloor (total / 3600) = h
            /\ (forall r, r == total - 3600 * inject_Z (Qfloor (total / 3600)) ->
                  Qfloor (r / 60) = m)
            /\ total - 60 * inject_Z (Qfloor (total / 60)) == inject_Z s').
  { intros s' Hs' x total.
    assert (R : round (x * 3600) = (3600 * h + 60 * m + s')%Z).
    { apply round_integral_value. unfold x.
      rewrite !inject_Z_plus, !inject_Z_mult. field. }
    assert (T : total == 3600 * inject_Z h + 60 * inject_Z m + inject_Z s').
    { unfold total. rewrite R, !inject_Z_plus, !inject_Z_mult. reflexivity. }
    assert (B1 : 0 <= inject_Z m) by (zify_Q; lia).
    assert (B2 : inject_Z m <= 59) by (zify_Q; lia).
    assert (B3 : 0 <= inject_Z s') by (zify_Q; lia).
    assert (B4 : inject_Z s' <= 59) by (zify_Q; lia).
    assert (F1 : Qfloor (total / 3600) = h).
    { apply Qfloor_div_unique; [reflexivity| |]; lra. }
    split; [exact R|]. split; [exact F1|]. split.
    - intros r Er. rewrite F1 in Er.
      apply Qfloor_div_unique; [reflexivity| |]; lra.
    - assert (F2 : Qfloor (total / 60) = (60 * h + m)%Z).
      { apply Qfloor_div_unique; [reflexivity| |];
          rewrite inject_Z_plus, inject_Z_mult; zlit; lra. }
      rewrite F2, inject_Z_plus, inject_Z_mult. zlit. lra. }
  assert (P3600 : 0 < 3600) by reflexivity.
  assert (P60 : 0 < 60) by reflexivity.
  assert (N : forall s' : Z, (0 <= s' < 60)%Z ->
            let x := inject_Z h + inject_Z m / 60 + inject_Z s' / 3600 in
            0 <= inject_Z (round (x * 3600))).
  { intros s' Hs' x. destruct (G s' Hs') as [R _]. fold x in R. rewrite R.
    zify_Q. lia. }
  assert (Main : forall s' : Z, (0 <= s' < 60)%Z ->
            let c := decimalToTimeComponents
                       (Some (inject_Z h + inject_Z m / 60 + inject_Z s' / 3600)) in
            tc_hours c = Some (inject_Z h)
            /\ tc_minutes c = Some (inject_Z m)
            /\ exists v, tc_seconds c = Some (Some v) /\ v == inject_Z s').
  { intros s' Hs' c. unfold c, decimalToTimeComponents.
    cbn [roundN floor mul div lift1 lift2 tc_hours tc_minutes tc_seconds].
    destruct (G s' Hs') as [R [F1 [F2 F3]]].
    specialize (N s' Hs'). cbv zeta in N.
    set (total := inject_Z (round ((inject_Z h + inject_Z m / 60
                                    + inject_Z s' / 3600) * 3600))) in *.
    destruct (rem_positive_divisor total P3600) as [r1 [E1 [Q1 _]]].
    destruct (rem_positive_divisor total P60) as [r2 [E2 [Q2 _]]].
    rewrite E1, E2. cbn [div floor lift1 lift2].
    rewrite F1, (F2 r1 (Q1 N)).
    split; [reflexivity|]. split; [reflexivity|].
    exists r2. split; [reflexivity|]. rewrite (Q2 N). exact F3. }
  unfold back, timeComponentsToDecimal.
  cbn [tc_hours tc_minutes tc_seconds add div lift2].
  destruct (Main s Hs) as [M1 [M2 M3]].
  destruct (Main 0%Z ltac:(lia)) as [Z1 [Z2 Z3]].
  repeat split; assumption.
Qed.

End ComponentsClaims.

(** 7 h 05 min 09 s. *)
Lemma timeComponents_round_trip_witness :
  tc_hours
    (TimeUtils.decimalToTimeComponents
       (TimeUtils.timeComponentsToDecimal
          {| tc_hours := Some 7%Q; tc_minutes := Some 5%Q;
             tc_seconds := Some (Some 9%Q) |})) = Some 7%Q
  /\ tc_minutes
       (TimeUtils.decimalToTimeComponents
          (TimeUtils.timeComponentsToDecimal
             {| tc_hours := Some 7%Q; tc_minutes := Some 5%Q;
                tc_seconds := Some (Some 9%Q) |})) = Some 5%Q.
Proof.
  destruct (@timeComponents_round_trip 7 5 9 ltac:(lia) ltac:(lia) ltac:(lia))
    as [H1 [H2 _]].
  split; [exact H1|exact H2].
Defined.

Section HourMinuteClaims.
Import JS MathObject MathUtils TimeUtils.
Local Open Scope Q_scope.



End HourMinuteClaims.


(* ================================================================= *)
(** ** High-latitude helpers *)

Section PolarFacts.
Import JS Time Polar PolarUtils.
Local Open Scope Q_scope.




End PolarFacts.

Section PolarClaims.
Import JS Time Polar PolarUtils.
Local Open Scope Q_scope.


(** X14.  The two recommendations of a high-latitude rule, of the polar
    helpers and of the method suggestion, are the same function of the
    latitude, and they recommend a rule exactly where
    [requiresPolarAdjustment] and [isInPolarRegion] hold: from 48
    degrees on, in either hemisphere. *)
Theorem recommended_rule_where_required (c : Coordinates) :
  getRecommendedHighLatitudeRule c = Geographic.suggestHighLatitudeRule c
  /\ requiresPolarAdjustment (latitude c) = CoordinateUtils.isInPolarRegion c
  /\ (requiresPolarAdjustment (latitude c) = true
      <-> getRecommendedHighLatitudeRule c <> RuleNone)
  /\ (requiresPolarAdjustment (latitude c) = true
      <-> latitude c <= -48 \/ 48 <= latitude c).
Proof.
  split; [reflexivity|]. split; [reflexivity|].
  unfold getRecommendedHighLatitudeRule, requiresPolarAdjustment, Qlt_bool.
  split.
  - destruct (Qle_bool 48 (Qabs (latitude c))) eqn:E; cbn [negb].
    + split; [|reflexivity]. intros _.
      destruct (Qle_bool 55 _); [|discriminate].
      destruct (Qle_bool 66.5 _); discriminate.
    + split; [discriminate|]. intros H. exfalso. apply H. reflexivity.
  - rewrite Qle_bool_iff. split.
    + intros H. destruct (Qlt_le_dec (latitude c) 0) as [L | L].
      * left. rewrite Qabs_neg in H by lra. lra.
      * right. rewrite Qabs_pos in H by lra. lra.
    + intros [H | H].
      * rewrite Qabs_neg by lra. lra.
      * rewrite Qabs_pos by lra. lra.
Qed.

End PolarClaims.


(* ================================================================= *)
(** ** Method suggestion *)

(** Decide the comparisons of a goal one after the other, each from what
    the earlier ones have settled where that is enough. *)
Ltac qdecide a b :=
  let H := fresh "H" in
  first
    [ assert (H : (a <= b)%Q) by lra;
      apply Qle_bool_iff in H; rewrite H; clear H
    | assert (H : (b < a)%Q) by lra;
      apply Qle_bool_false_iff in H; rewrite H; clear H
    | destruct (Qle_bool a b) eqn:H;
      [ apply Qle_bool_iff in H | apply Qle_bool_false_iff in H ] ].

Ltac qcases :=
  repeat (match goal with
          | |- context [Qle_bool ?a ?b] => qdecide a b
          end;
          cbn [andb orb negb]).

Section SuggestionFacts.
Import JS CoordinateUtils Geographic.
Local Open Scope Q_scope.

Lemma Qabs_cases (x : Q) :
  (0 <= x /\ Qabs x == x) \/ (x < 0 /\ Qabs x == - x).
Proof.
  destruct (Qlt_le_dec x 0) as [L | L].
  - right. split; [assumption|]. apply Qabs_neg. lra.
  - left. split; [assumption|]. apply Qabs_pos. assumption.
Qed.

End SuggestionFacts.

Section SuggestionClaims.
Import JS CoordinateUtils Geographic.
Local Open Scope Q_scope.

(** X15.  [suggestMethod] recommends one of eleven methods.  It never
    recommends Singapore, whose bounds lie inside those of Malaysia that
    come first in the table, so that every place in them gets JAKIM; and
    it never recommends Russia, whose western bound lies east of its
    eastern bound, so that no place is within them. *)
Theorem suggestMethod_recommendations (c : Coordinates) :
  In (recommended (suggestMethod c))
     [UmmAlQura; Qatar; Dubai; JAKIM; Kemenag; France15; Turkey; Tehran;
      ISNA; MWL; Egypt]
  /\ In ("singapore"%string, (bounds 1.5 1.2 104.1 103.6, Singapore))
        SPECIFIC_REGIONS
  /\ (isWithinBounds c (bounds 1.5 1.2 104.1 103.6) = true ->
      recommended (suggestMethod c) = JAKIM)
  /\ In ("russia"%string, (bounds 82 41.5 (-169) 19, Russia))
        SPECIFIC_REGIONS
  /\ isWithinBounds c (bounds 82 41.5 (-169) 19) = false.
Proof.
  destruct c as [lat lon].
  unfold suggestMethod, getRegionalPreference.
  cbn [firstRegion SPECIFIC_REGIONS].
  unfold isWithinBounds, bounds.
  cbn [north south east west latitude longitude].
  split; [|split; [|split; [|split]]].
  - qcases; cbn [recommended]; try (cbn [In]; tauto);
      destruct (getRegion _); cbn [REGIONAL_METHOD_PREFERENCES primary In];
      tauto.
  - unfold SPECIFIC_REGIONS. repeat (first [left; reflexivity | right]).
  - intros H.
    apply andb_true_iff in H. destruct H as [H H4].
    apply andb_true_iff in H. destruct H as [H H3].
    apply andb_true_iff in H. destruct H as [H1 H2].
    apply Qle_bool_iff in H1, H2, H3, H4.
    qcases; cbn [recommended]; try reflexivity; exfalso; lra.
  - unfold SPECIFIC_REGIONS. repeat (first [left; reflexivity | right]).
  - qcases; try reflexivity; exfalso; lra.
Qed.

(** X16.  The two advisers disagree on a strip of the Gulf coast, and
    only there: [isMethodSuitableForLocation] rejects the method that
    [suggestMethod] recommends exactly south of 25 degrees north within
    the bounds of the United Arab Emirates or of Qatar, where Dubai,
    respectively Qatar, is recommended and then judged unfit for tropical
    regions. *)
Theorem suggested_method_judged_unsuitable (c : Coordinates) :
  suitable (isMethodSuitableForLocation (recommended (suggestMethod c)) c)
  = false
  <-> (22.5 <= latitude c /\ latitude c < 25
       /\ 51 <= longitude c /\ longitude c <= 56.5)
      \/ (24.5 <= latitude c /\ latitude c < 25
          /\ 50.7 <= longitude c /\ longitude c <= 51.7).
Proof.
  destruct c as [lat lon].
  unfold isMethodSuitableForLocation, getRegionalMethods, suggestMethod,
    getRegionalPreference, getRegion, Qlt_bool.
  cbn [firstRegion SPECIFIC_REGIONS].
  unfold isWithinBounds, bounds.
  cbn [north south east west latitude longitude].
  destruct (Qabs_cases lat) as [[S E] | [S E]];
    set (a := Qabs lat) in *; clearbody a;
    qcases;
    cbn [recommended REGIONAL_METHOD_PREFERENCES primary rp_alternatives];
    cbv [includesMethod existsb MethodCode_eqb methodLabel String.eqb
         Ascii.eqb Bool.eqb orb andb];
    qcases; cbn [suitable];
    (split; [intros K; try discriminate K; try (exfalso; lra);
             first [left; repeat split; lra | right; repeat split; lra]
            | intros [K | K]; try reflexivity; exfalso; lra]).
Qed.

End SuggestionClaims.

(* ================================================================= *)
(** ** Season-adjusted twilight *)

Section SeasonFacts.
Import JS Time Calendar.
Local Open Scope Q_scope.

(** A straight line between two values stays between their bounds. *)
Lemma segment_between (p q lo hi len x : Q) :
  0 < len -> 0 <= x -> x <= len ->
  lo <= p -> p <= hi -> lo <= q -> q <= hi ->
  lo <= p + ((q - p) / len) * x /\ p + ((q - p) / len) * x <= hi.
Proof.
  intros Hlen X0 X1 P0 P1 Q0 Q1.
  assert (E : ((q - p) / len) * len == q - p) by (field; lra).
  set (u := (q - p) / len) in *.
  destruct (Qlt_le_dec u 0) as [U | U]; split; nra.
Qed.

(** The days since the solstice are a day of the year again. *)
Lemma daysSinceSolstice_range (dayOfYear year : Z) (latitude : Q) :
  (0 <= dayOfYear <= 366)%Z ->
  (0 <= daysSinceSolstice dayOfYear year latitude <= 365)%Z.
Proof.
  intros H. unfold daysSinceSolstice. cbv zeta.
  destruct (isLeapYear year), (Qle_bool 0 latitude);
    repeat match goal with
           | |- context [(?a <=? ?b)%Z] => destruct (Z.leb_spec a b)
           | |- context [(?a <? ?b)%Z] => destruct (Z.ltb_spec a b)
           end; lia.
Qed.

(** The blend over the seasons stays between the bounds of its four
    values. *)
Lemma seasonBlend_between (a b c d lo hi : Q) (dyy : Z) :
  (0 <= dyy <= 366)%Z ->
  lo <= a <= hi -> lo <= b <= hi -> lo <= c <= hi -> lo <= d <= hi ->
  lo <= seasonBlend a b c d dyy <= hi.
Proof.
  intros Hd [A0 A1] [B0 B1] [C0 C1] [D0 D1].
  assert (N : forall k : Z, (k <= dyy)%Z -> inject_Z k <= inject_Z dyy)
    by (intros k Hk; rewrite <- Zle_Qle; exact Hk).
  assert (M : forall k : Z, (dyy <= k)%Z -> inject_Z dyy <= inject_Z k)
    by (intros k Hk; rewrite <- Zle_Qle; exact Hk).
  unfold seasonBlend. cbv zeta.
  destruct (Z.ltb_spec dyy 91) as [L1 | L1].
  { pose proof (N 0%Z ltac:(lia)) as X0.
    pose proof (M 91%Z ltac:(lia)) as X1.
    apply segment_between; try assumption; try reflexivity;
      revert X0 X1; zlit; intros; lra. }
  destruct (Z.ltb_spec dyy 137) as [L2 | L2].
  { pose proof (N 91%Z ltac:(lia)) as X0.
    pose proof (M 137%Z ltac:(lia)) as X1.
    apply segment_between; try assumption; try reflexivity;
      revert X0 X1; zlit; intros; lra. }
  destruct (Z.ltb_spec dyy 183) as [L3 | L3].
  { pose proof (N 137%Z ltac:(lia)) as X0.
    pose proof (M 183%Z ltac:(lia)) as X1.
    apply segment_between; try assumption; try reflexivity;
      revert X0 X1; zlit; intros; lra. }
  destruct (Z.ltb_spec dyy 229) as [L4 | L4].
  { pose proof (N 183%Z ltac:(lia)) as X0.
    pose proof (M 229%Z ltac:(lia)) as X1.
    apply segment_between; try assumption; try reflexivity;
      revert X0 X1; zlit; intros; lra. }
  destruct (Z.ltb_spec dyy 275) as [L5 | L5].
  { pose proof (N 229%Z ltac:(lia)) as X0.
    pose proof (M 275%Z ltac:(lia)) as X1.
    apply segment_between; try assumption; try reflexivity;
      revert X0 X1; zlit; intros; lra. }
  pose proof (N 275%Z ltac:(lia)) as X0. pose proof (M 366%Z ltac:(lia)) as X1.
  apply segment_between; try assumption; try reflexivity;
    revert X0 X1; zlit; intros; lra.
Qed.

(** [Math.round] does not pass a whole number. *)
Lemma round_le_Z (x : Q) (n : Z) : x <= inject_Z n -> (round x <= n)%Z.
Proof.
  intros H. pose proof (round_bounds x) as [_ R].
  assert (K : inject_Z (round x) < inject_Z (n + 1)).
  { rewrite inject_Z_plus. zq. lra. }
  rewrite <- Zlt_Qlt in K. lia.
Qed.

Lemma round_ge_Z (x : Q) (n : Z) : inject_Z n <= x -> (n <= round x)%Z.
Proof.
  intros H. pose proof (round_bounds x) as [R _].
  assert (K : inject_Z (n - 1) < inject_Z (round x)).
  { unfold Z.sub. rewrite inject_Z_plus, inject_Z_opp. zq. lra. }
  rewrite <- Zlt_Qlt in K. lia.
Qed.

End SeasonFacts.

Section SeasonClaims.
Import JS Time Calendar Polar.
Local Open Scope Q_scope.

(** X17.  The season-adjusted twilights stay in a window that depends on
    the latitude alone, on every day of the year.  The morning twilight
    lies between 75 and 75 + 48.1 |latitude| / 55 minutes before sunrise,
    in both copies of the function.  The evening twilight of the engine
    lies between 75 and 75 + 81.84 |latitude| / 55 minutes after sunset,
    and for the red twilight between 62 - 7.16 |latitude| / 55 and
    62 + 19.44 |latitude| / 55 minutes (half a second apart, for the
    rounding to seconds). *)
Theorem seasonal_twilight_window
    (lat : Q) (doy year sr ss : Z) (shafaq : Shafaq) :
  (0 <= doy <= 366)%Z ->
  (exists tw,
     Astronomical.seasonAdjustedMorningTwilight lat doy year (Some sr)
     = Some tw
     /\ seasonAdjustedMorningTwilight
          {| sp_latitude := lat; sp_dayOfYear := doy; sp_year := year;
             sp_baseTime := Some sr |} = Some tw
     /\ (75 * 60000 <= sr - tw)%Z
     /\ inject_Z (sr - tw)
        <= (75 + 48.1 * (Qabs lat / 55)) * 60000 + 500)
  /\ (exists tw,
        Astronomical.seasonAdjustedEveningTwilight lat doy year (Some ss)
          shafaq = Some tw
        /\ match shafaq with
           | ahmer =>
               (62 - 7.16 * (Qabs lat / 55)) * 60000 - 500
               <= inject_Z (tw - ss)
               /\ inject_Z (tw - ss)
                  <= (62 + 19.44 * (Qabs lat / 55)) * 60000 + 500
           | _ =>
               (75 * 60000 <= tw - ss)%Z
               /\ inject_Z (tw - ss)
                  <= (75 + 81.84 * (Qabs lat / 55)) * 60000 + 500
           end).
Proof.
  intros Hdoy.
  pose proof (daysSinceSolstice_range year lat Hdoy) as Hd.
  pose proof (Qabs_nonneg lat) as L0.
  assert (EL : Qabs lat / 55 == Qabs lat * (1 # 55)) by field.
  split.
  - unfold Astronomical.seasonAdjustedMorningTwilight,
      seasonAdjustedMorningTwilight.
    cbn [sp_latitude sp_dayOfYear sp_year sp_baseTime]. cbv zeta.
    rewrite addSeconds_Z. eexists. split; [reflexivity|].
    split; [reflexivity|].
    set (L := Qabs lat) in *.
    assert (B : 75 <= seasonBlend (75 + 28.65 / 55.0 * L)
                        (75 + 19.44 / 55.0 * L) (75 + 32.74 / 55.0 * L)
                        (75 + 48.1 / 55.0 * L)
                        (daysSinceSolstice doy year lat)
                <= 75 + 48.1 / 55.0 * L).
    { apply seasonBlend_between; [lia| | | |]; split; unfold Qdiv;
        change (/ 55.0) with (10 # 550); lra. }
    unfold Qdiv in B; change (/ 55.0) with (10 # 550) in B.
    destruct B as [B0 B1].
    set (adj := seasonBlend _ _ _ _ _) in *.
    pose proof (round_bounds (adj * -60.0)) as [R0 R1].
    assert (R2 : (round (adj * -60.0) <= -4500)%Z).
    { apply round_le_Z. zlit. lra. }
    set (r := round (adj * -60.0)) in *.
    split; [lia|].
    replace (sr - (sr + r * 1000))%Z with (- r * 1000)%Z by lia.
    rewrite inject_Z_mult, inject_Z_opp. zlit. rewrite EL. lra.
  - unfold Astronomical.seasonAdjustedEveningTwilight.
    set (L := Qabs lat) in *.
    destruct shafaq; cbn [Astronomical.eveningCoefficients]; cbv zeta;
      rewrite addSeconds_Z; (eexists; split; [reflexivity|]);
      fold L.
    + assert (B : 75 <= seasonBlend (75 + 25.6 / 55.0 * L)
                          (75 + 7.16 / 55.0 * L) (75 + 36.84 / 55.0 * L)
                          (75 + 81.84 / 55.0 * L)
                          (daysSinceSolstice doy year lat)
                  <= 75 + 81.84 / 55.0 * L).
      { apply seasonBlend_between; [lia| | | |]; split; unfold Qdiv;
        change (/ 55.0) with (10 # 550); lra. }
      unfold Qdiv in B; change (/ 55.0) with (10 # 550) in B.
    destruct B as [B0 B1].
      set (adj := seasonBlend _ _ _ _ _) in *.
      pose proof (round_bounds (adj * 60.0)) as [R0 R1].
      assert (R2 : (4500 <= round (adj * 60.0))%Z).
      { apply round_ge_Z. zlit. lra. }
      set (r := round (adj * 60.0)) in *.
      split; [lia|].
      replace (ss + r * 1000 - ss)%Z with (r * 1000)%Z by lia.
      rewrite inject_Z_mult. zlit. rewrite EL. lra.
    + assert (B : 62 - 7.16 / 55.0 * L
                  <= seasonBlend (62 + 17.4 / 55.0 * L)
                       (62 - 7.16 / 55.0 * L) (62 + 5.12 / 55.0 * L)
                       (62 + 19.44 / 55.0 * L)
                       (daysSinceSolstice doy year lat)
                  <= 62 + 19.44 / 55.0 * L).
      { apply seasonBlend_between; [lia| | | |]; split; unfold Qdiv;
        change (/ 55.0) with (10 # 550); lra. }
      unfold Qdiv in B; change (/ 55.0) with (10 # 550) in B.
    destruct B as [B0 B1].
      set (adj := seasonBlend _ _ _ _ _) in *.
      pose proof (round_bounds (adj * 60.0)) as [R0 R1].
      set (r := round (adj * 60.0)) in *.
      replace (ss + r * 1000 - ss)%Z with (r * 1000)%Z by lia.
      rewrite inject_Z_mult. zlit. rewrite EL. split; lra.
    + assert (B : 75 <= seasonBlend (75 + 25.6 / 55.0 * L)
                          (75 + 7.16 / 55.0 * L) (75 + 36.84 / 55.0 * L)
                          (75 + 81.84 / 55.0 * L)
                          (daysSinceSolstice doy year lat)
                  <= 75 + 81.84 / 55.0 * L).
      { apply seasonBlend_between; [lia| | | |]; split; unfold Qdiv;
        change (/ 55.0) with (10 # 550); lra. }
      unfold Qdiv in B; change (/ 55.0) with (10 # 550) in B.
    destruct B as [B0 B1].
      set (adj := seasonBlend _ _ _ _ _) in *.
      pose proof (round_bounds (adj * 60.0)) as [R0 R1].
      assert (R2 : (4500 <= round (adj * 60.0))%Z).
      { apply round_ge_Z. zlit. lra. }
      set (r := round (adj * 60.0)) in *.
      split; [lia|].
      replace (ss + r * 1000 - ss)%Z with (r * 1000)%Z by lia.
      rewrite inject_Z_mult. zlit. rewrite EL. lra.
Qed.

End SeasonClaims.

(** Edinburgh on the winter solstice. *)
Lemma seasonal_twilight_window_witness :
  exists tw,
    Astronomical.seasonAdjustedMorningTwilight 55.95 355 2023
      (Some Samples.winterSunrise) = Some tw
    /\ (4500000 <= Samples.winterSunrise - tw)%Z.
Proof.
  destruct (@seasonal_twilight_window 55.95 355 2023 Samples.winterSunrise
              Samples.winterSunset general)
    as [[tw [E [_ [B _]]]] _].
  - lia.
  - exists tw. split; [exact E | exact B].
Defined.

(* ================================================================= *)
(** ** From decimal hours to instants *)

Section HourFacts.
Import JS Time Precision Calculator.
Local Open Scope Q_scope.

Lemma mod1_comp (x y : Q) : x == y -> mod1 x == mod1 y.
Proof.
  intros E. unfold mod1. rewrite (trunc_comp E), E. reflexivity.
Qed.

Lemma mod1_Z (x : Q) (n : Z) : x == inject_Z n -> mod1 x == 0.
Proof.
  intros E. unfold mod1. rewrite (trunc_integral E), E. ring.
Qed.

(** Below zero the truncation is the ceiling: the floor on a whole
    number, the floor plus one elsewhere. *)
Lemma trunc_neg_whole (x : Q) :
  x == inject_Z (Qfloor x) -> trunc x = Qfloor x.
Proof. intros E. apply trunc_integral. exact E. Qed.

Lemma trunc_neg_fraction (x : Q) :
  x < 0 -> ~ x == inject_Z (Qfloor x) -> trunc x = (Qfloor x + 1)%Z.
Proof.
  intros Hx Hn. unfold trunc.
  assert (E : Qle_bool 0 x = false) by (apply Qle_bool_false_iff; exact Hx).
  rewrite E. unfold Qceiling.
  pose proof (Qfloor_le x) as F1. pose proof (Qlt_floor x) as F2.
  rewrite inject_Z_plus in F2. zq.
  assert (F3 : inject_Z (Qfloor x) < x).
  { destruct (Qlt_le_dec (inject_Z (Qfloor x)) x) as [L | L]; [exact L|].
    exfalso. apply Hn. apply Qle_antisym; assumption. }
  assert (K : Qfloor (- x) = (- Qfloor x - 1)%Z).
  { apply Qfloor_unique; unfold Z.sub;
      rewrite inject_Z_plus, !inject_Z_opp; zq; lra. }
  rewrite K. lia.
Qed.

(** Hours, minutes and seconds as [calculateHanafiAsr] splits them, for
    an hour count below zero: right on a whole hour, and otherwise an
    hour, or an hour and a minute, too early. *)
Lemma split_hms_negative (h : Q) :
  h < 0 ->
  let total := (3600 * Qfloor h + 60 * Qfloor (mod1 h * 60)
                + Qfloor (mod1 (mod1 h * 60) * 60))%Z in
  (h == inject_Z (Qfloor h) -> total = Qfloor (3600 * h))
  /\ (~ h == inject_Z (Qfloor h) ->
      total = (Qfloor (3600 * h) - 3600)%Z
      \/ total = (Qfloor (3600 * h) - 3660)%Z).
Proof.
  intros Hneg total. unfold total. clear total.
  set (H := Qfloor h).
  pose proof (Qfloor_le h) as F1. pose proof (Qlt_floor h) as F2.
  rewrite inject_Z_plus in F2. zq. fold H in F1, F2.
  split.
  - intros E.
    assert (E1 : mod1 h * 60 == inject_Z 0).
    { rewrite (mod1_Z E). zq. ring. }
    rewrite (Qfloor_comp _ _ E1), Qfloor_Z.
    assert (E2 : mod1 (mod1 h * 60) * 60 == inject_Z 0).
    { rewrite (mod1_Z E1). zq. ring. }
    rewrite (Qfloor_comp _ _ E2), Qfloor_Z.
    assert (E3 : 3600 * h == inject_Z (3600 * H)).
    { rewrite inject_Z_mult, E. zlit. reflexivity. }
    rewrite (Qfloor_comp _ _ E3), Qfloor_Z. lia.
  - intros Hn.
    assert (F3 : inject_Z H < h).
    { destruct (Qlt_le_dec (inject_Z H) h) as [L | L]; [exact L|].
      exfalso. apply Hn. apply Qle_antisym; assumption. }
    assert (Em : mod1 h * 60 == 60 * (h - inject_Z H) - 60).
    { unfold mod1. rewrite (trunc_neg_fraction Hneg Hn). fold H.
      rewrite inject_Z_plus. zq. ring. }
    set (g := h - inject_Z H) in *.
    set (M := Qfloor (60 * g)).
    pose proof (Qfloor_le (60 * g)) as G1.
    pose proof (Qlt_floor (60 * g)) as G2.
    rewrite inject_Z_plus in G2. zq. fold M in G1, G2.
    assert (EM : Qfloor (mod1 h * 60) = (M - 60)%Z).
    { rewrite (Qfloor_comp _ _ Em).
      assert (Ex : 60 * g - 60 == 60 * g + inject_Z (-60))
        by (zlit; ring).
      rewrite (Qfloor_comp _ _ Ex), Qfloor_plus_Z. fold M. lia. }
    rewrite EM.
    assert (ET : Qfloor (3600 * h)
                 = (3600 * H + Qfloor (3600 * g))%Z).
    { assert (Ex : 3600 * h == 3600 * g + inject_Z (3600 * H)).
      { unfold g. rewrite inject_Z_mult. zlit. ring. }
      rewrite (Qfloor_comp _ _ Ex), Qfloor_plus_Z. lia. }
    rewrite ET.
    destruct (Qeq_dec (60 * g) (inject_Z M)) as [Ew | Ew].
    + left.
      assert (E1 : mod1 h * 60 == inject_Z (M - 60)).
      { rewrite Em, Ew. unfold Z.sub. rewrite inject_Z_plus, inject_Z_opp.
        zlit. ring. }
      assert (E2 : mod1 (mod1 h * 60) * 60 == inject_Z 0).
      { rewrite (mod1_Z E1). zq. ring. }
      rewrite (Qfloor_comp _ _ E2), Qfloor_Z.
      assert (E3 : 3600 * g == inject_Z (60 * M)).
      { rewrite inject_Z_mult, <- Ew. zlit. ring. }
      rewrite (Qfloor_comp _ _ E3), Qfloor_Z. lia.
    + right.
      assert (Mneg : mod1 h * 60 < 0) by (rewrite Em; unfold g; lra).
      assert (Mfrac : ~ mod1 h * 60 == inject_Z (Qfloor (mod1 h * 60))).
      { rewrite EM, Em. intros K. apply Ew.
        unfold Z.sub in K. rewrite inject_Z_plus, inject_Z_opp in K.
        revert K. zlit. intros K. lra. }
      assert (Es : mod1 (mod1 h * 60) * 60
                   == 60 * (60 * g - inject_Z M) + inject_Z (-60)).
      { unfold mod1 at 1. rewrite (trunc_neg_fraction Mneg Mfrac), EM, Em.
        unfold Z.sub. rewrite !inject_Z_plus, inject_Z_opp. zlit. ring. }
      rewrite (Qfloor_comp _ _ Es), Qfloor_plus_Z.
      assert (E3 : 3600 * g
                   == 60 * (60 * g - inject_Z M) + inject_Z (60 * M)).
      { rewrite inject_Z_mult. zlit. ring. }
      rewrite (Qfloor_comp _ _ E3), Qfloor_plus_Z. lia.
Qed.


End HourFacts.

Section HourClaims.
Import JS Time Precision Calculator.
Local Open Scope Q_scope.


Section WithHost.
Variable host : Host.

(** X19.  [calculateHanafiAsr] converts the hours of the Hanafi Asr with
    a splitting of its own.  From zero hours on, 24 and more included, it
    agrees with [createUTCDateFromHours]: the last whole second at or
    before the hour count.  Below zero it agrees on whole hours only, and
    is otherwise an hour, or an hour and a minute, earlier.  NaN gives an
    invalid date. *)
Theorem calculateHanafiAsr_conversion
    (coordinates : Coordinates) (date : Z) :
  match afternoon (newSolarTime host date coordinates) 2 with
  | None => calculateHanafiAsr host coordinates date = InvalidDate
  | Some h =>
      exists r r',
        calculateHanafiAsr host coordinates date = Some r
        /\ createUTCDateFromHours (Some h) date = Some r'
        /\ (0 <= h \/ h == inject_Z (Qfloor h) -> r = r')
        /\ (h < 0 -> ~ h == inject_Z (Qfloor h) ->
            r = (r' - 3600000)%Z \/ r = (r' - 3660000)%Z)
  end.
Proof.
  unfold calculateHanafiAsr. cbv zeta.
  destruct (afternoon (newSolarTime host date coordinates) 2) as [h|];
    [|reflexivity].
  eexists. eexists. split; [reflexivity|].
  split; [apply createUTCDateFromHours_closed|].
  unfold setUTCHours, msPerHour, msPerMinute, msPerSecond.
  split.
  - intros [Hpos | Hwhole].
    + pose proof (split_hms Hpos) as S. lia.
    + destruct (Qlt_le_dec h 0) as [Hneg | Hpos].
      * destruct (split_hms_negative Hneg) as [S _].
        specialize (S Hwhole). lia.
      * pose proof (split_hms Hpos) as S. lia.
  - intros Hneg Hfrac.
    destruct (split_hms_negative Hneg) as [_ S].
    destruct (S Hfrac) as [S' | S']; [left | right]; lia.
Qed.

(** X20.  Under the Hanafi school the Asr that [calculatePrayerTimes]
    returns is the instant of [calculateHanafiAsr] with the user
    adjustment alone: it replaces the Asr of the engine after the
    rounding, so it is not rounded to the minute and does not receive
    the method's own adjustment. *)
Theorem hanafi_asr_only_user_adjusted
    (config : PrayerTimeConfig) (date : Z) (options : CalculationOptions)
    (prepared : Prepared) (raw : PrayerTimes) :
  prepareCalculation host config date options = inr prepared ->
  computeCurrentTimes host (pr_context prepared) = inr raw ->
  NoDup (map fst (effectiveUserAdjustments config options)) ->
  cfg_asrSchool config = Some Hanafi ->
  t_asr (times (calculatePrayerTimes host config (Some date) options))
  = userAdjusted (effectiveUserAdjustments config options) asr
      (calculateHanafiAsr host (cfg_location config) date).
Proof.
  intros Hp Hc Hnd Hs.
  rewrite (calculatePrayerTimes_success host _ _ _ Hp Hc).
  destruct (prepareCalculation_inv host _ _ _ Hp)
    as [base [_ [Ecfg [Ecoord _]]]].
  unfold finishCalculation. cbn [times ir_value].
  fold (polarStage options (pr_coordinates prepared)).
  set (t1 := if polarStage options (pr_coordinates prepared) then _ else _).
  rewrite Ecfg, sanitizeConfig_asrSchool, Hs, Ecoord. cbn [isHanafi].
  set (t2 := setPrayer t1 asr _).
  set (t3 := match cfg_adjustments (Validation.sanitizeConfig config) with
             | Some _ => _ | None => t2 end).
  assert (E4 : (match cfg_timezone (Validation.sanitizeConfig config) with
                | Some tz => if nonEmpty (Some tz)
                             then convertTimesToTimezone t3 tz else t3
                | None => t3
                end) = t3).
  { destruct (cfg_timezone (Validation.sanitizeConfig config)) as [tz|];
      [|reflexivity].
    destruct (nonEmpty (Some tz));
      [apply convertTimesToTimezone_id|reflexivity]. }
  rewrite E4.
  assert (E3 : t3 = applyUserAdjustments t2
                      (effectiveUserAdjustments config options)).
  { unfold t3, effectiveUserAdjustments.
    rewrite sanitizeConfig_adjustments.
    destruct (cfg_adjustments config);
      destruct (orDefault (opt_applyAdjustments options) true); reflexivity. }
  change (t_asr t3) with (getPrayer t3 asr).
  rewrite E3, getPrayer_applyUserAdjustments by (assumption || discriminate).
  unfold t2. rewrite getPrayer_setPrayer_same. reflexivity.
Qed.

End WithHost.

End HourClaims.

(** Damascus on the sample day under the Hanafi school, with a user
    adjustment of two minutes on Asr: 14:30:00 becomes 14:32:00. *)
Lemma hanafi_asr_only_user_adjusted_witness :
  t_asr (times (Calculator.calculatePrayerTimes Samples.summerHost
                  Samples.hanafiConfig (Some Samples.day0)
                  Calculator.noOptions))
  = Samples.at_ 14 32 0.
Proof.
  assert (Hp : Calculator.prepareCalculation Samples.summerHost
                 Samples.hanafiConfig Samples.day0 Calculator.noOptions
               = inr (Samples.damascusPrepared Samples.hanafiConfig))
    by reflexivity.
  assert (Hc : Precision.computeCurrentTimes Samples.summerHost
                 (pr_context (Samples.damascusPrepared Samples.hanafiConfig))
               = inr Samples.summerRaw) by (vm_compute; reflexivity).
  assert (Hnd : NoDup (map fst (effectiveUserAdjustments
                                  Samples.hanafiConfig
                                  Calculator.noOptions))).
  { repeat constructor; simpl; intuition discriminate. }
  rewrite (@hanafi_asr_only_user_adjusted Samples.summerHost
             Samples.hanafiConfig Samples.day0 Calculator.noOptions
             (Samples.damascusPrepared Samples.hanafiConfig)
             Samples.summerRaw Hp Hc Hnd eq_refl).
  vm_compute. reflexivity.
Defined.

(* ================================================================= *)
(** ** The current and the next prayer *)

Section ValidityFacts.
Import JS Precision Calculator.
Variable host : Host.

(** A valid result has no two neighbours out of order. *)
Lemma validateCalculationResults_ordered (t : PrayerTimes)
    (context : CalculationContext) :
  vo_isValid (validateCalculationResults host t context) = true ->
  let ms := fun p => getTime (getPrayer t p) in
  ge (ms fajr) (ms sunrise) = false
  /\ ge (ms sunrise) (ms dhuhr) = false
  /\ ge (ms dhuhr) (ms asr) = false
  /\ ge (ms asr) (ms maghrib) = false
  /\ ge (ms maghrib) (ms isha) = false.
Proof.
  unfold validateCalculationResults. cbv zeta. cbn [vo_isValid getPrayer].
  match goal with
  | |- (List.length (filter isCritical ?l) =? 0)%nat = true -> _ =>
      change ((List.length (filter isCritical l) =? 0)%nat)
        with (noCritical l)
  end.
  rewrite !noCritical_app.
  rewrite !noCritical_pushIf by reflexivity.
  intros H.
  repeat match type of H with
         | _ && _ = true => apply andb_true_iff in H; destruct H as [? H]
         end.
  repeat match goal with
         | K : negb _ = true |- _ => apply negb_true_iff in K
         | K : _ /\ _ |- _ => destruct K
         | K : _ && _ = true |- _ => apply andb_true_iff in K
         end.
  repeat split; assumption.
Qed.

(** What [calculate] returns has passed the validation. *)
Lemma calculate_success_valid (config : PrayerTimeConfig)
    (date : option DateInput) (t : PrayerTimes) :
  Api.calculate host config date = inr t ->
  exists context,
    vo_isValid (validateCalculationResults host t context) = true.
Proof.
  unfold Api.calculate.
  destruct (Api.calculateAttempt host config date) as [e | t0] eqn:A.
  { destruct (includes _ e); discriminate. }
  intros E. injection E as <-.
  unfold Api.calculateAttempt in A.
  destruct (Api.parseDate host date) as [e | d]; [discriminate A|].
  cbn [bind] in A.
  destruct (isValid (calculatePrayerTimes host config (Some d) noOptions))
    eqn:V; cbn [negb] in A; [|discriminate A].
  injection A as <-.
  unfold calculatePrayerTimes in *. cbv zeta in *.
  destruct (calculatePrayerTimesBody host config d noOptions) as [e | r] eqn:B.
  { cbn [isValid] in V. discriminate V. }
  unfold calculatePrayerTimesBody in B.
  destruct (prepareCalculation host config d noOptions) as [e | p];
    [discriminate B|].
  cbn [bind] in B.
  destruct (calculatePrecisePrayerTimes host (pr_context p)) as [e | ir];
    [discriminate B|].
  cbn [bind ret] in B. injection B as <-.
  exists (pr_context p). exact V.
Qed.

End ValidityFacts.

Section CurrentPrayerClaims.
Import JS Calculator CalculatorUtils ApiQueries MathObject.
Variable host : Host.

(** X21.  On a day whose six instants are valid and in order,
    [getCurrentPrayerInfo] names the instants that bracket the current
    time: before Fajr there is no current prayer; between two
    neighbours the earlier one is current, the later one next, and the
    time until it is the difference rounded to the minute; from Isha on
    the current prayer is Isha, the next one Fajr, and the time until it
    is left undefined.  An invalid current time is treated like a time
    after Isha. *)
Theorem getCurrentPrayerInfo_ordered_day
    (times : PrayerTimes) (T : PrayerName -> Z) (n : Z) :
  (forall p, getPrayer times p = Some (T p)) ->
  (T fajr < T sunrise /\ T sunrise < T dhuhr /\ T dhuhr < T asr
   /\ T asr < T maghrib /\ T maghrib < T isha)%Z ->
  let info := getCurrentPrayerInfo host times (Some (Some n)) in
  let minutes := fun p =>
    Some (Some (inject_Z ((T p - n + 30000) / 60000))) in
  ((n < T fajr)%Z ->
   info = {| current := None; next := Some fajr;
             timeUntilNext := minutes fajr |})
  /\ (forall c p,
        In (c, p) [(fajr, sunrise); (sunrise, dhuhr); (dhuhr, asr);
                   (asr, maghrib); (maghrib, isha)] ->
        (T c <= n < T p)%Z ->
        info = {| current := Some c; next := Some p;
                  timeUntilNext := minutes p |})
  /\ ((T isha <= n)%Z ->
      info = {| current := Some isha; next := Some fajr;
                timeUntilNext := None |})
  /\ getCurrentPrayerInfo host times (Some None)
     = {| current := Some isha; next := Some fajr; timeUntilNext := None |}.
Proof.
  intros HT Hord info minutes.
  assert (M : forall p,
             roundN (div (sub (Some (inject_Z (T p))) (Some (inject_Z n)))
                         (Some (1000 * 60)%Q))
             = Some (inject_Z ((T p - n + 30000) / 60000))).
  { intros p. cbn [roundN div sub lift1 lift2]. do 2 f_equal.
    rewrite <- round_minute. apply round_comp.
    unfold Z.sub. rewrite inject_Z_plus, inject_Z_opp. reflexivity. }
  unfold info, minutes, getCurrentPrayerInfo, prayerOrder.
  cbn [findNext]. rewrite !HT. cbn [getTime lt]. rewrite !Qlt_bool_Z, !M.
  split; [|split; [|split]].
  - intros H.
    destruct (Z.ltb_spec n (T fajr)); [reflexivity|lia].
  - intros c p Hin Hn.
    cbn [In] in Hin.
    repeat match goal with
           | K : _ \/ _ |- _ => destruct K as [K | K]
           | K : (_, _) = (_, _) |- _ => injection K as <- <-
           | K : False |- _ => destruct K
           end;
      repeat match goal with
             | |- context [(n <? ?x)%Z] =>
                 destruct (Z.ltb_spec n x); try lia
             end; reflexivity.
  - intros H.
    repeat match goal with
           | |- context [(n <? ?x)%Z] =>
               destruct (Z.ltb_spec n x); try lia
           end; reflexivity.
  - reflexivity.
Qed.

(** X22.  From the Isha of the day on, the calculator's [getNextPrayer]
    answers [null]: the instants that [calculate] returns are in order,
    so none of them is later than the current time, [getCurrentPrayer]
    reports Fajr as next with no time until it, and [getNextPrayer]
    takes that for no next prayer. *)
Theorem getNextPrayer_null_after_isha
    (config : PrayerTimeConfig) (t : Z) (times : PrayerTimes)
    (T : PrayerName -> Z) :
  Api.calculate host config (Some (DateObject (Some t))) = inr times ->
  (forall p, getPrayer times p = Some (T p)) ->
  (T isha <= t)%Z ->
  getCurrentPrayer host config (Some (DateObject (Some t)))
  = inr {| current := Some isha; next := Some fajr; timeUntilNext := None |}
  /\ getNextPrayer host config (Some (DateObject (Some t))) = inr None.
Proof.
  intros Hc HT Hi.
  destruct (calculate_success_valid host _ _ Hc) as [context V].
  pose proof (validateCalculationResults_ordered host _ _ V) as O.
  cbv beta zeta in O. rewrite !HT in O. cbn [getTime ge] in O.
  destruct O as [O1 [O2 [O3 [O4 O5]]]].
  apply Qle_bool_false_iff in O1, O2, O3, O4, O5.
  rewrite <- Zlt_Qlt in O1, O2, O3, O4, O5.
  assert (G : getCurrentPrayer host config (Some (DateObject (Some t)))
              = inr {| current := Some isha; next := Some fajr;
                       timeUntilNext := None |}).
  { unfold getCurrentPrayer.
    change (Api.parseDate host (Some (DateObject (Some t))))
      with (@inr string Z t).
    cbn [bind]. rewrite Hc. cbn [bind ret]. f_equal.
    unfold getCurrentPrayerInfo, prayerOrder.
    cbn [findNext]. rewrite !HT. cbn [getTime lt]. rewrite !Qlt_bool_Z.
    repeat match goal with
           | |- context [(t <? ?x)%Z] =>
               destruct (Z.ltb_spec t x); try lia
           end; reflexivity. }
  split; [exact G|].
  unfold getNextPrayer. rewrite G. reflexivity.
Qed.

End CurrentPrayerClaims.

(** The sample day at 13:00, between its Dhuhr of 12:02 and its Asr of
    16:05: Asr is next, in 185 minutes. *)
Lemma getCurrentPrayerInfo_ordered_day_witness :
  CalculatorUtils.getCurrentPrayerInfo Samples.summerHost Samples.sampleTimes
    (Some (Samples.at_ 13 0 0))
  = {| current := Some dhuhr; next := Some asr;
       timeUntilNext := Some (Some (inject_Z 185)) |}.
Proof.
  pose (T := fun p =>
    match getPrayer Samples.sampleTimes p with Some v => v | None => 0%Z end).
  destruct (@getCurrentPrayerInfo_ordered_day Samples.summerHost
              Samples.sampleTimes T
              (Samples.day0 + 13 * 3600000)%Z)
    as [_ [H _]].
  - intros p. destruct p; reflexivity.
  - vm_compute. repeat split; reflexivity.
  - apply (H dhuhr asr).
    + cbn [In]. tauto.
    + vm_compute. split; [discriminate | reflexivity].
Defined.

(** The summer day at Damascus at 19:00 UTC, after its Isha of 18:30. *)
Lemma getNextPrayer_null_after_isha_witness :
  ApiQueries.getNextPrayer Samples.summerHost
    (Samples.plainConfig MWL Samples.damascus)
    (Some (DateObject (Some (Samples.day0 + 19 * 3600000)%Z)))
  = inr None.
Proof.
  destruct (Api.calculate Samples.summerHost
              (Samples.plainConfig MWL Samples.damascus)
              (Some (DateObject (Some (Samples.day0 + 19 * 3600000)%Z))))
    as [e | times] eqn:Hc; [vm_compute in Hc; discriminate Hc|].
  pose (T := fun p =>
    match getPrayer times p with Some v => v | None => 0%Z end).
  apply (@getNextPrayer_null_after_isha Samples.summerHost
           (Samples.plainConfig MWL Samples.damascus)
           (Samples.day0 + 19 * 3600000)%Z times T Hc).
  - vm_compute in Hc. injection Hc as <-. intros p. destruct p; reflexivity.
  - vm_compute in Hc. injection Hc as <-. vm_compute. discriminate.
Defined.

(* ================================================================= *)
(** ** Invalid dates in the validation *)

Section NaNFacts.
Import JS.

Lemma sub_NaN_l (x : number) : sub NaN x = NaN.
Proof. reflexivity. Qed.

Lemma sub_NaN_r (x : number) : sub x NaN = NaN.
Proof. destruct x; reflexivity. Qed.

Lemma add_NaN_r (x : number) : add x NaN = NaN.
Proof. destruct x; reflexivity. Qed.

Lemma div_NaN_l (x : number) : div NaN x = NaN.
Proof. reflexivity. Qed.

Lemma lt_NaN_l (x : number) : lt NaN x = false.
Proof. reflexivity. Qed.

Lemma lt_NaN_r (x : number) : lt x NaN = false.
Proof. destruct x; reflexivity. Qed.

Lemma ge_NaN_l (x : number) : ge NaN x = false.
Proof. reflexivity. Qed.

Lemma ge_NaN_r (x : number) : ge x NaN = false.
Proof. destruct x; reflexivity. Qed.

End NaNFacts.

Ltac ret_NaN :=
  let E := fresh "E" in
  cbv [ret JS.NaN]; intros E; injection E as <-; reflexivity.

Ltac nan_away :=
  unfold JS.gt;
  rewrite ?sub_NaN_l, ?sub_NaN_r, ?div_NaN_l, ?lt_NaN_l, ?lt_NaN_r,
    ?ge_NaN_l, ?ge_NaN_r.

Section InvalidDateFacts.
Import JS Time Precision Calculator.

Lemma noCritical_incl (l l' : list string) :
  (forall msg, In msg l' -> In msg l) ->
  noCritical l = true -> noCritical l' = true.
Proof.
  unfold noCritical. intros Hin H.
  apply Nat.eqb_eq in H. apply Nat.eqb_eq.
  apply length_zero_iff_nil in H. apply length_zero_iff_nil.
  destruct (filter isCritical l') as [|x rest] eqn:E; [reflexivity|].
  exfalso.
  assert (Hx : In x (filter isCritical l')) by (rewrite E; left; reflexivity).
  apply filter_In in Hx. destruct Hx as [Hx Hc].
  assert (Hx' : In x (filter isCritical l)).
  { apply filter_In. split; [apply Hin; exact Hx | exact Hc]. }
  rewrite H in Hx'. exact Hx'.
Qed.

(** A user adjustment leaves an invalid date invalid. *)
Lemma applyUserAdjustments_invalid (adj : Adjustments) :
  forall (t : PrayerTimes) (p : PrayerName),
    getPrayer t p = None -> getPrayer (applyUserAdjustments t adj) p = None.
Proof.
  unfold applyUserAdjustments.
  induction adj as [|[k v] rest IH]; cbn [fold_left]; intros t p H;
    [exact H|].
  apply IH. unfold applyUserAdjustment.
  destruct (negb (PrayerName_eqb k sunrise)); [|exact H].
  destruct (PrayerName_eqb k p) eqn:E.
  - apply PrayerName_eqb_spec in E. subst k.
    rewrite getPrayer_setPrayer_same, H. reflexivity.
  - apply PrayerName_eqb_false in E.
    rewrite getPrayer_setPrayer_other by exact E. exact H.
Qed.

End InvalidDateFacts.

Section InvalidDateClaims.
Import JS Time Methods Precision Calculator.
Variable host : Host.

(** X23.  [validateCalculationResults] never objects to an invalid date:
    making any of the six instants invalid raises no new issue and keeps
    a valid result valid, since every comparison with NaN is false; a
    result whose six instants are all invalid has no issue at all and is
    valid. *)
Theorem validation_passes_invalid_dates
    (t : PrayerTimes) (context : CalculationContext) (p : PrayerName) :
  let r := validateCalculationResults host t context in
  let r' :=
    validateCalculationResults host (setPrayer t p InvalidDate) context in
  (forall msg, In msg (vo_issues r') -> In msg (vo_issues r))
  /\ (vo_isValid r = true -> vo_isValid r' = true)
  /\ ((forall q, getPrayer t q = InvalidDate) ->
      vo_issues r = [] /\ vo_isValid r = true).
Proof.
  intros r r'.
  assert (A : forall msg, In msg (vo_issues r') -> In msg (vo_issues r)).
  { unfold r, r', validateCalculationResults. cbv zeta. cbn [vo_issues].
    destruct (Qle_bool 60 (Qabs (latitude (ctx_coordinates context)))),
      (Qle_bool 48 (Qabs (latitude (ctx_coordinates context)))),
      (Qlt_bool 60 (Qabs (latitude (ctx_coordinates context))));
      destruct p; cbn [setPrayer t_fajr t_sunrise t_dhuhr t_asr t_sunset
                       t_maghrib t_isha InvalidDate getTime];
      nan_away; cbn [pushIf orb];
      intros msg H; rewrite ?in_app_iff in *; cbn [In] in H; tauto. }
  split; [exact A|]. split.
  - unfold r, r', validateCalculationResults in *. cbv zeta in *.
    cbn [vo_isValid vo_issues] in *.
    apply noCritical_incl. exact A.
  - intros Hall.
    pose proof (Hall fajr) as H1. pose proof (Hall sunrise) as H2.
    pose proof (Hall dhuhr) as H3. pose proof (Hall asr) as H4.
    pose proof (Hall maghrib) as H5. pose proof (Hall isha) as H6.
    cbn [getPrayer] in *.
    unfold r, validateCalculationResults. cbv zeta.
    cbn [vo_isValid vo_issues].
    rewrite H1, H2, H3, H4, H5, H6. unfold InvalidDate.
    cbn [getTime]. nan_away. cbn [pushIf orb app].
    destruct (Qle_bool 60 (Qabs (latitude (ctx_coordinates context)))),
      (Qle_bool 48 (Qabs (latitude (ctx_coordinates context)))),
      (Qlt_bool 60 (Qabs (latitude (ctx_coordinates context))));
      split; reflexivity.
Qed.

(** X24.  On a day without sunrise and sunset, when the solver returns
    NaN for both, for every hour angle and for the afternoon,
    [calculatePrayerTimes] reports a valid result in which every instant
    but Dhuhr is an invalid date; the high-latitude stage does not
    repair them, because it counts from the sunrise and the sunset, and
    the only warnings are those of the polar check. *)
Theorem sunless_day_reported_valid
    (config : PrayerTimeConfig) (date : Z) (options : CalculationOptions)
    (prepared : Prepared) (raw : PrayerTimes) :
  prepareCalculation host config date options = inr prepared ->
  computeCurrentTimes host (pr_context prepared) = inr raw ->
  sunriseHours (newSolarTime host date (cfg_location config)) = NaN ->
  sunsetHours (newSolarTime host date (cfg_location config)) = NaN ->
  (forall a b, hourAngle (newSolarTime host date (cfg_location config)) a b
               = NaN) ->
  (forall s, afternoon (newSolarTime host date (cfg_location config)) s
             = NaN) ->
  let result := calculatePrayerTimes host config (Some date) options in
  isValid result = true
  /\ warnings result = pr_warnings prepared
  /\ t_sunset (times result) = InvalidDate
  /\ forall p, p <> dhuhr -> getPrayer (times result) p = InvalidDate.
Proof.
  intros Hp Hc Hsr Hss Hha Haf result.
  destruct (prepareCalculation_inv host _ _ _ Hp)
    as [base [_ [Ecfg [Ecoord Ectx]]]].
  assert (Edate : ctx_date (pr_context prepared) = date)
    by (rewrite Ectx; reflexivity).
  assert (Eloc : ctx_coordinates (pr_context prepared) = cfg_location config)
    by (rewrite Ectx; reflexivity).
  (* the instants of the engine *)
  assert (Raw : t_sunset raw = None
                /\ forall p, p <> dhuhr -> getPrayer raw p = None).
  { unfold computeCurrentTimes in Hc. cbv zeta in Hc.
    rewrite Edate, Eloc in Hc.
    set (solar := newSolarTime host date (cfg_location config)) in *.
    assert (Em : forall mt,
               calculateMaghribTime host solar
                 (ctx_methodParams (pr_context prepared))
                 (pr_context prepared) = inr mt -> mt = None).
    { unfold calculateMaghribTime. intros mt.
      destruct (mp_maghrib _) as [m|]; [|rewrite Hss; ret_NaN].
      destruct (falsy (Some m)); [rewrite Hss; ret_NaN|].
      destruct (Methods.parseAngleOrInterval host m) as [e|parsed];
        [discriminate|].
      cbn [bind]. rewrite Hss.
      destruct (p_type parsed); [destruct (p_value parsed)|];
        rewrite ?Hha; cbn [add lift2]; ret_NaN. }
    assert (Ei : forall it,
               calculateIshaTime host solar
                 (ctx_methodParams (pr_context prepared))
                 (pr_context prepared) None = inr it -> it = None).
    { unfold calculateIshaTime, getSafeIshaTime. intros it.
      destruct (Methods.parseAngleOrInterval host _) as [e|parsed];
        [discriminate|].
      cbn [bind]. cbv zeta. rewrite Hss.
      unfold Astronomical.seasonAdjustedEveningTwilight.
      destruct (p_type parsed); [destruct (p_value parsed)|];
        rewrite ?Hha;
        destruct (isMoonsightingCode _ && Qle_bool 55 _);
        destruct (isMoonsightingCode _);
        try (destruct (Astronomical.eveningCoefficients _ _)
               as [[[ca cb] cc] cd]; cbv zeta);
        cbn [addSeconds getTime add sub div lift2 newDate hoursSince isNaN
             orb];
        ret_NaN. }
    rewrite Hsr, Hss in Hc.
    destruct (calculateMaghribTime host solar _ _) as [e|mt] eqn:M;
      [discriminate Hc|].
    cbn [bind] in Hc. pose proof (Em mt eq_refl) as Emt. subst mt.
    change (createUTCDateFromHours NaN date) with (@None Z) in Hc.
    destruct (calculateIshaTime host solar _ _ None) as [e|it] eqn:I;
      [discriminate Hc|].
    cbn [bind ret] in Hc. pose proof (Ei it eq_refl) as Eit. subst it.
    injection Hc as <-. cbn [t_sunset]. split; [reflexivity|].
    intros p Hne. destruct p; cbn [getPrayer t_fajr t_sunrise t_asr
                                   t_maghrib t_isha];
      try reflexivity; try congruence.
    - unfold calculateFajrTime, getSafeFajrTime. cbv zeta.
      rewrite Hha.
      unfold Astronomical.seasonAdjustedMorningTwilight. cbv zeta.
      destruct (isMoonsightingCode _ && Qle_bool 55 _);
        destruct (isMoonsightingCode _);
        cbn [addSeconds getTime add sub div lift2 newDate hoursSince isNaN
             orb]; reflexivity.
    - rewrite Haf. reflexivity. }
  destruct Raw as [Rss Rp].
  unfold result. rewrite (calculatePrayerTimes_success host _ _ _ Hp Hc).
  set (t0 := roundTimes (applyMethodAdjustments _ raw)).
  assert (T0 : t_sunset t0 = None
               /\ forall p, p <> dhuhr -> getPrayer t0 p = None).
  { split.
    - unfold t0, applyMethodAdjustments.
      destruct (mp_adjustments _); cbn [roundTimes t_sunset]; rewrite Rss;
        reflexivity.
    - intros p Hne. unfold t0.
      rewrite getPrayer_roundTimes, getPrayer_applyMethodAdjustments.
      rewrite (Rp p Hne). unfold methodAdjusted, adjustIfSet.
      destruct (mp_adjustments _) as [adj|]; [|reflexivity].
      destruct (lookup p adj) as [[q|]|]; try reflexivity.
      destruct (Qeq_bool q 0); reflexivity. }
  destruct T0 as [Tss Tp].
  unfold finishCalculation. cbn [times isValid warnings ir_value ir_converged].
  fold (polarStage options (pr_coordinates prepared)).
  set (t1 := if polarStage options (pr_coordinates prepared) then _ else t0).
  assert (T1 : t_sunset t1 = None
               /\ forall p, p <> dhuhr -> getPrayer t1 p = None).
  { unfold t1. destruct (polarStage _ _); [|split; assumption].
    pose proof (Tp fajr ltac:(discriminate)) as F.
    pose proof (Tp sunrise ltac:(discriminate)) as S.
    pose proof (Tp asr ltac:(discriminate)) as A.
    pose proof (Tp maghrib ltac:(discriminate)) as M.
    pose proof (Tp isha ltac:(discriminate)) as I.
    cbn [getPrayer] in F, S, A, M, I.
    unfold applyHighLatitudeAdjustments, Polar.getSafePrayerTimes.
    cbv zeta.
    cbn [Polar.si_fajr Polar.si_sunrise Polar.si_sunset Polar.si_isha
         Polar.si_maghrib Polar.st_fajr Polar.st_isha Polar.st_maghrib
         t_sunset].
    rewrite F, S, A, M, I, Tss.
    split; [reflexivity|].
    intros p Hne.
    destruct p; cbn [getPrayer t_fajr t_sunrise t_asr t_maghrib t_isha];
      try reflexivity; try congruence.
    - destruct (Polar.requiresPolarAdjustment _ && _); reflexivity.
    - destruct (Polar.requiresPolarAdjustment _ && _ && _); reflexivity. }
  destruct T1 as [T1ss T1p].
  set (t2 := if isHanafi _ then _ else t1).
  assert (T2 : t_sunset t2 = None
               /\ forall p, p <> dhuhr -> getPrayer t2 p = None).
  { unfold t2. destruct (isHanafi _); [|split; assumption].
    split; [rewrite t_sunset_setPrayer; exact T1ss|].
    intros p Hne. destruct (PrayerName_eqb asr p) eqn:E.
    - apply PrayerName_eqb_spec in E. subst p.
      rewrite getPrayer_setPrayer_same.
      unfold calculateHanafiAsr. cbv zeta. rewrite Ecoord, Haf. reflexivity.
    - apply PrayerName_eqb_false in E.
      rewrite getPrayer_setPrayer_other by exact E. apply T1p. exact Hne. }
  destruct T2 as [T2ss T2p].
  set (t3 := match cfg_adjustments (pr_config prepared) with
             | Some _ => _ | None => t2 end).
  assert (T3 : t_sunset t3 = None
               /\ forall p, p <> dhuhr -> getPrayer t3 p = None).
  { unfold t3. destruct (cfg_adjustments _) as [adj|]; [|split; assumption].
    destruct (orDefault _ true); [|split; assumption].
    split.
    - rewrite applyUserAdjustments_sunset. exact T2ss.
    - intros p Hne. apply applyUserAdjustments_invalid. apply T2p. exact Hne. }
  destruct T3 as [T3ss T3p].
  assert (E4 : (match cfg_timezone (pr_config prepared) with
                | Some tz => if nonEmpty (Some tz)
                             then convertTimesToTimezone t3 tz else t3
                | None => t3
                end) = t3).
  { destruct (cfg_timezone (pr_config prepared)) as [tz|]; [|reflexivity].
    destruct (nonEmpty (Some tz));
      [apply convertTimesToTimezone_id|reflexivity]. }
  rewrite E4.
  pose proof (T3p fajr ltac:(discriminate)) as F.
  pose proof (T3p sunrise ltac:(discriminate)) as S.
  pose proof (T3p asr ltac:(discriminate)) as A.
  pose proof (T3p maghrib ltac:(discriminate)) as M.
  pose proof (T3p isha ltac:(discriminate)) as I.
  cbn [getPrayer] in F, S, A, M, I.
  assert (V : validateCalculationResults host t3 (pr_context prepared)
              = {| vo_isValid := true; vo_issues := [] |}).
  { unfold validateCalculationResults. cbv zeta.
    rewrite F, S, A, M, I. cbn [getTime]. nan_away. cbn [pushIf orb app].
    set (lat := Qabs (latitude (ctx_coordinates (pr_context prepared)))).
    destruct (Qle_bool 60 lat), (Qle_bool 48 lat), (Qlt_bool 60 lat);
      reflexivity. }
  rewrite V. cbn [vo_isValid vo_issues negb].
  split; [reflexivity|]. split; [rewrite !app_nil_r; reflexivity|].
  split; assumption.
Qed.

End InvalidDateClaims.

(** Tromso on the winter solstice under the MWL method: a valid result
    with Dhuhr at 10:43 (the transit of 10:42 and the minute the method
    adds) and no other instant. *)
Lemma sunless_day_reported_valid_witness :
  let result :=
    Calculator.calculatePrayerTimes Samples.sunlessHost
      (Samples.plainConfig MWL Samples.tromso) (Some Samples.winterDay)
      Calculator.noOptions in
  isValid result = true
  /\ warnings result
     = ["Polar region detected: Sun never rises (polar night)"%string]
  /\ t_fajr (times result) = JS.InvalidDate
  /\ t_dhuhr (times result) = Some (Samples.onWinterDay 10 43 0).
Proof.
  destruct (Calculator.prepareCalculation Samples.sunlessHost
              (Samples.plainConfig MWL Samples.tromso) Samples.winterDay
              Calculator.noOptions) as [e | prepared] eqn:Hp;
    [vm_compute in Hp; discriminate Hp|].
  destruct (Precision.computeCurrentTimes Samples.sunlessHost
              (pr_context prepared)) as [e | raw] eqn:Hc.
  { vm_compute in Hp. injection Hp as <-. vm_compute in Hc. discriminate Hc. }
  destruct (@sunless_day_reported_valid Samples.sunlessHost
              (Samples.plainConfig MWL Samples.tromso) Samples.winterDay
              Calculator.noOptions prepared raw Hp Hc eq_refl eq_refl
              (fun _ _ => eq_refl) (fun _ => eq_refl))
    as [V [W [_ I]]].
  intros result. split; [exact V|]. split; [|split].
  - unfold result. rewrite W. vm_compute in Hp. injection Hp as <-.
    reflexivity.
  - apply (I fajr). discriminate.
  - vm_compute. reflexivity.
Defined.

(* ================================================================= *)
(** ** Configurations: validation, sanitization, fallback *)

Section ConfigFacts.
Import JS Time Methods Validation Calculator.
Local Open Scope string_scope.











(** The clock times of the fallback. *)
Lemma addMinutes_whole (t m : Z) :
  addMinutes (Some t) (Some (inject_Z m)) = Some (t + m * 60000)%Z.
Proof.
  apply addMinutes_exact. rewrite inject_Z_mult. zlit. ring.
Qed.

End ConfigFacts.

Section ConfigClaims.
Import JS Time Methods Validation Calculator.
Local Open Scope string_scope.
Variable host : Host.

(** X25.  A configuration that the validation rejects makes
    [calculatePrayerTimes] neither throw nor compute: it returns an
    invalid result with the one warning that lists the validation
    errors, and the fallback times 05:00, 06:00, 12:00, 15:00, 18:00,
    18:05 and 19:30 of the day of the date, whatever the place and the
    method. *)
Theorem rejected_configuration_falls_back
    (config : PrayerTimeConfig) (date : Z) (options : CalculationOptions) :
  orDefault (opt_validateInput options) true = true ->
  vr_isValid (validateConfig host config) = false ->
  let result := calculatePrayerTimes host config (Some date) options in
  let clock := fun h m =>
    Some (utcMidnight date + h * 3600000 + m * 60000)%Z in
  isValid result = false
  /\ warnings result
     = ["Calculation failed: Configuration validation failed: "
        ++ join ", " (map ve_message (vr_errors (validateConfig host config)))]
  /\ times result
     = {| t_fajr := clock 5 0; t_sunrise := clock 6 0; t_dhuhr := clock 12 0;
          t_asr := clock 15 0; t_sunset := clock 18 0;
          t_maghrib := clock 18 5; t_isha := clock 19 30 |}%Z.
Proof.
  intros Hv Hr result clock.
  unfold result, calculatePrayerTimes, calculatePrayerTimesBody,
    prepareCalculation. cbv zeta.
  rewrite Hv, Hr. cbn [negb bind throw isValid warnings times].
  split; [reflexivity|]. split; [reflexivity|].
  unfold createFallbackTimes, clock. cbv zeta.
  change (Some (5 * 60)%Q) with (Some (inject_Z 300)).
  change (Some (6 * 60)%Q) with (Some (inject_Z 360)).
  change (Some (12 * 60)%Q) with (Some (inject_Z 720)).
  change (Some (15 * 60)%Q) with (Some (inject_Z 900)).
  change (Some (18 * 60)%Q) with (Some (inject_Z 1080)).
  change (Some (18 * 60 + 5)%Q) with (Some (inject_Z 1085)).
  change (Some (19 * 60 + 30)%Q) with (Some (inject_Z 1170)).
  rewrite !addMinutes_whole.
  f_equal; f_equal; lia.
Qed.


End ConfigClaims.

(** The method code JAKIMKN at Damascus: no entry in the registry, so
    the fallback times with one warning. *)
Lemma rejected_configuration_falls_back_witness :
  let result :=
    Calculator.calculatePrayerTimes Samples.summerHost Samples.kelantanConfig
      (Some Samples.day0) Calculator.noOptions in
  isValid result = false
  /\ warnings result
     = ["Calculation failed: Configuration validation failed: "
        ++ "Invalid calculation method: JAKIMKN"]%string
  /\ t_fajr (times result) = Samples.at_ 5 0 0.
Proof.
  destruct (@rejected_configuration_falls_back Samples.summerHost
              Samples.kelantanConfig Samples.day0 Calculator.noOptions
              eq_refl eq_refl) as [V [W T]].
  intros result. split; [exact V|]. split.
  - unfold result. rewrite W. reflexivity.
  - unfold result. rewrite T. reflexivity.
Defined.


(* ================================================================= *)
(** ** The registry and the suggestions *)

Section RegistryFacts.
Import JS Methods MethodUtils CoordinateUtils Geographic.

(** The method of the first matching region is a method of the table. *)
Lemma firstRegion_method (c : Coordinates)
    (entries : list (string * (CoordinateBounds * MethodCode))) :
  forall name method,
    firstRegion c entries = Some (name, method) ->
    In method (map (fun e => snd (snd e)) entries).
Proof.
  induction entries as [|[n [b m]] rest IH]; intros name method H;
    cbn [firstRegion] in H; [discriminate|].
  destruct (isWithinBounds c b).
  - injection H as <- <-. left. reflexivity.
  - right. apply (IH name). exact H.
Qed.

End RegistryFacts.

Section RegistryClaims.
Import JS Methods MethodUtils CoordinateUtils Geographic.
Variable host : Host.

(** X27.  The registry holds every method code of the type but JAKIMKN.
    Each entry passes [validateMethodParams] without an error, and every
    method that [suggestMethod] recommends or lists as an alternative,
    and every regional method, has an entry. *)
Theorem registry_is_coherent :
  (forall m, isValidMethod m = false <-> m = JAKIMKN)
  /\ (forall m params,
        CALCULATION_METHODS m = Some params ->
        validateMethodParams host params
        = {| mv_isValid := true; mv_errors := [] |})
  /\ (forall c,
        isValidMethod (recommended (suggestMethod c)) = true
        /\ forallb isValidMethod (alternatives (suggestMethod c)) = true
        /\ forallb isValidMethod (getRegionalMethods c) = true).
Proof.
  split; [|split].
  - intros m. split.
    + destruct m; intros H; try discriminate H; reflexivity.
    + intros ->. reflexivity.
  - intros m params H.
    destruct m; cbn [CALCULATION_METHODS] in H; try discriminate H;
      injection H as <-; vm_compute; reflexivity.
  - intros c. unfold suggestMethod, getRegionalMethods, getRegionalPreference.
    destruct (firstRegion c SPECIFIC_REGIONS) as [[name method]|] eqn:F.
    + apply firstRegion_method in F. cbn [recommended alternatives].
      split; [|split].
      * cbn [SPECIFIC_REGIONS map snd In] in F.
        repeat match goal with
               | K : _ \/ _ |- _ => destruct K as [K | K]
               | K : _ = method |- _ => rewrite <- K; reflexivity
               | K : False |- _ => destruct K
               end.
      * destruct (getRegion c); reflexivity.
      * destruct (getRegion c); reflexivity.
    + cbn [recommended alternatives].
      destruct (getRegion c); repeat split; reflexivity.
Qed.

End RegistryClaims.

(* ================================================================= *)
(** ** Compass points *)

Section CompassClaims.
Import JS CoordinateUtils.
Local Open Scope Q_scope.

(** X28.  [getCardinalDirection] names a compass point for every bearing
    from -11.25 degrees on: the point number [round(bearing / 22.5)]
    modulo 16.  Below -11.25 degrees the index is negative and the
    result undefined, except when the rounded quotient is a multiple of
    16, where it is N. *)
Theorem getCardinalDirection_defined (bearing : Q) :
  let k := round (bearing / 22.5) in
  (-11.25 <= bearing <-> (0 <= k)%Z)
  /\ ((0 <= k)%Z ->
      exists d,
        getCardinalDirection bearing = Some d
        /\ nth_error directions (Z.to_nat (k mod 16)) = Some d)
  /\ ((k < 0)%Z ->
      getCardinalDirection bearing
      = if (Z.rem k 16 =? 0)%Z then Some "N"%string else None).
Proof.
  intros k.
  assert (E : bearing / 22.5 == bearing * (2 # 45)) by field.
  pose proof (round_bounds (bearing / 22.5)) as [R1 R2].
  fold k in R1, R2.
  split; [|split].
  - split.
    + intros H. assert (K : inject_Z (-1) < inject_Z k).
      { change (inject_Z (-1)) with (-1). rewrite E in R1. lra. }
      rewrite <- Zlt_Qlt in K. lia.
    + intros H. assert (K : inject_Z 0 <= inject_Z k)
        by (rewrite <- Zle_Qle; exact H).
      change (inject_Z 0) with 0 in K. rewrite E in R2. lra.
  - intros H. unfold getCardinalDirection. cbv zeta. fold k.
    rewrite Z.rem_mod_nonneg by lia.
    pose proof (Z.mod_pos_bound k 16 ltac:(lia)) as B.
    destruct (Z.ltb_spec (k mod 16) 0) as [L | L]; [lia|].
    destruct (nth_error directions (Z.to_nat (k mod 16))) as [d|] eqn:N.
    + exists d. split; reflexivity.
    + exfalso. apply nth_error_None in N. cbn [directions List.length] in N.
      lia.
  - intros H. unfold getCardinalDirection. cbv zeta. fold k.
    assert (B : (Z.rem k 16 <= 0)%Z)
      by (Z.quot_rem_to_equations; lia).
    destruct (Z.eqb_spec (Z.rem k 16) 0) as [Z0 | Z0].
    + rewrite Z0. reflexivity.
    + destruct (Z.ltb_spec (Z.rem k 16) 0) as [L | L]; [reflexivity | lia].
Qed.

End CompassClaims.

(* ================================================================= *)
(** ** Date ranges *)

Section RangeClaims.
Import JS Calculator CalculatorRange.
Variable host : Host.

Lemma rangeLoop_days (config : PrayerTimeConfig) (e : Z) (n : nat) :
  forall s,
    n = Z.to_nat ((e - s) / msPerDay + 1) ->
    rangeLoop host n config s e
    = map (fun k =>
             let d := (s + Z.of_nat k * msPerDay)%Z in
             let result := calculatePrayerTimes host config (Some d) noOptions in
             {| dr_date := d; dr_times := times result;
                dr_isValid := isValid result |})
          (seq 0 n).
Proof.
  unfold msPerDay.
  induction n as [|n IH]; intros s Hn; [reflexivity|].
  assert (Hle : (s <= e)%Z).
  { destruct (Z.le_gt_cases s e) as [L | L]; [exact L|].
    exfalso.
    assert ((e - s) / 86400000 < 0)%Z
      by (apply Z.div_lt_upper_bound; lia).
    lia. }
  cbn [rangeLoop]. destruct (Z.leb_spec s e) as [_ | L]; [|lia].
  cbn [seq map]. cbv zeta. f_equal.
  - replace (s + Z.of_nat 0 * 86400000)%Z with s by lia. reflexivity.
  - rewrite (IH (nextDay s)).
    + rewrite <- seq_shift, map_map. apply map_ext. intros k.
      unfold nextDay, msPerDay.
      replace (s + 86400000 + Z.of_nat k * 86400000)%Z
        with (s + Z.of_nat (S k) * 86400000)%Z by lia.
      reflexivity.
    + unfold nextDay, msPerDay.
      replace (e - (s + 86400000))%Z with (e - s + (-1) * 86400000)%Z by lia.
      rewrite Z.div_add by lia. lia.
Qed.

(** X29.  [calculatePrayerTimesRange] returns one entry for the start
    date and for each later date a whole number of days after it that is
    not after the end date, in this order, each with the times and the
    validity that [calculatePrayerTimes] gives for that date; the range
    is empty when the end lies before the start or when either date is
    invalid. *)
Theorem calculatePrayerTimesRange_days
    (config : PrayerTimeConfig) (s e : Z) :
  let n := Z.to_nat ((e - s) / 86400000 + 1) in
  calculatePrayerTimesRange host config (Some s) (Some e)
  = map (fun k =>
           let d := (s + Z.of_nat k * 86400000)%Z in
           let result := calculatePrayerTimes host config (Some d) noOptions in
           {| dr_date := d; dr_times := times result;
              dr_isValid := isValid result |})
        (seq 0 n)
  /\ ((e < s)%Z -> n = O)
  /\ ((s <= e)%Z ->
      (s + Z.of_nat (n - 1) * 86400000 <= e
       < s + Z.of_nat n * 86400000)%Z)
  /\ calculatePrayerTimesRange host config InvalidDate (Some e) = []
  /\ calculatePrayerTimesRange host config (Some s) InvalidDate = [].
Proof.
  intros n. split; [|split; [|split; [|split]]].
  - unfold calculatePrayerTimesRange, rangeFuel.
    rewrite (@rangeLoop_days config e _ s eq_refl). reflexivity.
  - intros H. unfold n.
    assert ((e - s) / 86400000 < 0)%Z by (apply Z.div_lt_upper_bound; lia).
    lia.
  - intros H. unfold n.
    pose proof (Z.div_mod (e - s) 86400000 ltac:(lia)) as D.
    pose proof (Z.mod_pos_bound (e - s) 86400000 ltac:(lia)) as B.
    assert (0 <= (e - s) / 86400000)%Z by (apply Z.div_pos; lia).
    lia.
  - reflexivity.
  - reflexivity.
Qed.

End RangeClaims.

(* ================================================================= *)
(** ** The middle of the night *)

Section NightMiddleClaims.
Import JS Time Polar.
Local Open Scope Q_scope.

(** X30.  Under the rule of the middle of the night, at 48 degrees or
    more, [getSafePrayerTimes] puts a missing Fajr and a missing Isha at
    the middle between sunset and sunrise, twelve hours before and
    twelve hours after: the two are exactly a day apart.  Valid instants
    are returned as they are. *)
Theorem getSafePrayerTimes_night_middle
    (input : SafeInput) (lat : Q) (date : Z) (angles : SafeAngles)
    (sr ss : Z) :
  requiresPolarAdjustment lat = true ->
  truthy (sa_isha angles) = true ->
  si_sunrise input = Some sr -> si_sunset input = Some ss ->
  (86400000 <= sr + ss)%Z ->
  let safe := getSafePrayerTimes input lat date angles NightMiddle in
  (si_fajr input = InvalidDate ->
   st_fajr safe = Some ((sr + ss - 86400000) / 2)%Z)
  /\ (si_isha input = InvalidDate ->
      st_isha safe = Some ((sr + ss + 86400000) / 2)%Z)
  /\ (forall f, si_fajr input = Some f -> st_fajr safe = Some f)
  /\ (forall i, si_isha input = Some i -> st_isha safe = Some i).
Proof.
  intros Hlat Hisha Hsr Hss Hpos safe.
  unfold safe, getSafePrayerTimes. cbv zeta.
  cbn [st_fajr st_isha]. rewrite Hlat, Hisha, Hsr, Hss. cbn [isRuleNone negb andb].
  assert (Half : forall x : Z, (0 <= x)%Z ->
                   trunc (inject_Z x / 2) = (x / 2)%Z).
  { intros x Hx.
    change 2 with (inject_Z 2). rewrite trunc_nonneg.
    - change (inject_Z 2) with (2 # 1). apply Qfloor_Zdiv.
    - change (inject_Z 2) with 2.
      assert (inject_Z 0 <= inject_Z x) by (rewrite <- Zle_Qle; exact Hx).
      assert (E : inject_Z x / 2 == inject_Z x * (1 # 2)) by field.
      rewrite E. change (inject_Z 0) with 0 in *. lra. }
  split; [|split; [|split]].
  - intros ->. unfold InvalidDate, applyHighLatitudeRule,
      calculateNightLength, nextDay, msPerDay.
    cbn [pa_night pa_angle pa_direction getAdjustmentPortion getTime sub div
         mul lift2 addSeconds add newDate].
    f_equal. rewrite <- Half by lia. apply trunc_comp.
    unfold Z.sub. rewrite !inject_Z_plus, inject_Z_opp. zlit. field.
  - intros ->. unfold InvalidDate, applyHighLatitudeRule,
      calculateNightLength, nextDay, msPerDay.
    cbn [pa_night pa_angle pa_direction getAdjustmentPortion getTime sub div
         mul lift2 addSeconds add newDate].
    f_equal. rewrite <- Half by lia. apply trunc_comp.
    rewrite !inject_Z_plus. zlit. field.
  - intros f ->. reflexivity.
  - intros i ->. reflexivity.
Qed.

End NightMiddleClaims.

(** A day in June at 60 degrees north: sunrise 01:00, sunset 21:00, so
    the middle of the night at 23:00. *)
Lemma getSafePrayerTimes_night_middle_witness :
  Polar.st_isha
    (Polar.getSafePrayerTimes
       {| Polar.si_fajr := None; Polar.si_sunrise := Samples.at_ 1 0 0;
          Polar.si_sunset := Samples.at_ 21 0 0; Polar.si_isha := None;
          Polar.si_maghrib := Samples.at_ 21 0 0 |}
       60 Samples.day0
       {| Polar.sa_fajr := 18; Polar.sa_isha := Some 17%Q;
          Polar.sa_maghrib := None |}
       NightMiddle)
  = Samples.at_ 23 0 0.
Proof.
  destruct (@getSafePrayerTimes_night_middle
              {| Polar.si_fajr := None; Polar.si_sunrise := Samples.at_ 1 0 0;
                 Polar.si_sunset := Samples.at_ 21 0 0; Polar.si_isha := None;
                 Polar.si_maghrib := Samples.at_ 21 0 0 |}
              60 Samples.day0
              {| Polar.sa_fajr := 18; Polar.sa_isha := Some 17%Q;
                 Polar.sa_maghrib := None |}
              (Samples.day0 + 3600000) (Samples.day0 + 75600000)
              eq_refl eq_refl eq_refl eq_refl)
    as [_ [H _]].
  - vm_compute. discriminate.
  - rewrite (H eq_refl). reflexivity.
Defined.
